(** * CourtBookingBot: a shallow embedding of the booking engine

    The development follows the Python sources:
    - [config_manager.py]  : [BookingConfig] and its validation, the
      configuration summary;
    - [validate_env.py]    : the masking of secret values;
    - [court_booking/booker.py] : [CourtBooker] with the date resolver
      [calculate_booking_date], the single attempt [book_court] and the
      retry controller [run_with_retry].

    Python integers are [Z], Python strings are [string], exceptions are
    values of [exn] carried by the [result] type.  The browser automation
    driver, the clock and [time.sleep] are external: they are the methods
    of the class [AutomationPort] over an abstract world. *)

From Stdlib Require Import ZArith List String Ascii Bool Lia.
From Stdlib Require Import Numbers.DecimalString Numbers.DecimalZ
  Numbers.DecimalPos.
Import ListNotations.

Open Scope string_scope.
Open Scope Z_scope.

(* ================================================================== *)
(** * Python values: exceptions, results, strings, integers            *)
(* ================================================================== *)

Module Py.

(** The classes of the exceptions that occur.  [KeyboardInterrupt] and
    [SystemExit] derive from [BaseException] only; the others derive from
    [Exception]. *)
Inductive exn_class :=
| Exception
| ValueError
| OverflowError
| IndexError
| KeyboardInterrupt
| SystemExit.

Record exn := mk_exn { exn_cls : exn_class; exn_msg : string }.

(** [isinstance(e, Exception)] *)
Definition isinstance_Exception (e : exn) : bool :=
  match exn_cls e with
  | KeyboardInterrupt | SystemExit => false
  | _ => true
  end.

(** [str(e)] *)
Definition str_exn (e : exn) : string := exn_msg e.

Inductive result (A : Type) :=
| Ok (a : A)
| Raise (e : exn).
Arguments Ok {A} a.
Arguments Raise {A} e.

Definition len (s : string) : Z := Z.of_nat (String.length s).

(** [s[i]] for an integer index: negative indices count from the end, an
    index out of range raises [IndexError]. *)
Definition getitem (s : string) (i : Z) : result ascii :=
  let j := if i <? 0 then i + len s else i in
  if (0 <=? j) && (j <? len s) then
    match String.get (Z.to_nat j) s with
    | Some c => Ok c
    | None => Raise (mk_exn IndexError "string index out of range")
    end
  else Raise (mk_exn IndexError "string index out of range").

(** Slice bounds are clamped as Python does. *)
Definition clamp (s : string) (i : Z) : nat :=
  let j := if i <? 0 then i + len s else i in
  Z.to_nat (Z.min (Z.max 0 j) (len s)).

(** [s[a:]] *)
Definition slice_from (s : string) (a : Z) : string :=
  let a' := clamp s a in
  String.substring a' (String.length s - a') s.

(** [s[:b]] *)
Definition slice_to (s : string) (b : Z) : string :=
  String.substring 0 (clamp s b) s.

(** [s.find(c)] for a one-character needle: the first index, or [-1]. *)
Fixpoint find_from (c : ascii) (s : string) (i : Z) : Z :=
  match s with
  | EmptyString => -1
  | String a s' => if Ascii.eqb a c then i else find_from c s' (i + 1)
  end.

Definition find (s : string) (c : ascii) : Z := find_from c s 0.

(** [str(n)] for an integer. *)
Definition str_int (n : Z) : string :=
  NilZero.string_of_int (Z.to_int n).

(** The decimal digit [d] (0..9) as a character. *)
Definition digit (d : Z) : ascii := ascii_of_nat (48 + Z.to_nat (d mod 10)).

(** Zero-padded decimal fields, as [%m], [%d], [%H], ... ([pad2]), [%Y]
    ([pad4]) and [%f] ([pad6]) print them. *)
Definition pad2 (n : Z) : string :=
  String (digit (n / 10)) (String (digit n) EmptyString).

Definition pad4 (n : Z) : string :=
  String (digit (n / 1000)) (String (digit (n / 100)) (pad2 n)).

Definition pad6 (n : Z) : string :=
  String (digit (n / 100000)) (String (digit (n / 10000)) (pad4 n)).

(** Every character is a decimal digit. *)
Fixpoint all_digits (s : string) : bool :=
  match s with
  | EmptyString => true
  | String c s' =>
      (48 <=? Z.of_nat (nat_of_ascii c)) && (Z.of_nat (nat_of_ascii c) <=? 57)
      && all_digits s'
  end.

(** [c * n] for a one-character string. *)
Fixpoint repeat_char (c : ascii) (n : nat) : string :=
  match n with
  | O => EmptyString
  | S k => String c (repeat_char c k)
  end.

(** [range(a, b)] *)
Definition range (a b : Z) : list Z :=
  map (fun i => a + Z.of_nat i) (seq 0 (Z.to_nat (b - a))).

End Py.
Export Py.

(* ================================================================== *)
(** * The platform's [datetime]                                        *)
(* ================================================================== *)

(** The proleptic Gregorian calendar of Python's [datetime] module, with
    its ordinal arithmetic ([_ymd2ord], [_ord2ymd]), the range
    [MINYEAR..MAXYEAR] and the [OverflowError] of an addition that leaves
    it.  Only what [booker.py] calls is modelled. *)
Module PyDatetime.

Record datetime := mk_datetime {
  year : Z; month : Z; day : Z;
  hour : Z; minute : Z; second : Z; microsecond : Z
}.

Definition MINYEAR : Z := 1.
Definition MAXYEAR : Z := 9999.
Definition MAXORDINAL : Z := 3652059.

Definition DAYS_IN_MONTH : list Z :=
  [-1; 31; 28; 31; 30; 31; 30; 31; 31; 30; 31; 30; 31].

Definition DAYS_BEFORE_MONTH : list Z :=
  [-1; 0; 31; 59; 90; 120; 151; 181; 212; 243; 273; 304; 334].

Definition is_leap (y : Z) : bool :=
  (y mod 4 =? 0) && (negb (y mod 100 =? 0) || (y mod 400 =? 0)).

Definition days_before_year (y : Z) : Z :=
  let y' := y - 1 in
  y' * 365 + y' / 4 - y' / 100 + y' / 400.

Definition days_in_month (y m : Z) : Z :=
  if (m =? 2) && is_leap y then 29
  else nth (Z.to_nat m) DAYS_IN_MONTH (-1).

Definition days_before_month (y m : Z) : Z :=
  nth (Z.to_nat m) DAYS_BEFORE_MONTH (-1) + Z.b2z ((2 <? m) && is_leap y).

Definition ymd2ord (y m d : Z) : Z :=
  days_before_year y + days_before_month y m + d.

Definition DI400Y : Z := 146097.
Definition DI100Y : Z := 36524.
Definition DI4Y : Z := 1461.

Definition ord2ymd (ordinal : Z) : Z * Z * Z :=
  let n := ordinal - 1 in
  let n400 := n / DI400Y in
  let n := n mod DI400Y in
  let y := n400 * 400 + 1 in
  let n100 := n / DI100Y in
  let n := n mod DI100Y in
  let n4 := n / DI4Y in
  let n := n mod DI4Y in
  let n1 := n / 365 in
  let n := n mod 365 in
  let y := y + n100 * 100 + n4 * 4 + n1 in
  if (n1 =? 4) || (n100 =? 4) then (y - 1, 12, 31)
  else
    let leapyear := (n1 =? 3) && (negb (n4 =? 24) || (n100 =? 3)) in
    let m := Z.shiftr (n + 50) 5 in
    let preceding :=
      nth (Z.to_nat m) DAYS_BEFORE_MONTH (-1) + Z.b2z ((2 <? m) && leapyear) in
    if n <? preceding then
      let m := m - 1 in
      let preceding :=
        preceding
        - (nth (Z.to_nat m) DAYS_IN_MONTH (-1) + Z.b2z ((m =? 2) && leapyear)) in
      (y, m, n - preceding + 1)
    else (y, m, n - preceding + 1).

(** [self.toordinal()] *)
Definition toordinal (self : datetime) : Z :=
  ymd2ord (year self) (month self) (day self).

(** [timedelta(days=n)]: the number of days is first converted to a C
    [int], then checked against the limit of the type. *)
Definition timedelta_days (n : Z) : result Z :=
  if (n <? -2147483648) || (2147483647 <? n) then
    Raise (mk_exn OverflowError "Python int too large to convert to C int")
  else if 999999999 <? Z.abs n then
    Raise (mk_exn OverflowError
             ("days=" ++ str_int n ++ "; must have magnitude <= 999999999"))
  else Ok n.

(** [self + timedelta(days=n)]: the date moves by [n] days, the time of
    day is kept; a result outside [1 .. MAXORDINAL] raises. *)
Definition add_days (self : datetime) (n : Z) : result datetime :=
  match timedelta_days n with
  | Raise e => Raise e
  | Ok delta =>
      let o := toordinal self + delta in
      if (0 <? o) && (o <=? MAXORDINAL) then
        let '(y, m, d) := ord2ymd o in
        Ok (mk_datetime y m d
              (hour self) (minute self) (second self) (microsecond self))
      else Raise (mk_exn OverflowError "date value out of range")
  end.

(** [self.strftime("%m/%d/%Y")] *)
Definition strftime_mdY (self : datetime) : string :=
  pad2 (month self) ++ "/" ++ pad2 (day self) ++ "/" ++ pad4 (year self).

(** [self.strftime("%Y%m%d_%H%M%S")] *)
Definition strftime_stamp (self : datetime) : string :=
  pad4 (year self) ++ pad2 (month self) ++ pad2 (day self) ++ "_"
  ++ pad2 (hour self) ++ pad2 (minute self) ++ pad2 (second self).

(** [str(self)]: ISO format with a space separator; the microseconds
    are printed when they are not zero. *)
Definition str_datetime (self : datetime) : string :=
  pad4 (year self) ++ "-" ++ pad2 (month self) ++ "-" ++ pad2 (day self)
  ++ " " ++ pad2 (hour self) ++ ":" ++ pad2 (minute self) ++ ":"
  ++ pad2 (second self)
  ++ (if microsecond self =? 0 then "" else "." ++ pad6 (microsecond self)).

(** The values a [datetime] object can hold. *)
Definition valid_datetime (t : datetime) : Prop :=
  MINYEAR <= year t <= MAXYEAR /\
  1 <= month t <= 12 /\
  1 <= day t <= days_in_month (year t) (month t) /\
  0 <= hour t < 24 /\ 0 <= minute t < 60 /\ 0 <= second t < 60 /\
  0 <= microsecond t < 1000000.

(** Two readings of the clock on the same calendar day. *)
Definition same_date (a b : datetime) : Prop :=
  year a = year b /\ month a = month b /\ day a = day b.

End PyDatetime.
Export PyDatetime.

(* ================================================================== *)
(** * The calendar, day by day                                         *)
(* ================================================================== *)

(** The reference against which the date resolver is checked: the
    calendar date [n] days after a date is reached by stepping to the
    next day [n] times; the token the site expects is month, day and year
    in decimal, the month and the day as plain numbers. *)
Module Calendar.

Definition next_day (t : datetime) : datetime :=
  if day t <? days_in_month (year t) (month t) then
    mk_datetime (year t) (month t) (day t + 1)
      (hour t) (minute t) (second t) (microsecond t)
  else if month t <? 12 then
    mk_datetime (year t) (month t + 1) 1
      (hour t) (minute t) (second t) (microsecond t)
  else
    mk_datetime (year t + 1) 1 1
      (hour t) (minute t) (second t) (microsecond t).

Definition plus_days (n : nat) (t : datetime) : datetime :=
  Nat.iter n next_day t.

Definition date_token (t : datetime) : string :=
  str_int (month t) ++ "/" ++ str_int (day t) ++ "/" ++ pad4 (year t).

(** A calendar date, whatever the year from 1 on. *)
Definition valid_ymd (t : datetime) : Prop :=
  1 <= year t /\ 1 <= month t <= 12 /\
  1 <= day t <= days_in_month (year t) (month t).

(** The month and the day from the day of the year, as [ord2ymd] finds
    them once it has the year. *)
Definition month_day (leapyear : bool) (n : Z) : Z * Z :=
  let m := Z.shiftr (n + 50) 5 in
  let preceding :=
    nth (Z.to_nat m) DAYS_BEFORE_MONTH (-1) + Z.b2z ((2 <? m) && leapyear) in
  if n <? preceding then
    (m - 1,
     n - (preceding
          - (nth (Z.to_nat (m - 1)) DAYS_IN_MONTH (-1)
             + Z.b2z ((m - 1 =? 2) && leapyear))) + 1)
  else (m, n - preceding + 1).

(** A decimal component without a leading zero. *)
Definition no_leading_zero (s : string) : Prop :=
  match s with
  | String c _ => c <> "0"%char
  | EmptyString => False
  end.

End Calendar.
Export Calendar.

(* ================================================================== *)
(** * config_manager.py                                                *)
(* ================================================================== *)

Module ConfigManager.

Record BookingConfig := mk_BookingConfig {
  (* Credentials *)
  username : string;
  password : string;
  email_to : string;
  email_from : string;
  email_password : string;
  (* Booking Configuration *)
  zip_code : string;
  club_name : string;
  login_url : string;
  (* Booking Preferences *)
  preferred_day : string;
  preferred_time : string;
  duration : string;
  booking_ahead_days : Z;
  (* Retry Configuration *)
  max_retries : Z;
  retry_delay : Z
}.

Definition valid_durations : list string := ["30"; "60"; "90"; "120"].

(** [x in l] for a list of strings *)
Definition str_in (x : string) (l : list string) : bool :=
  existsb (String.eqb x) l.

(** [not s] for a string: true on the empty string. *)
Definition str_not (s : string) : bool :=
  match s with EmptyString => true | _ => false end.

Definition _validate (self : BookingConfig) : result unit :=
  if str_not (username self) || str_not (password self) then
    Raise (mk_exn ValueError "Username and password are required")
  else if str_not (login_url self) then
    Raise (mk_exn ValueError "Login URL is required")
  else if booking_ahead_days self <? 0 then
    Raise (mk_exn ValueError "Booking ahead days must be positive")
  else if max_retries self <? 1 then
    Raise (mk_exn ValueError "Max retries must be at least 1")
  else if retry_delay self <? 0 then
    Raise (mk_exn ValueError "Retry delay must be non-negative")
  else if negb (str_in (duration self) valid_durations) then
    Raise (mk_exn ValueError
             "Duration must be one of ['30', '60', '90', '120']")
  else Ok tt.

(** What the validation lets through. *)
Definition valid_config (c : BookingConfig) : Prop :=
  username c <> "" /\ password c <> "" /\ login_url c <> "" /\
  In (duration c) valid_durations /\
  0 <= booking_ahead_days c /\ 1 <= max_retries c /\ 0 <= retry_delay c.

Definition __post_init__ (self : BookingConfig) : result unit :=
  _validate self.

(** [BookingConfig(...)]: the constructor the dataclass generates stores
    the fields and calls [__post_init__]; when that raises, the caller
    gets the exception and no instance. *)
Definition new_BookingConfig
    (username password email_to email_from email_password
     zip_code club_name login_url
     preferred_day preferred_time duration : string)
    (booking_ahead_days max_retries retry_delay : Z) : result BookingConfig :=
  let self :=
    mk_BookingConfig username password email_to email_from email_password
      zip_code club_name login_url preferred_day preferred_time duration
      booking_ahead_days max_retries retry_delay in
  match __post_init__ self with
  | Ok _ => Ok self
  | Raise e => Raise e
  end.

(** [ConfigManager.get_config()].  The process environment
    ([os.getenv(key, default)]) and the parser [int] are the platform's
    and are taken as parameters. *)
Definition get_config
    (getenv : string -> string -> string) (int : string -> result Z)
  : result BookingConfig :=
  match int (getenv "BOOKING_AHEAD_DAYS" "13") with
  | Raise e => Raise e
  | Ok ahead =>
  match int (getenv "MAX_RETRIES" "5") with
  | Raise e => Raise e
  | Ok retries =>
  match int (getenv "RETRY_DELAY" "5") with
  | Raise e => Raise e
  | Ok delay =>
      new_BookingConfig
        (getenv "CITYSPORTS_USERNAME" "")
        (getenv "CITYSPORTS_PASSWORD" "")
        (getenv "EMAIL_TO" "")
        (getenv "EMAIL_FROM" "")
        (getenv "EMAIL_PASSWORD" "")
        (getenv "ZIP_CODE" "94085")
        (getenv "CLUB_NAME" "ctl00$MainContent$gvClub$ctl02$arySelClub")
        (getenv "LOGIN_URL"
           "https://www.citysportsfitness.com/Pages/login.aspx")
        (getenv "PREFERRED_DAY" "Monday")
        (getenv "PREFERRED_TIME" "08:00 PM")
        (getenv "DURATION" "120")
        ahead retries delay
  end end end.


Definition newline : string := String (ascii_of_nat 10) EmptyString.

Definition rule50 : string := repeat_char "="%char 50.

(** [print_config_summary]: the lines it writes to standard output, in
    order (one per [print]). *)
Definition print_config_summary (config : BookingConfig) : list string :=
  [ newline ++ rule50;
    "CONFIGURATION SUMMARY";
    rule50;
    "Username: " ++ slice_to (username config) 3 ++ "***";
    "ZIP Code: " ++ zip_code config;
    "Preferred Day: " ++ preferred_day config;
    "Preferred Time: " ++ preferred_time config;
    "Duration: " ++ duration config ++ " minutes";
    "Booking Ahead: " ++ str_int (booking_ahead_days config) ++ " days";
    "Max Retries: " ++ str_int (max_retries config);
    "Retry Delay: " ++ str_int (retry_delay config) ++ " seconds";
    rule50 ++ newline ].

End ConfigManager.

(* ================================================================== *)
(** * validate_env.py                                                  *)
(* ================================================================== *)

Module ValidateEnv.

(** The masking [validate_environment] applies to a secret it shows:
    [value[:3] + '*' * (len(value) - 3) if len(value) > 3 else '***']. *)
Definition masked_value (value : string) : string :=
  if 3 <? len value then
    slice_to value 3 ++ repeat_char "*"%char (Z.to_nat (len value - 3))
  else "***".

End ValidateEnv.

(** [needle] occurs in [s] as a contiguous substring. *)
Fixpoint contains (needle s : string) : bool :=
  String.prefix needle s
  || match s with
     | EmptyString => false
     | String _ s' => contains needle s'
     end.

(* ================================================================== *)
(** * Effects: the automation port, the clock, the trace               *)
(* ================================================================== *)

Module Effects.

(** The calls [booker.py] makes on the Playwright objects.  One attempt
    owns one playwright instance, one browser, one context and one page,
    so the handles are not modelled; a call names the method and its
    arguments. *)
Inductive call :=
| PlaywrightStart                              (* sync_playwright().__enter__ *)
| PlaywrightStop                               (* sync_playwright().__exit__ *)
| Launch (headless : bool)                     (* p.chromium.launch *)
| NewContext (user_agent : string) (width height : Z) (* browser.new_context *)
| NewPage                                      (* context.new_page *)
| Goto (url wait_until : string)               (* page.goto *)
| WaitForSelector (selector state : string)    (* page.wait_for_selector *)
| Fill (selector value : string)               (* page.fill *)
| Click (selector : string)                    (* page.click *)
| WaitForLoadState (state : string)            (* page.wait_for_load_state *)
| WaitForTimeout (ms : Z)                      (* page.wait_for_timeout *)
| SelectOption (selector value : string)       (* page.select_option *)
| IsVisible (selector : string)                (* page.is_visible *)
| Screenshot (path : string)                   (* page.screenshot *)
| BrowserClose.                                (* browser.close *)

(** What a call returns: only [is_visible] returns something the code
    looks at, and it looks at its truth value. *)
Inductive pyval := PyNone | PyBool (b : bool).

Definition truthy (v : pyval) : bool :=
  match v with PyBool b => b | PyNone => false end.

(** What a run leaves behind, in order: the lines printed, the calls
    made on the port with what each returned or raised, the calls of
    [time.sleep] that were accepted, and the calls of
    [self.book_court()] with what happened inside and what came back. *)
#[warnings="-register-all"] Inductive event :=
| EvPrint (line : string)
| EvCall (c : call) (r : result pyval)
| EvSleep (seconds : Z)
| EvBookCourt (inner : list event) (outcome : result (bool * string)).

(** The external collaborators over a world [W]: the automation driver
    (every call may raise and may change the world), the clock read by
    [datetime.now()] and the passing of time in [time.sleep]. *)
Class AutomationPort (W : Type) := {
  port_call : call -> W -> result pyval * W;
  clock : W -> datetime;
  sleep : Z -> W -> W
}.

(** A computation: from a world to a result (a value or a raised
    exception), the world after it and the events it produced. *)
Definition M (W A : Type) : Type := W -> result A * W * list event.

(** The largest number of whole seconds whose nanoseconds fit in a
    signed 64-bit integer: [(2^63 - 1) / 10^9]. *)
Definition SLEEP_MAX : Z := 9223372036.

(** What [time.sleep] raises for a length it refuses, [None] for a
    length it accepts. *)
Definition sleep_error (seconds : Z) : option exn :=
  if (seconds <? - SLEEP_MAX) || (SLEEP_MAX <? seconds) then
    Some (mk_exn OverflowError
            "timestamp too large to convert to C _PyTime_t")
  else if seconds <? 0 then
    Some (mk_exn ValueError "sleep length must be non-negative")
  else None.

Section Monad.
Context {W : Type}.

Definition ret {A} (a : A) : M W A := fun w => (Ok a, w, []).


Definition lift {A} (r : result A) : M W A := fun w => (r, w, []).

Definition bind {A B} (m : M W A) (k : A -> M W B) : M W B :=
  fun w =>
    match m w with
    | (Ok a, w1, t1) => let '(r, w2, t2) := k a w1 in (r, w2, (t1 ++ t2)%list)
    | (Raise e, w1, t1) => (Raise e, w1, t1)
    end.

(** [try: m  except Exception as e: handler e] *)
Definition try_except {A} (m : M W A) (handler : exn -> M W A) : M W A :=
  fun w =>
    match m w with
    | (Raise e, w1, t1) =>
        if isinstance_Exception e then
          let '(r, w2, t2) := handler e w1 in (r, w2, (t1 ++ t2)%list)
        else (Raise e, w1, t1)
    | done => done
    end.

(** [try: m  finally: cleanup]: the cleanup runs however [m] ends; when
    it raises, its exception replaces the outcome of [m]. *)
Definition try_finally {A} (m : M W A) (cleanup : M W unit) : M W A :=
  fun w =>
    let '(r, w1, t1) := m w in
    match cleanup w1 with
    | (Ok _, w2, t2) => (r, w2, (t1 ++ t2)%list)
    | (Raise e, w2, t2) => (Raise e, w2, (t1 ++ t2)%list)
    end.

Definition print (line : string) : M W unit :=
  fun w => (Ok tt, w, [EvPrint line]).

Context `{AutomationPort W}.

Definition do_call (c : call) : M W pyval :=
  fun w => let '(r, w1) := port_call c w in (r, w1, [EvCall c r]).

(** [datetime.now()] *)
Definition datetime_now : M W datetime :=
  fun w => (Ok (clock w), w, []).

(** [time.sleep(seconds)] for an integer: the length is converted to
    nanoseconds in a signed 64-bit integer, which fails beyond
    [SLEEP_MAX] seconds on either side; then a negative length is
    refused. *)
Definition time_sleep (seconds : Z) : M W unit :=
  fun w =>
    match sleep_error seconds with
    | Some e => (Raise e, w, [])
    | None => (Ok tt, sleep seconds w, [EvSleep seconds])
    end.

End Monad.

Definition outcome {W A} (x : result A * W * list event) : result A :=
  fst (fst x).
Definition world_after {W A} (x : result A * W * list event) : W :=
  snd (fst x).
Definition trace {W A} (x : result A * W * list event) : list event :=
  snd x.

End Effects.
Export Effects.

Declare Scope py_scope.
Notation "x <- m ;; k" := (bind m (fun x => k))
  (at level 61, m at next level, right associativity) : py_scope.
Notation "m ;; k" := (bind m (fun _ => k))
  (at level 61, right associativity) : py_scope.
Open Scope py_scope.

(* ================================================================== *)
(** * court_booking/booker.py                                          *)
(* ================================================================== *)

Module Booker.

Import ConfigManager.

Record CourtBooker := mk_CourtBooker {
  config : BookingConfig;
  self_username : string;
  self_password : string;
  self_login_url : string;
  self_zip_code : string;
  self_club_name : string;
  self_preferred_time : string;
  self_duration : string;
  self_booking_ahead_days : Z
}.

(** [CourtBooker(config)]: [config if config else load_config()], then
    the fields are copied from the configuration.  [loaded] is what
    [load_config()] gives in the environment of the process. *)
Definition __init__ (loaded : result BookingConfig)
    (config : option BookingConfig) : result CourtBooker :=
  let chosen := match config with Some c => Ok c | None => loaded end in
  match chosen with
  | Raise e => Raise e
  | Ok c =>
      Ok (mk_CourtBooker c (username c) (password c) (login_url c)
            (zip_code c) (club_name c) (preferred_time c) (duration c)
            (booking_ahead_days c))
  end.

(** Lines 56-68 of [calculate_booking_date], from the value [today] read
    from the clock. *)
Definition booking_date_string (today : datetime) (ahead : Z)
  : result string :=
  match add_days today ahead with
  | Raise e => Raise e
  | Ok booking_date =>
      let date_string := strftime_mdY booking_date in
      (* Remove leading zeros from month *)
      match getitem date_string 0 with
      | Raise e => Raise e
      | Ok c0 =>
          let date_string :=
            if Ascii.eqb c0 "0" then slice_from date_string 1
            else date_string in
          (* Remove leading zeros from day *)
          let slash_index := find date_string "/" + 1 in
          match getitem date_string slash_index with
          | Raise e => Raise e
          | Ok c1 =>
              Ok (if Ascii.eqb c1 "0" then
                    slice_to date_string slash_index
                    ++ slice_from date_string (slash_index + 1)
                  else date_string)
          end
      end
  end.

Definition dquote : string := String (ascii_of_nat 34) EmptyString.

Definition USER_AGENT : string :=
  "Mozilla/5.0 (Windows NT 10.0; Win64; x64) AppleWebKit/537.36 (KHTML, like Gecko) Chrome/121.0.0.0 Safari/537.36".

Definition SUCCESS_MARKER : string := "text=Your reservation has been saved".

Section Methods.
Context {W : Type} `{AutomationPort W}.

Definition calculate_booking_date (self : CourtBooker) : M W string :=
  today <- datetime_now ;;
  lift (booking_date_string today (self_booking_ahead_days self)).

Definition _login (self : CourtBooker) : M W unit :=
  do_call (Goto (self_login_url self) "networkidle") ;;
  print "✓ Loaded login page" ;;
  do_call (WaitForSelector "#txtUser" "visible") ;;
  do_call (Fill "#txtUser" (self_username self)) ;;
  do_call (Fill "#txtPassword" (self_password self)) ;;
  do_call (Click "#ctl00_MainContent_Login1_btnLogin") ;;
  do_call (WaitForLoadState "networkidle") ;;
  print "✓ Logged in successfully".

Definition _navigate_to_reservations (self : CourtBooker) : M W unit :=
  do_call (Click "text=Reservations") ;;
  do_call (Click "text=Racquetball/Squash") ;;
  print "✓ Navigated to court reservations".

Definition _select_club (self : CourtBooker) : M W unit :=
  do_call (Click "#btnChangeClub") ;;
  do_call (Fill "#txtZipCode" (self_zip_code self)) ;;
  do_call (Click "#btnFindclub") ;;
  do_call (WaitForTimeout 2000) ;;
  do_call (Click ("input[name=" ++ dquote ++ self_club_name self ++ dquote
                  ++ "][id=" ++ dquote ++ "arySelClub" ++ dquote ++ "]")) ;;
  print "✓ Selected club: SUNNYVALE - E. ARQUES AVE." ;;
  do_call (WaitForTimeout 3000) ;;
  ret tt.

Definition _set_booking_details (self : CourtBooker) : M W unit :=
  booking_date <- calculate_booking_date self ;;
  do_call (SelectOption "#ddlDates" booking_date) ;;
  print ("✓ Selected date: " ++ booking_date) ;;
  do_call (SelectOption "#ddlDuration" (self_duration self)) ;;
  do_call (SelectOption "#cboSearByTimeList" (self_preferred_time self)) ;;
  print ("✓ Selected time: " ++ self_preferred_time self ++ " for "
         ++ self_duration self ++ " minutes").

Definition _submit_reservation (self : CourtBooker) : M W bool :=
  do_call (Click "#btnSaveReservation") ;;
  do_call (WaitForTimeout 3000) ;;
  visible <- do_call (IsVisible SUCCESS_MARKER) ;;
  if truthy visible then
    print "✅ SUCCESS! Court booked successfully!" ;; ret true
  else
    print "❌ FAILED: Court may not be available" ;; ret false.

Definition _take_error_screenshot (self : CourtBooker) : M W unit :=
  t <- datetime_now ;;
  let timestamp := strftime_stamp t in
  let screenshot_path := "error_" ++ timestamp ++ ".png" in
  do_call (Screenshot screenshot_path) ;;
  print ("📸 Screenshot saved: " ++ screenshot_path).

(** The body of the [try] of [book_court] (lines 177-187). *)
Definition interaction (self : CourtBooker) : M W (bool * string) :=
  t <- datetime_now ;;
  print ("[" ++ str_datetime t ++ "] Starting court booking process...") ;;
  _login self ;;
  _navigate_to_reservations self ;;
  _select_club self ;;
  _set_booking_details self ;;
  booked <- _submit_reservation self ;;
  if booked then ret (true, "Booking successful")
  else ret (false, "Booking failed - slot may be taken").

(** The handler of [except Exception as e] (lines 190-192). *)
Definition on_exception (self : CourtBooker) (e : exn)
  : M W (bool * string) :=
  print ("❌ ERROR: " ++ str_exn e) ;;
  _take_error_screenshot self ;;
  ret (false, str_exn e).

(** Lines 169-174: the browser, the context and the page. *)
Definition open_session : M W unit :=
  do_call (Launch true) ;;
  do_call (NewContext USER_AGENT 1920 1080) ;;
  do_call NewPage ;;
  ret tt.

(** The way into the [try]: the context manager is entered and the
    session is opened. *)
Definition enter_session : M W unit :=
  do_call PlaywrightStart ;; open_session.

(** The part of the interaction that precedes the slot configuration. *)
Definition reach_slot_configuration (self : CourtBooker) : M W unit :=
  t <- datetime_now ;;
  print ("[" ++ str_datetime t ++ "] Starting court booking process...") ;;
  _login self ;;
  _navigate_to_reservations self ;;
  _select_club self.

(** The rest of the interaction: the slot configuration, the submission
    and the two outcomes. *)
Definition configure_and_submit (self : CourtBooker) : M W (bool * string) :=
  _set_booking_details self ;;
  booked <- _submit_reservation self ;;
  if booked then ret (true, "Booking successful")
  else ret (false, "Booking failed - slot may be taken").

(** Lines 176-195: [try] / [except Exception] / [finally]. *)
Definition guarded_attempt (self : CourtBooker) : M W (bool * string) :=
  try_finally
    (try_except (interaction self) (on_exception self))
    (do_call BrowserClose ;; ret tt).

(** [with sync_playwright() as p: body]: the context manager is left on
    every way out of the body; its [__exit__] does not swallow
    exceptions. *)
Definition with_sync_playwright {A} (body : M W A) : M W A :=
  do_call PlaywrightStart ;;
  try_finally body (do_call PlaywrightStop ;; ret tt).

Definition book_court (self : CourtBooker) : M W (bool * string) :=
  with_sync_playwright (open_session ;; guarded_attempt self).

(** [self.book_court()] as [run_with_retry] sees it: a call whose inner
    events and outcome are recorded as one event.  The method is looked
    up on [self] at each call (the tests replace it), so the retry
    controller takes it as an argument [book]. *)
Definition call_book (book : M W (bool * string)) : M W (bool * string) :=
  fun w => let '(r, w1, t) := book w in (r, w1, [EvBookCourt t r]).

(** The [for attempt in range(1, max_retries + 1)] loop, by recursion on
    the attempts still to make; [break] ends the recursion. *)
Fixpoint retry_loop (book : M W (bool * string))
    (max_retries retry_delay : Z) (attempts : list Z) : M W unit :=
  match attempts with
  | [] => ret tt
  | attempt :: rest =>
      print (newline ++ rule50) ;;
      print ("Attempt " ++ str_int attempt ++ " of " ++ str_int max_retries) ;;
      print rule50 ;;
      r <- call_book book ;;
      let '(success, message) := r in
      if success then
        print (newline ++ "🎉 Booking completed successfully!")
      else if attempt <? max_retries then
        print (newline ++ "⏳ Retrying in " ++ str_int retry_delay
               ++ " seconds...") ;;
        time_sleep retry_delay ;;
        retry_loop book max_retries retry_delay rest
      else
        print (newline ++ "❌ All " ++ str_int max_retries
               ++ " attempts failed.") ;;
        retry_loop book max_retries retry_delay rest
  end.

Definition run_with_retry (book : M W (bool * string)) (self : CourtBooker)
    (max_retries retry_delay : option Z) : M W unit :=
  let max_retries :=
    match max_retries with
    | Some n => n
    | None => ConfigManager.max_retries (config self)
    end in
  let retry_delay :=
    match retry_delay with
    | Some n => n
    | None => ConfigManager.retry_delay (config self)
    end in
  retry_loop book max_retries retry_delay (range 1 (max_retries + 1)).

(** [booking_bot.main]'s call: [booker.run_with_retry()] *)
Definition run (self : CourtBooker) : M W unit :=
  run_with_retry (book_court self) self None None.

End Methods.

(** What the tests count on the mocks. *)
Definition is_book (e : event) : bool :=
  match e with EvBookCourt _ _ => true | _ => false end.
Definition is_sleep (e : event) : bool :=
  match e with EvSleep _ => true | _ => false end.
Definition is_close (e : event) : bool :=
  match e with EvCall BrowserClose _ => true | _ => false end.
Definition is_date_selection (e : event) : bool :=
  match e with
  | EvCall (SelectOption selector _) _ => String.eqb selector "#ddlDates"
  | _ => false
  end.
Definition is_marker_query (e : event) : bool :=
  match e with EvCall (IsVisible _) _ => true | _ => false end.
Definition is_screenshot (e : event) : bool :=
  match e with EvCall (Screenshot _) _ => true | _ => false end.

Definition count (p : event -> bool) (t : list event) : nat :=
  List.length (filter p t).

(** An action none of whose events satisfies [p]. *)
Definition avoids {W A} (p : event -> bool) (m : M W A) : Prop :=
  forall w, count p (trace (m w)) = 0%nat.

(** The retry controller's view of a run: the attempts with their
    outcomes and the waits, in order. *)
Inductive step :=
| Attempt (outcome : result (bool * string))
| Wait (seconds : Z).

Fixpoint steps (t : list event) : list step :=
  match t with
  | [] => []
  | EvBookCourt _ r :: t' => Attempt r :: steps t'
  | EvSleep d :: t' => Wait d :: steps t'
  | _ :: t' => steps t'
  end.

Definition is_attempt (s : step) : bool :=
  match s with Attempt _ => true | Wait _ => false end.

Definition attempts (s : list step) : nat := List.length (filter is_attempt s).


(** The values chosen in the date dropdown, in order, the attempts of a
    retry run included. *)
Fixpoint selected_dates (e : event) : list string :=
  match e with
  | EvCall (SelectOption selector value) _ =>
      if String.eqb selector "#ddlDates" then [value] else []
  | EvBookCourt inner _ =>
      (fix all (t : list event) : list string :=
         match t with
         | [] => []
         | x :: t' => (selected_dates x ++ all t')%list
         end) inner
  | _ => []
  end.

Definition SLOT_TAKEN : string := "Booking failed - slot may be taken".

Definition book_calls := count is_book.
Definition sleep_calls := count is_sleep.
Definition close_calls := count is_close.
Definition screenshot_calls := count is_screenshot.

End Booker.

(* ================================================================== *)
(** * A scripted driver, as the tests build with mocks                 *)
(* ================================================================== *)

Module Mock.

(** A script fixes which calls raise (the [side_effect] of a mock), what
    [page.is_visible] returns and what the clock shows at the start.
    The world is the number of seconds elapsed: a call on the port takes
    one second, a fixed wait and [time.sleep] take their length. *)
Record script := mk_script {
  side_effect : call -> option exn;
  is_visible : pyval;
  start : datetime
}.

Definition duration_of (c : call) : Z :=
  match c with
  | WaitForTimeout ms => ms / 1000
  | _ => 1
  end.

Definition clock_at (start : datetime) (elapsed : Z) : datetime :=
  let secs := (hour start * 60 + minute start) * 60 + second start + elapsed in
  let '(y, m, d) := ord2ymd (toordinal start + secs / 86400) in
  let s := secs mod 86400 in
  mk_datetime y m d (s / 3600) (s mod 3600 / 60) (s mod 60)
    (microsecond start).

Definition port (s : script) : AutomationPort Z := {|
  port_call c w :=
    (match side_effect s c with
     | Some e => Raise e
     | None => Ok (match c with IsVisible _ => is_visible s | _ => PyNone end)
     end, w + duration_of c);
  clock := clock_at (start s);
  sleep seconds w := w + seconds
|}.

Definition never : call -> option exn := fun _ => None.


(** [page.goto] fails and then [page.screenshot] fails too. *)
Definition network_error_then_disk_full : call -> option exn :=
  fun c =>
    match c with
    | Goto _ _ => Some (mk_exn Exception "Network error")
    | Screenshot _ => Some (mk_exn Exception "No space left on device")
    | _ => None
    end.


(** The browser starts but no context can be created. *)
Definition no_context : call -> option exn :=
  fun c =>
    match c with
    | NewContext _ _ _ => Some (mk_exn Exception "Browser has been closed")
    | _ => None
    end.



(** [page.goto] fails with a message that reads like the verdict of a
    submission. *)
Definition misleading_error : call -> option exn :=
  fun c =>
    match c with
    | Goto _ _ => Some (mk_exn Exception "Booking failed - slot may be taken")
    | _ => None
    end.

(** [book_court] replaced by a mock that always reports a failure. *)
Definition always_fails : M Z (bool * string) :=
  fun w => (Ok (false, "Failed"), w, []).

(** [book_court] replaced by a mock that fails until one second has
    passed. *)
Definition fails_once : M Z (bool * string) :=
  fun w =>
    if w <? 1 then (Ok (false, "Failed"), w, [])
    else (Ok (true, "Booking successful"), w, []).

Definition new_year_2025 : datetime := mk_datetime 2025 1 1 0 0 0 0.

(** A driver that starts at midnight of 2025-01-01, with the given
    failures and the given answer of [page.is_visible]. *)
Definition on (side_effect : call -> option exn) (visible : bool)
  : AutomationPort Z :=
  port (mk_script side_effect (PyBool visible) new_year_2025).

(** A driver that never fails, started one minute before midnight; the
    confirmation never shows. *)
Definition late_evening : AutomationPort Z :=
  port (mk_script never (PyBool false) (mk_datetime 2025 1 1 23 59 0 0)).

Definition config_of (user : string) (ahead : Z) : ConfigManager.BookingConfig :=
  ConfigManager.mk_BookingConfig user "s3cret" "to@example.org"
    "from@example.org" "mailpw" "94085"
    "ctl00$MainContent$gvClub$ctl02$arySelClub"
    "https://www.citysportsfitness.com/Pages/login.aspx"
    "Monday" "08:00 PM" "120" ahead 5 5.

Definition booker_of (ahead : Z) : Booker.CourtBooker :=
  let c := config_of "alice@example.org" ahead in
  Booker.mk_CourtBooker c (ConfigManager.username c)
    (ConfigManager.password c) (ConfigManager.login_url c)
    (ConfigManager.zip_code c) (ConfigManager.club_name c)
    (ConfigManager.preferred_time c) (ConfigManager.duration c)
    (ConfigManager.booking_ahead_days c).



End Mock.

(* ================================================================== *)
(** * The process environment, the entry points, the checks of the tests *)
(* ================================================================== *)

(** The environment of the process: the variables that are set, with
    their values. *)
Module Environ.

Definition environ := string -> option string.

(** [os.getenv(key)] *)
Definition getenv1 (env : environ) (key : string) : option string := env key.

(** [os.getenv(key, default)]: a variable that is set wins, even when it
    is set to the empty string. *)
Definition getenv (env : environ) (key default : string) : string :=
  match env key with
  | Some value => value
  | None => default
  end.

(** What [ConfigManager.get_env_variable] gives: the value, or a
    [KeyError] with its message. *)
Inductive lookup :=
| Found (value : string)
| KeyError (message : string).

(** [ConfigManager.get_env_variable(key, default)]; [default] is [None]
    when the caller gives none. *)
Definition get_env_variable (env : environ) (key : string)
    (default : option string) : lookup :=
  let value := match env key with Some v => Some v | None => default end in
  match value with
  | None =>
      KeyError ("Environment variable '" ++ key
                ++ "' not found and no default provided")
  | Some v => Found v
  end.

End Environ.

(** config.py: the settings the module fixes (the credentials it reads
    from the environment are left out). *)
Module Config.

Definition ZIP_CODE : string := "94085".
Definition CLUB_NAME : string := "ctl00$MainContent$gvClub$ctl02$arySelClub".
Definition LOGIN_URL : string :=
  "https://www.citysportsfitness.com/Pages/login.aspx".
Definition PREFERRED_DAY : string := "Monday".
Definition PREFERRED_TIME : string := "08:00 PM".
Definition DURATION : string := "120".
Definition BOOKING_AHEAD_DAYS : Z := 13.
Definition MAX_RETRIES : Z := 5.
Definition RETRY_DELAY : Z := 5.

End Config.

(** validate_env.py, the whole of [validate_environment] and the exit
    code of the script. *)
Module ValidateEnvironment.

Import Environ.

Definition required_vars : list (string * string) :=
  [ ("CITYSPORTS_USERNAME", "CitySports login username");
    ("CITYSPORTS_PASSWORD", "CitySports login password");
    ("EMAIL_TO", "Recipient email address for notifications");
    ("EMAIL_FROM", "Sender email address");
    ("EMAIL_PASSWORD", "Email account password for sending notifications") ].

Definition optional_vars : list (string * string) :=
  [ ("BOOKING_AHEAD_DAYS", "Days ahead to book (default: 13)");
    ("PREFERRED_TIME", "Preferred booking time (default: 08:00 PM)") ].

Definition rule60 : string := repeat_char "="%char 60.

(** [if value:] for what [os.getenv(var)] returns: [None] and the empty
    string are false. *)
Definition is_set (value : option string) : bool :=
  match value with
  | Some (String _ _) => true
  | _ => false
  end.

(** One turn of the loop over the required variables: the line printed
    and what is appended to [missing_vars]. *)
Definition check_required (env : environ) (entry : string * string)
  : string * list string :=
  let '(var, description) := entry in
  match getenv1 env var with
  | Some (String c rest) =>
      ("  ✓ " ++ var ++ ": " ++ ValidateEnv.masked_value (String c rest)
       ++ " (" ++ description ++ ")", [])
  | _ => ("  ✗ " ++ var ++ ": NOT SET (" ++ description ++ ")", [var])
  end.

(** One turn of the loop over the optional variables. *)
Definition check_optional (env : environ) (entry : string * string)
  : string :=
  let '(var, description) := entry in
  match getenv1 env var with
  | Some (String c rest) =>
      "  ✓ " ++ var ++ ": " ++ String c rest ++ " (" ++ description ++ ")"
  | _ => "  ℹ " ++ var ++ ": Not set, will use default (" ++ description ++ ")"
  end.

Definition missing_vars (env : environ) : list string :=
  flat_map (fun entry => snd (check_required env entry)) required_vars.

(** [validate_environment()]: what it returns and the lines it prints
    ([print()] prints an empty line). *)
Definition validate_environment (env : environ) : bool * list string :=
  let head :=
    [ rule60; "Environment Variables Validation"; rule60; "";
      "Checking required variables:" ] in
  let required := map (fun entry => fst (check_required env entry))
                      required_vars in
  let optional := map (check_optional env) optional_vars in
  let missing := missing_vars env in
  let body :=
    (head ++ required ++ [""; "Checking optional variables:"]
     ++ optional ++ [""; rule60])%list in
  match missing with
  | [] =>
      (true,
       (body ++ [ "✅ VALIDATION PASSED: All required variables are set";
                  rule60 ])%list)
  | _ =>
      (false,
       (body
        ++ [ ("❌ VALIDATION FAILED: "
              ++ str_int (Z.of_nat (List.length missing))
              ++ " required variable(s) missing")%string;
             ""; "Missing variables:" ]
        ++ map (fun var => ("  - " ++ var)%string) missing
        ++ [ ""; "Please set these environment variables or GitHub Secrets.";
             rule60 ])%list)
  end.

(** [sys.exit(0 if success else 1)] *)
Definition exit_code (env : environ) : Z :=
  if fst (validate_environment env) then 0 else 1.

(** Two environments show the same of a variable: it is set in both or
    in none, and where it is set the masks are the same. *)
Definition same_mask (env env' : environ) (var : string) : Prop :=
  match getenv1 env var, getenv1 env' var with
  | Some (String c rest), Some (String c' rest') =>
      ValidateEnv.masked_value (String c rest)
      = ValidateEnv.masked_value (String c' rest')
  | Some (String _ _), _ | _, Some (String _ _) => False
  | _, _ => True
  end.

End ValidateEnvironment.

(** booking_bot.py *)
Module BookingBot.

Import Booker.


End BookingBot.

(** test_booking_bot.py: what the tests of [calculate_booking_date] do
    with its result. *)
Module TestBookingBot.

(** [s.count(c)] for a one-character needle *)
Fixpoint count_char (c : ascii) (s : string) : nat :=
  match s with
  | EmptyString => 0%nat
  | String a s' => ((if Ascii.eqb a c then 1 else 0) + count_char c s')%nat
  end.

(** [s.split(c)] for a one-character separator *)
Fixpoint split (c : ascii) (s : string) : list string :=
  match s with
  | EmptyString => [EmptyString]
  | String a s' =>
      if Ascii.eqb a c then EmptyString :: split c s'
      else match split c s' with
           | part :: parts => String a part :: parts
           | [] => [String a EmptyString]
           end
  end.

(** [int(s)] for a string of decimal digits, as the tests apply it to
    the parts of a date; other strings are outside this model. *)
Definition int_of_digits (s : string) : option Z :=
  if all_digits s then
    match NilZero.uint_of_string s with
    | Some u => Some (Z.of_uint u)
    | None => None
    end
  else None.

Definition between (lo x hi : Z) : bool := (lo <=? x) && (x <=? hi).

(** The assertions of [test_calculate_booking_date_format]. *)
Definition format_assertions (booking_date : string) : bool :=
  match booking_date with
  | EmptyString => false
  | String c0 _ =>
      negb (Ascii.eqb c0 "0")
      && Nat.eqb (count_char "/" booking_date) 2
      && match split "/" booking_date with
         | [p0; p1; p2] =>
             match int_of_digits p0, int_of_digits p1 with
             | Some m, Some d =>
                 between 1 m 12 && between 1 d 31
                 && Nat.eqb (String.length p2) 4
             | _, _ => false
             end
         | _ => false
         end
  end.

(** The date [test_calculate_booking_date_advance_days] reads back:
    year, month, day. *)
Definition parse_date (booking_date : string) : option (Z * Z * Z) :=
  match split "/" booking_date with
  | [p0; p1; p2] =>
      match int_of_digits p2, int_of_digits p0, int_of_digits p1 with
      | Some y, Some m, Some d => Some (y, m, d)
      | _, _, _ => None
      end
  | _ => None
  end.

End TestBookingBot.

(** More of what the tests observe on the mocks. *)
Module Observed.

Definition is_port_call (e : event) : bool :=
  match e with EvCall _ _ => true | _ => false end.

(** The calls made on the port, in order. *)
Fixpoint calls_of (t : list event) : list call :=
  match t with
  | [] => []
  | EvCall c _ :: t' => c :: calls_of t'
  | _ :: t' => calls_of t'
  end.

(** The calls of the interaction in the order of the source, from the
    login to the query of the marker, with the date put in the dropdown. *)
Definition interaction_script (self : Booker.CourtBooker) (date : string)
  : list call :=
  [ Goto (Booker.self_login_url self) "networkidle";
    WaitForSelector "#txtUser" "visible";
    Fill "#txtUser" (Booker.self_username self);
    Fill "#txtPassword" (Booker.self_password self);
    Click "#ctl00_MainContent_Login1_btnLogin";
    WaitForLoadState "networkidle";
    Click "text=Reservations";
    Click "text=Racquetball/Squash";
    Click "#btnChangeClub";
    Fill "#txtZipCode" (Booker.self_zip_code self);
    Click "#btnFindclub";
    WaitForTimeout 2000;
    Click ("input[name=" ++ Booker.dquote ++ Booker.self_club_name self
           ++ Booker.dquote ++ "][id=" ++ Booker.dquote ++ "arySelClub"
           ++ Booker.dquote ++ "]");
    WaitForTimeout 3000;
    SelectOption "#ddlDates" date;
    SelectOption "#ddlDuration" (Booker.self_duration self);
    SelectOption "#cboSearByTimeList" (Booker.self_preferred_time self);
    Click "#btnSaveReservation";
    WaitForTimeout 3000;
    IsVisible Booker.SUCCESS_MARKER ].

(** [l] is the beginning of [script]. *)
Definition prefix_of {A} (l script : list A) : Prop :=
  exists rest, script = (l ++ rest)%list.


Definition is_stop (e : event) : bool :=
  match e with EvCall PlaywrightStop _ => true | _ => false end.

(** A call on the port that raised. *)
Definition call_failed (e : event) : bool :=
  match e with EvCall _ (Raise _) => true | _ => false end.

(** The calls the slot configuration and the submission make. *)
Definition is_selection (e : event) : bool :=
  match e with EvCall (SelectOption _ _) _ => true | _ => false end.
Definition is_submission (e : event) : bool :=
  match e with
  | EvCall (Click selector) _ => String.eqb selector "#btnSaveReservation"
  | _ => false
  end.

End Observed.

(** Environments and a parser to run the examples with. *)
Module Fixtures.

(** The environment that sets the listed variables, the first setting of
    a variable winning. *)
Fixpoint environ_of (vars : list (string * string)) : Environ.environ :=
  fun key =>
    match vars with
    | [] => None
    | (var, value) :: vars' =>
        if String.eqb var key then Some value else environ_of vars' key
    end.

(** [int] on the strings of ASCII digits, where it gives their decimal
    value; on the other strings used in the examples it raises. *)
Definition int_of_str (s : string) : result Z :=
  match TestBookingBot.int_of_digits s with
  | Some n => Ok n
  | None =>
      Raise (mk_exn ValueError
               ("invalid literal for int() with base 10: '" ++ s ++ "'"))
  end.

End Fixtures.


(* ================================================================== *)
(** * Tactics and facts shared by the proofs                           *)
(* ================================================================== *)

Import Booker.

Lemma in_range (a b x : Z) : a <= x < b -> In x (range a b).
Proof.
  intros Hx. unfold range. apply in_map_iff.
  exists (Z.to_nat (x - a)). split; [lia|].
  apply in_seq. lia.
Qed.

Lemma range_nil (a b : Z) : b <= a -> range a b = [].
Proof.
  intros Hab. unfold range.
  replace (Z.to_nat (b - a)) with 0%nat by lia. reflexivity.
Qed.


Lemma divmod_unique (n d q r : Z) :
  0 <= r < d -> n = d * q + r -> n / d = q /\ n mod d = r.
Proof.
  intros Hr Hn. split.
  - symmetry. apply Z.div_unique with (r := r); lia.
  - symmetry. apply Z.mod_unique with (q := q); lia.
Qed.

(** Split a membership in a literal list into its cases. *)
Ltac enum H :=
  cbv in H; repeat (destruct H as [H | H]; [symmetry in H | ]);
  [.. | contradiction].

(** Quotient and remainder of [n] by [d], given as [q] and [r]. *)
Ltac use_divmod n d q r :=
  let H1 := fresh "Hdiv" in
  let H2 := fresh "Hmod" in
  destruct (divmod_unique n d q r) as [H1 H2]; [lia | lia | rewrite ?H1, ?H2].

(** Evaluate the table lookups and the flags once their arguments are
    numerals. *)
Ltac eval_tables :=
  repeat match goal with
  | |- context [nth (Z.to_nat ?m) ?l ?d] =>
      let v := eval vm_compute in (nth (Z.to_nat m) l d) in
      change (nth (Z.to_nat m) l d) with v
  | |- context [Z.b2z ?b] =>
      let v := eval vm_compute in (Z.b2z b) in
      change (Z.b2z b) with v
  | |- context [if ?b then ?x else ?y] =>
      let v := eval vm_compute in b in
      match v with
      | true => change (if b then x else y) with x
      | false => change (if b then x else y) with y
      end
  end.

Ltac decide_eqb :=
  repeat match goal with
         | H : (_ =? _) = true |- _ => apply Z.eqb_eq in H
         | H : (_ =? _) = false |- _ => apply Z.eqb_neq in H
         end.

(* ================================================================== *)
(** * The ordinal arithmetic of the calendar                           *)
(* ================================================================== *)

Module CalendarFacts.

(** A year is [400 a + 100 b + 4 c + e + 1]: [a] cycles of 400 years,
    [b] centuries, [c] groups of four years and [e] single years. *)
Lemma year_cycles (y : Z) :
  1 <= y ->
  exists a b c e,
    0 <= a /\ 0 <= b < 4 /\ 0 <= c < 25 /\ 0 <= e < 4 /\
    y = 400 * a + 100 * b + 4 * c + e + 1.
Proof.
  intros Hy.
  exists ((y - 1) / 400), ((y - 1) mod 400 / 100),
         ((y - 1) mod 100 / 4), ((y - 1) mod 4).
  Z.to_euclidean_division_equations. lia.
Qed.

Lemma days_before_year_cycles (a b c e : Z) :
  0 <= b < 4 -> 0 <= c < 25 -> 0 <= e < 4 ->
  days_before_year (400 * a + 100 * b + 4 * c + e + 1)
  = 146097 * a + 36524 * b + 1461 * c + 365 * e.
Proof.
  intros Hb Hc He. unfold days_before_year.
  replace (400 * a + 100 * b + 4 * c + e + 1 - 1)
    with (400 * a + 100 * b + 4 * c + e) by lia.
  set (Y := 400 * a + 100 * b + 4 * c + e).
  assert (H4 : Y / 4 = 100 * a + 25 * b + c)
    by (symmetry; apply Z.div_unique with (r := e); lia).
  assert (H100 : Y / 100 = 4 * a + b)
    by (symmetry; apply Z.div_unique with (r := 4 * c + e); lia).
  assert (H400 : Y / 400 = a)
    by (symmetry; apply Z.div_unique with (r := 100 * b + 4 * c + e); lia).
  rewrite H4, H100, H400. lia.
Qed.

Lemma is_leap_cycles (a b c e : Z) :
  0 <= b < 4 -> 0 <= c < 25 -> 0 <= e < 4 ->
  is_leap (400 * a + 100 * b + 4 * c + e + 1)
  = (e =? 3) && (negb (c =? 24) || (b =? 3)).
Proof.
  intros Hb Hc He. unfold is_leap.
  set (y := 400 * a + 100 * b + 4 * c + e + 1).
  assert (H4 : y mod 4 = (e + 1) mod 4).
  { unfold y. replace (400 * a + 100 * b + 4 * c + e + 1)
      with ((e + 1) + (100 * a + 25 * b + c) * 4) by lia.
    apply Z.mod_add. lia. }
  assert (H100 : y mod 100 = (4 * c + e + 1) mod 100).
  { unfold y. replace (400 * a + 100 * b + 4 * c + e + 1)
      with ((4 * c + e + 1) + (4 * a + b) * 100) by lia.
    apply Z.mod_add. lia. }
  assert (H400 : y mod 400 = (100 * b + 4 * c + e + 1) mod 400).
  { unfold y. replace (400 * a + 100 * b + 4 * c + e + 1)
      with ((100 * b + 4 * c + e + 1) + a * 400) by lia.
    apply Z.mod_add. lia. }
  rewrite H4, H100, H400.
  destruct (e =? 3) eqn:E3; destruct (c =? 24) eqn:E24;
    destruct (b =? 3) eqn:E33; cbn [andb orb negb]; decide_eqb; subst.
  all: repeat match goal with
       | |- context [?x mod ?m =? 0] =>
           let E := fresh "E" in destruct (x mod m =? 0) eqn:E;
           [apply Z.eqb_eq in E | apply Z.eqb_neq in E]
       end; cbn [andb orb negb]; try reflexivity; exfalso.
  all: Z.to_euclidean_division_equations; lia.
Qed.

(** [ord2ymd] inside a year: the year from the cycles, the month and the
    day from the day of the year. *)
Lemma ord2ymd_in_year (o a b c e k : Z) :
  0 <= a -> 0 <= b < 4 -> 0 <= c < 25 -> 0 <= e < 4 -> 0 <= k < 365 ->
  o - 1 = 146097 * a + 36524 * b + 1461 * c + 365 * e + k ->
  ord2ymd o =
    (400 * a + 100 * b + 4 * c + e + 1,
     fst (month_day ((e =? 3) && (negb (c =? 24) || (b =? 3))) k),
     snd (month_day ((e =? 3) && (negb (c =? 24) || (b =? 3))) k)).
Proof.
  intros Ha Hb Hc He Hk Ho.
  unfold ord2ymd, DI400Y, DI100Y, DI4Y. cbv zeta. rewrite Ho.
  use_divmod (146097 * a + 36524 * b + 1461 * c + 365 * e + k) 146097
    a (36524 * b + 1461 * c + 365 * e + k).
  use_divmod (36524 * b + 1461 * c + 365 * e + k) 36524
    b (1461 * c + 365 * e + k).
  use_divmod (1461 * c + 365 * e + k) 1461 c (365 * e + k).
  use_divmod (365 * e + k) 365 e k.
  replace (e =? 4) with false by (symmetry; apply Z.eqb_neq; lia).
  replace (b =? 4) with false by (symmetry; apply Z.eqb_neq; lia).
  cbn [orb]. unfold month_day. cbv zeta.
  replace (a * 400 + 1 + b * 100 + c * 4 + e)
    with (400 * a + 100 * b + 4 * c + e + 1) by lia.
  destruct (k <? _); reflexivity.
Qed.

(** The last day of a leap year is the case [ord2ymd] sets apart. *)
Lemma ord2ymd_year_end (o a b c e : Z) :
  0 <= a -> 0 <= b < 4 -> 0 <= c < 25 -> 0 <= e < 4 ->
  (e =? 3) && (negb (c =? 24) || (b =? 3)) = true ->
  o - 1 = 146097 * a + 36524 * b + 1461 * c + 365 * e + 365 ->
  ord2ymd o = (400 * a + 100 * b + 4 * c + e + 1, 12, 31).
Proof.
  intros Ha Hb Hc He Hleap Ho.
  apply andb_true_iff in Hleap. destruct Hleap as [E3 Hcb].
  apply Z.eqb_eq in E3. subst e.
  unfold ord2ymd, DI400Y, DI100Y, DI4Y. cbv zeta. rewrite Ho.
  use_divmod (146097 * a + 36524 * b + 1461 * c + 365 * 3 + 365) 146097
    a (36524 * b + 1461 * c + 365 * 3 + 365).
  destruct (c =? 24) eqn:E24.
  - cbn in Hcb. apply Z.eqb_eq in Hcb, E24. subst b c.
    use_divmod (36524 * 3 + 1461 * 24 + 365 * 3 + 365) 36524 4 0.
    change (0 mod 1461 / 365) with 0. change (0 / 1461) with 0.
    cbn [Z.eqb Pos.eqb orb]. do 2 f_equal. lia.
  - apply Z.eqb_neq in E24.
    use_divmod (36524 * b + 1461 * c + 365 * 3 + 365) 36524
      b (1461 * c + 365 * 3 + 365).
    use_divmod (1461 * c + 365 * 3 + 365) 1461 c 1460.
    change (1460 / 365) with 4. change (1460 mod 365) with 0.
    cbn [Z.eqb Pos.eqb orb]. do 2 f_equal. lia.
Qed.

Lemma month_day_spec (leap : bool) (m d k : Z) :
  1 <= m <= 12 ->
  1 <= d <= (if (m =? 2) && leap then 29
             else nth (Z.to_nat m) DAYS_IN_MONTH (-1)) ->
  k = nth (Z.to_nat m) DAYS_BEFORE_MONTH (-1) + Z.b2z ((2 <? m) && leap)
      + d - 1 ->
  k < 365 ->
  month_day leap k = (m, d).
Proof.
  intros Hm Hd Hk Hlt.
  assert (Hin : In m (range 1 13)) by (apply in_range; lia).
  clear Hm. revert Hd Hk. unfold month_day. cbv zeta.
  rewrite Z.shiftr_div_pow2 by lia. change (2 ^ 5) with 32.
  remember ((k + 50) / 32) as q eqn:Hq.
  assert (Hq' : 32 * q <= k + 50 < 32 * q + 32)
    by (subst q; Z.to_euclidean_division_equations; lia).
  clear Hq.
  enum Hin; subst m; destruct leap; eval_tables; intros Hd Hk;
    (assert (Hin : In q (range 1 14)) by (apply in_range; lia));
    enum Hin; subst q; try lia; eval_tables;
    match goal with
    | |- (if ?c then _ else _) = _ =>
        let E := fresh "E" in
        destruct c eqn:E;
        [apply Z.ltb_lt in E | apply Z.ltb_ge in E]; try lia;
        eval_tables; f_equal; lia
    end.
Qed.

(** From a date to its ordinal and back. *)
Lemma ord2ymd_ymd2ord (y m d : Z) :
  1 <= y -> 1 <= m <= 12 -> 1 <= d <= days_in_month y m ->
  ord2ymd (ymd2ord y m d) = (y, m, d).
Proof.
  intros Hy Hm Hd.
  destruct (year_cycles y Hy) as (a & b & c & e & Ha & Hb & Hc & He & ->).
  unfold ymd2ord, days_in_month, days_before_month in *.
  rewrite days_before_year_cycles by assumption.
  rewrite is_leap_cycles in * by assumption.
  set (leap := (e =? 3) && (negb (c =? 24) || (b =? 3))) in *.
  set (k := nth (Z.to_nat m) DAYS_BEFORE_MONTH (-1)
            + Z.b2z ((2 <? m) && leap) + d - 1).
  assert (Hk : 0 <= k < 365 \/ (k = 365 /\ leap = true /\ m = 12 /\ d = 31)).
  { assert (Hin : In m (range 1 13)) by (apply in_range; lia).
    subst k. revert Hd. clear Hm.
    enum Hin; subst m; destruct leap; eval_tables; lia. }
  destruct Hk as [Hk | (Hk & Hleap & -> & ->)].
  - rewrite (ord2ymd_in_year _ a b c e k) by (try assumption; subst k; lia).
    fold leap. rewrite (month_day_spec leap m d k); auto. lia.
  - apply ord2ymd_year_end; try assumption. subst k. lia.
Qed.

Lemma days_before_next_year (y : Z) :
  1 <= y ->
  days_before_year (y + 1) = days_before_year y + 365 + Z.b2z (is_leap y).
Proof.
  intros Hy.
  destruct (year_cycles y Hy) as (a & b & c & e & Ha & Hb & Hc & He & ->).
  rewrite is_leap_cycles, days_before_year_cycles by assumption.
  unfold days_before_year.
  replace (400 * a + 100 * b + 4 * c + e + 1 + 1 - 1)
    with (400 * a + 100 * b + 4 * c + e + 1) by lia.
  destruct (e =? 3) eqn:E3; destruct (c =? 24) eqn:E24;
    destruct (b =? 3) eqn:E33; cbn [andb orb negb Z.b2z];
    decide_eqb; subst; Z.to_euclidean_division_equations; lia.
Qed.

Lemma valid_datetime_ymd t : valid_datetime t -> valid_ymd t.
Proof. unfold valid_datetime, valid_ymd, MINYEAR. tauto. Qed.

Lemma days_in_month_bounds (y m : Z) :
  1 <= m <= 12 -> 28 <= days_in_month y m <= 31.
Proof.
  intros Hm. assert (Hin : In m (range 1 13)) by (apply in_range; lia).
  unfold days_in_month. clear Hm.
  enum Hin; subst m; destruct (is_leap y); eval_tables; lia.
Qed.

Lemma days_before_month_nonneg (y m : Z) :
  1 <= m <= 12 -> 0 <= days_before_month y m.
Proof.
  intros Hm. assert (Hin : In m (range 1 13)) by (apply in_range; lia).
  unfold days_before_month. clear Hm.
  enum Hin; subst m; destruct (is_leap y); eval_tables; lia.
Qed.

Lemma days_before_next_month (y m : Z) :
  1 <= m < 12 ->
  days_before_month y (m + 1) = days_before_month y m + days_in_month y m.
Proof.
  intros Hm. assert (Hin : In m (range 1 12)) by (apply in_range; lia).
  unfold days_before_month, days_in_month. clear Hm.
  enum Hin; subst m; destruct (is_leap y); eval_tables; reflexivity.
Qed.

(** One step of the calendar is one more in the ordinal. *)
Lemma next_day_spec (t : datetime) :
  valid_ymd t ->
  valid_ymd (next_day t) /\ toordinal (next_day t) = toordinal t + 1.
Proof.
  intros (Hy & Hm & Hd). unfold next_day, toordinal, valid_ymd.
  destruct (day t <? days_in_month (year t) (month t)) eqn:E;
    [apply Z.ltb_lt in E | apply Z.ltb_ge in E].
  - cbn [year month day]. unfold ymd2ord. lia.
  - destruct (month t <? 12) eqn:E12;
      [apply Z.ltb_lt in E12 | apply Z.ltb_ge in E12]; cbn [year month day].
    + pose proof (days_in_month_bounds (year t) (month t + 1)).
      unfold ymd2ord. rewrite days_before_next_month by lia. lia.
    + assert (month t = 12) as Hm12 by lia.
      unfold ymd2ord. rewrite days_before_next_year by lia.
      rewrite Hm12 in *. revert Hd E. unfold days_in_month, days_before_month.
      destruct (is_leap (year t)), (is_leap (year t + 1)); eval_tables; lia.
Qed.

Lemma plus_days_spec (n : nat) (t : datetime) :
  valid_ymd t ->
  valid_ymd (plus_days n t) /\
  toordinal (plus_days n t) = toordinal t + Z.of_nat n.
Proof.
  intros Ht. induction n as [|n [IHv IHo]].
  - cbn. split; [assumption | lia].
  - change (plus_days (S n) t) with (next_day (plus_days n t)).
    destruct (next_day_spec _ IHv) as [Hv Ho]. split; [assumption | lia].
Qed.

Lemma next_day_time (t : datetime) :
  hour (next_day t) = hour t /\ minute (next_day t) = minute t /\
  second (next_day t) = second t /\ microsecond (next_day t) = microsecond t.
Proof.
  unfold next_day.
  destruct (day t <? _); [| destruct (month t <? 12)]; cbn; auto.
Qed.

Lemma plus_days_time (n : nat) (t : datetime) :
  hour (plus_days n t) = hour t /\ minute (plus_days n t) = minute t /\
  second (plus_days n t) = second t /\
  microsecond (plus_days n t) = microsecond t.
Proof.
  induction n as [|n IH]; [cbn; auto|].
  change (plus_days (S n) t) with (next_day (plus_days n t)).
  destruct (next_day_time (plus_days n t)) as (-> & -> & -> & ->). exact IH.
Qed.

Lemma toordinal_positive (t : datetime) : valid_ymd t -> 1 <= toordinal t.
Proof.
  intros (Hy & Hm & Hd). unfold toordinal, ymd2ord.
  assert (0 <= days_before_year (year t)).
  { unfold days_before_year. Z.to_euclidean_division_equations. lia. }
  pose proof (days_before_month_nonneg (year t) (month t) Hm). lia.
Qed.

Lemma toordinal_injective (t1 t2 : datetime) :
  valid_ymd t1 -> valid_ymd t2 -> toordinal t1 = toordinal t2 ->
  same_date t1 t2.
Proof.
  intros (Hy1 & Hm1 & Hd1) (Hy2 & Hm2 & Hd2) Heq. unfold toordinal in Heq.
  apply (f_equal ord2ymd) in Heq.
  rewrite !ord2ymd_ymd2ord in Heq by assumption.
  inversion Heq. unfold same_date. auto.
Qed.

(** A date whose ordinal is in range has a year of at most 9999. *)
Lemma year_within_range (t : datetime) :
  valid_ymd t -> toordinal t <= MAXORDINAL -> year t <= 9999.
Proof.
  intros (Hy & Hm & Hd) Hmax. unfold toordinal, ymd2ord, MAXORDINAL in Hmax.
  pose proof (days_before_month_nonneg (year t) (month t) Hm) as Hbm.
  destruct (year_cycles (year t) Hy)
    as (a & b & c & e & Ha & Hb & Hc & He & Hyear).
  rewrite Hyear in Hmax, Hbm |- *.
  rewrite days_before_year_cycles in Hmax by assumption. lia.
Qed.

(** A number of days within the limit of [timedelta] is accepted. *)
Lemma timedelta_days_ok (n : Z) :
  -999999999 <= n <= 999999999 -> timedelta_days n = Ok n.
Proof.
  intros Hn. unfold timedelta_days.
  replace (n <? -2147483648) with false by (symmetry; apply Z.ltb_ge; lia).
  replace (2147483647 <? n) with false by (symmetry; apply Z.ltb_ge; lia).
  replace (999999999 <? Z.abs n) with false by (symmetry; apply Z.ltb_ge; lia).
  reflexivity.
Qed.

(** [today + timedelta(days=n)] is the calendar date [n] days on. *)
Lemma add_days_plus_days (t : datetime) (n : Z) :
  valid_ymd t -> 0 <= n -> toordinal t + n <= MAXORDINAL ->
  add_days t n = Ok (plus_days (Z.to_nat n) t).
Proof.
  intros Ht Hn Hmax. pose proof (toordinal_positive t Ht) as Hpos.
  unfold MAXORDINAL in Hmax. unfold add_days.
  rewrite timedelta_days_ok by lia.
  replace ((0 <? toordinal t + n) && (toordinal t + n <=? MAXORDINAL))
    with true
    by (symmetry; apply andb_true_iff; unfold MAXORDINAL; split;
        [apply Z.ltb_lt | apply Z.leb_le]; lia).
  destruct (plus_days_spec (Z.to_nat n) t Ht) as [(Hy & Hm & Hd) Ho].
  destruct (plus_days_time (Z.to_nat n) t) as (Hh & Hmi & Hs & Hus).
  replace (toordinal t + n) with (toordinal (plus_days (Z.to_nat n) t)) by lia.
  unfold toordinal at 1. rewrite ord2ymd_ymd2ord by assumption.
  rewrite <- Hh, <- Hmi, <- Hs, <- Hus.
  destruct (plus_days (Z.to_nat n) t); reflexivity.
Qed.

End CalendarFacts.

(* ================================================================== *)
(** * The date resolver                                                *)
(* ================================================================== *)

Module DateResolver.

Import CalendarFacts.

Lemma pad4_chars (n : Z) :
  exists a b c e, pad4 n = String a (String b (String c (String e ""))).
Proof. unfold pad4, pad2. eauto. Qed.

(** For a year of four digits, [%Y] prints the year number. *)
Lemma pad4_is_str_int (y : Z) : 1000 <= y <= 9999 -> pad4 y = str_int y.
Proof.
  intros Hy.
  assert (Hall : forallb (fun y => String.eqb (pad4 y) (str_int y))
                   (range 1000 10000) = true) by (vm_compute; reflexivity).
  rewrite forallb_forall in Hall. apply String.eqb_eq, Hall, in_range. lia.
Qed.

Lemma str_int_no_leading_zero (n : Z) :
  1 <= n <= 31 -> no_leading_zero (str_int n).
Proof.
  intros Hn. assert (Hin : In n (range 1 32)) by (apply in_range; lia).
  clear Hn. enum Hin; subst n; vm_compute; discriminate.
Qed.

Lemma str_int_digits (n : Z) : 1 <= n <= 31 -> all_digits (str_int n) = true.
Proof.
  intros Hn. assert (Hin : In n (range 1 32)) by (apply in_range; lia).
  clear Hn. enum Hin; subst n; vm_compute; reflexivity.
Qed.

Lemma str_int_injective (m m' : Z) :
  1 <= m -> 1 <= m' -> str_int m = str_int m' -> m = m'.
Proof.
  intros Hm Hm' Heq. unfold str_int in Heq.
  assert (Hnz : forall z, 1 <= z ->
                  NilZero.int_of_string (NilZero.string_of_int (Z.to_int z))
                  = Some (Z.to_int z)).
  { intros z Hz. destruct z as [|p|p]; try lia.
    apply NilZero.isi; cbn; intros [= E];
      apply (Unsigned.to_uint_nonnil p); exact E. }
  apply DecimalZ.to_int_inj.
  pose proof (Hnz m Hm) as E1. pose proof (Hnz m' Hm') as E2.
  rewrite Heq in E1. rewrite E1 in E2. inversion E2. reflexivity.
Qed.

Lemma digit_injective (a b : Z) : digit a = digit b -> a mod 10 = b mod 10.
Proof.
  unfold digit. intros Heq.
  apply (f_equal nat_of_ascii) in Heq.
  pose proof (Z.mod_pos_bound a 10 ltac:(lia)).
  pose proof (Z.mod_pos_bound b 10 ltac:(lia)).
  rewrite !nat_ascii_embedding in Heq by lia. lia.
Qed.

Lemma pad4_injective (y y' : Z) :
  0 <= y <= 9999 -> 0 <= y' <= 9999 -> pad4 y = pad4 y' -> y = y'.
Proof.
  intros Hy Hy' Heq. unfold pad4, pad2 in Heq.
  inversion Heq as [[H1 H2 H3 H4]].
  apply digit_injective in H1, H2, H3, H4.
  Z.to_euclidean_division_equations. lia.
Qed.

(** A separator after a run of digits is found at the same place in two
    equal strings. *)
Lemma split_at_slash (a a' r r' : string) :
  all_digits a = true -> all_digits a' = true ->
  a ++ "/" ++ r = a' ++ "/" ++ r' -> a = a' /\ r = r'.
Proof.
  revert a'. induction a as [|c a IH]; intros [|c' a'] Ha Ha' Heq.
  - cbn in Heq. inversion Heq. auto.
  - cbn in Heq, Ha'. inversion Heq; subst c'. cbn in Ha'. discriminate.
  - cbn in Heq, Ha. inversion Heq; subst c. cbn in Ha. discriminate.
  - cbn in Heq. inversion Heq; subst c'.
    cbn [all_digits] in Ha, Ha'.
    apply andb_true_iff in Ha, Ha'. destruct Ha as [_ Ha], Ha' as [_ Ha'].
    destruct (IH a' Ha Ha' H1) as [-> ->]. auto.
Qed.

Lemma date_token_injective (d1 d2 : datetime) :
  valid_ymd d1 -> valid_ymd d2 -> year d1 <= 9999 -> year d2 <= 9999 ->
  date_token d1 = date_token d2 -> same_date d1 d2.
Proof.
  intros (Hy1 & Hm1 & Hd1) (Hy2 & Hm2 & Hd2) Hmax1 Hmax2 Heq.
  pose proof (days_in_month_bounds (year d1) _ Hm1).
  pose proof (days_in_month_bounds (year d2) _ Hm2).
  unfold date_token in Heq.
  apply split_at_slash in Heq; [|apply str_int_digits; lia ..].
  destruct Heq as [Hmonth Heq].
  apply split_at_slash in Heq; [|apply str_int_digits; lia ..].
  destruct Heq as [Hday Hyear].
  apply str_int_injective in Hmonth; [|lia ..].
  apply str_int_injective in Hday; [|lia ..].
  apply pad4_injective in Hyear; [|lia ..].
  unfold same_date. auto.
Qed.

(** Stripping the zero padding of [%m] and [%d] leaves the plain month
    and day numbers. *)
Lemma strip_leading_zeros (m d : Z) (yyyy : string) (a b c e : ascii) :
  1 <= m <= 12 -> 1 <= d <= 31 ->
  yyyy = String a (String b (String c (String e ""))) ->
  match getitem (pad2 m ++ "/" ++ pad2 d ++ "/" ++ yyyy) 0 with
  | Raise x => Raise x
  | Ok c0 =>
      let date_string :=
        if Ascii.eqb c0 "0" then
          slice_from (pad2 m ++ "/" ++ pad2 d ++ "/" ++ yyyy) 1
        else pad2 m ++ "/" ++ pad2 d ++ "/" ++ yyyy in
      let slash_index := find date_string "/" + 1 in
      match getitem date_string slash_index with
      | Raise x => Raise x
      | Ok c1 =>
          Ok (if Ascii.eqb c1 "0" then
                slice_to date_string slash_index
                ++ slice_from date_string (slash_index + 1)
              else date_string)
      end
  end = Ok (str_int m ++ "/" ++ str_int d ++ "/" ++ yyyy).
Proof.
  intros Hm Hd ->.
  assert (Hin : In m (range 1 13)) by (apply in_range; lia).
  assert (Hin' : In d (range 1 32)) by (apply in_range; lia).
  clear Hm Hd.
  enum Hin; subst m; enum Hin'; subst d; vm_compute; reflexivity.
Qed.

Lemma booking_date_string_ok (today : datetime) (n : Z) :
  valid_ymd today -> 0 <= n -> toordinal today + n <= MAXORDINAL ->
  booking_date_string today n
  = Ok (date_token (plus_days (Z.to_nat n) today)).
Proof.
  intros Ht Hn Hmax. unfold booking_date_string.
  rewrite add_days_plus_days by assumption.
  destruct (plus_days_spec (Z.to_nat n) today Ht) as [(Hy & Hm & Hd) _].
  pose proof (days_in_month_bounds
                (year (plus_days (Z.to_nat n) today)) _ Hm).
  destruct (pad4_chars (year (plus_days (Z.to_nat n) today)))
    as (a & b & c & e & Hyyyy).
  unfold strftime_mdY, date_token.
  apply strip_leading_zeros with (a := a) (b := b) (c := c) (e := e);
    [assumption | lia | assumption].
Qed.

(** The time of day of [today] plays no part. *)
Lemma booking_date_string_same_date (t t' : datetime) (n : Z) :
  same_date t' t -> booking_date_string t' n = booking_date_string t n.
Proof.
  intros (Hy & Hm & Hd). unfold booking_date_string, add_days, toordinal.
  rewrite Hy, Hm, Hd. destruct (timedelta_days n); [|reflexivity].
  destruct (_ && _); [|reflexivity].
  destruct (ord2ymd _) as [[y m] d]. reflexivity.
Qed.

(** Two readings of the clock that resolve to one token are on one
    day. *)
Lemma booking_date_string_injective (t1 t2 : datetime) (n : Z) (s : string) :
  valid_ymd t1 -> valid_ymd t2 -> 0 <= n ->
  toordinal t1 + n <= MAXORDINAL -> toordinal t2 + n <= MAXORDINAL ->
  booking_date_string t1 n = Ok s -> booking_date_string t2 n = Ok s ->
  same_date t1 t2.
Proof.
  intros Hv1 Hv2 Hn Hmax1 Hmax2 Hs1 Hs2.
  rewrite booking_date_string_ok in Hs1, Hs2 by assumption.
  destruct (plus_days_spec (Z.to_nat n) t1 Hv1) as [Hp1 Ho1].
  destruct (plus_days_spec (Z.to_nat n) t2 Hv2) as [Hp2 Ho2].
  assert (Hsame : same_date (plus_days (Z.to_nat n) t1)
                            (plus_days (Z.to_nat n) t2)).
  { apply date_token_injective; try assumption.
    - apply year_within_range; [assumption | lia].
    - apply year_within_range; [assumption | lia].
    - congruence. }
  apply toordinal_injective; try assumption.
  destruct Hsame as (Ey & Em & Ed).
  assert (toordinal (plus_days (Z.to_nat n) t1)
          = toordinal (plus_days (Z.to_nat n) t2))
    by (unfold toordinal; rewrite Ey, Em, Ed; reflexivity).
  lia.
Qed.

Section Resolver.
Context {W : Type} `{AutomationPort W}.

Lemma calculate_booking_date_run (self : CourtBooker) (w : W) :
  calculate_booking_date self w
  = (booking_date_string (clock w) (self_booking_ahead_days self), w, []).
Proof.
  unfold calculate_booking_date, bind, datetime_now, lift. reflexivity.
Qed.

(** C1 (amended): for every reading [now] of the clock and every offset
    [d >= 0] such that [now + d] days is not after 9999-12-31, the largest
    date of the platform, [calculate_booking_date] returns the calendar
    date [d] days after [now], written month/day/year: the month and the
    day are plain decimal numbers without a leading zero, the year has
    four characters and is the year number from the year 1000 on.  The
    result depends on the date of [now] only, not on its time of day, and
    the call changes nothing and calls nothing. *)
Theorem calculate_booking_date_in_range (self : CourtBooker) (w : W) :
  valid_datetime (clock w) ->
  0 <= self_booking_ahead_days self ->
  toordinal (clock w) + self_booking_ahead_days self <= MAXORDINAL ->
  let target :=
    plus_days (Z.to_nat (self_booking_ahead_days self)) (clock w) in
  calculate_booking_date self w = (Ok (date_token target), w, []) /\
  no_leading_zero (str_int (month target)) /\
  no_leading_zero (str_int (day target)) /\
  String.length (pad4 (year target)) = 4%nat /\
  (1000 <= year target -> pad4 (year target) = str_int (year target)) /\
  (forall w', same_date (clock w') (clock w) ->
              outcome (calculate_booking_date self w')
              = Ok (date_token target)).
Proof.
  intros Hv Hn Hmax target. apply valid_datetime_ymd in Hv.
  destruct (plus_days_spec (Z.to_nat (self_booking_ahead_days self))
              (clock w) Hv) as [(Hy & Hm & Hd) Ho].
  fold target in Hy, Hm, Hd, Ho.
  pose proof (days_in_month_bounds (year target) _ Hm).
  split; [|split; [|split; [|split; [|split]]]].
  - rewrite calculate_booking_date_run, booking_date_string_ok by assumption.
    reflexivity.
  - apply str_int_no_leading_zero. lia.
  - apply str_int_no_leading_zero. lia.
  - reflexivity.
  - intros Hbig. apply pad4_is_str_int. split; [assumption|].
    apply year_within_range; [unfold valid_ymd; auto | lia].
  - intros w' Hsame. rewrite calculate_booking_date_run.
    unfold outcome. cbn [fst].
    rewrite (booking_date_string_same_date (clock w) (clock w')) by assumption.
    apply booking_date_string_ok; assumption.
Qed.

End Resolver.

(** The example of the specification: four days after 2025-01-01. *)
Lemma calculate_booking_date_new_year :
  valid_datetime (@clock _ (Mock.on Mock.never false) 0) /\
  0 <= self_booking_ahead_days (Mock.booker_of 4) /\
  @calculate_booking_date _ (Mock.on Mock.never false) (Mock.booker_of 4) 0
  = (Ok "1/5/2025", 0, []).
Proof.
  split; [vm_compute; intuition discriminate|].
  split; [vm_compute; discriminate|].
  destruct (@calculate_booking_date_in_range _ (Mock.on Mock.never false)
              (Mock.booker_of 4) 0) as [Hrun _].
  - vm_compute. intuition discriminate.
  - vm_compute. discriminate.
  - vm_compute. discriminate.
  - rewrite Hrun. reflexivity.
Defined.

(** An offset the configuration accepts and the calendar of the platform
    does not: three million days after 2025-01-01 is past the year 9999,
    the addition raises [OverflowError] and no date string comes back. *)
Lemma calculate_booking_date_overflows :
  let port := Mock.on Mock.never false in
  let self := Mock.booker_of 3000000 in
  valid_datetime (@clock _ port 0) /\
  0 <= self_booking_ahead_days self /\
  ConfigManager._validate (config self) = Ok tt /\
  outcome (@calculate_booking_date _ port self 0)
  = Raise (mk_exn OverflowError "date value out of range") /\
  outcome (@calculate_booking_date _ port self 0)
  <> Ok (date_token
           (plus_days (Z.to_nat (self_booking_ahead_days self))
              (@clock _ port 0))).
Proof.
  cbv zeta.
  assert (E : outcome (@calculate_booking_date _ (Mock.on Mock.never false)
                         (Mock.booker_of 3000000) 0)
              = Raise (mk_exn OverflowError "date value out of range"))
    by (vm_compute; reflexivity).
  split; [vm_compute; intuition discriminate|].
  split; [vm_compute; discriminate|].
  split; [vm_compute; reflexivity|].
  split; [exact E|]. rewrite E. discriminate.
Qed.

End DateResolver.

(* ================================================================== *)
(** * The retry controller                                             *)
(* ================================================================== *)

Module RetryController.









Section Controller.
Context {W : Type} `{AutomationPort W}.
Variable book : M W (bool * string).
Variable self : CourtBooker.




(** C10: called with an explicit [max_retries = m <= 0], the controller
    makes no attempt: the booking function is not called, nothing is
    printed, there is no wait, the world is unchanged and the call
    returns normally.  The same [m] given as the [max_retries] of a
    configuration is refused by the constructor. *)
Theorem run_with_retry_no_attempts (m : Z) (delay : option Z) (w : W) :
  m <= 0 ->
  run_with_retry book self (Some m) delay w = (Ok tt, w, []) /\
  (forall c, ConfigManager.max_retries c = m ->
             exists e, ConfigManager._validate c = Raise e).
Proof.
  intros Hm. split.
  - unfold run_with_retry. rewrite range_nil by lia. reflexivity.
  - intros c Hc. unfold ConfigManager._validate.
    replace (ConfigManager.max_retries c <? 1) with true
      by (symmetry; apply Z.ltb_lt; lia).
    repeat match goal with
           | |- exists e, (if ?b then _ else _) = _ => destruct b
           end; eauto.
Qed.

End Controller.



(** The scenario of [test_run_with_retry_success_second_attempt]. *)
Lemma run_with_retry_second_attempt :
  steps (trace (@run_with_retry _ (Mock.on Mock.never false)
                  Mock.fails_once (Mock.booker_of 13) (Some 3) (Some 1) 0))
  = [Attempt (Ok (false, "Failed")); Wait 1;
     Attempt (Ok (true, "Booking successful"))].
Proof. vm_compute. reflexivity. Qed.

Lemma run_with_retry_zero_retries :
  0 <= 0 /\
  @run_with_retry _ (Mock.on Mock.never false) Mock.always_fails
    (Mock.booker_of 13) (Some 0) (Some 1) 0 = (Ok tt, 0, []).
Proof.
  split; [lia|].
  apply (@run_with_retry_no_attempts _ (Mock.on Mock.never false)). lia.
Defined.

End RetryController.

(* ================================================================== *)
(** * Runs of computations                                             *)
(* ================================================================== *)

Module Runs.

Lemma count_app (p : event -> bool) (t1 t2 : list event) :
  count p (t1 ++ t2) = (count p t1 + count p t2)%nat.
Proof. unfold count. rewrite filter_app, length_app. reflexivity. Qed.

Lemma count_zero_in (p : event -> bool) (t : list event) (e : event) :
  count p t = 0%nat -> In e t -> p e = false.
Proof.
  unfold count. induction t as [|x t IH]; [contradiction|].
  cbn. destruct (p x) eqn:Px; [discriminate|].
  intros Hc [->|Hin]; auto.
Qed.

Section Laws.
Context {W : Type} `{AutomationPort W}.

Lemma bind_ok {A B} (m : M W A) (k : A -> M W B) w a w1 t1 :
  m w = (Ok a, w1, t1) ->
  bind m k w
  = (outcome (k a w1), world_after (k a w1), (t1 ++ trace (k a w1))%list).
Proof.
  intros Hm. unfold bind, outcome, world_after, trace. rewrite Hm.
  destruct (k a w1) as [[r w2] t2]. reflexivity.
Qed.

Lemma bind_raise {A B} (m : M W A) (k : A -> M W B) w e w1 t1 :
  m w = (Raise e, w1, t1) -> bind m k w = (Raise e, w1, t1).
Proof. intros Hm. unfold bind. rewrite Hm. reflexivity. Qed.

Lemma bind_ok_inv {A B} (m : M W A) (k : A -> M W B) w b w2 t :
  bind m k w = (Ok b, w2, t) ->
  exists a w1 t1 t2,
    m w = (Ok a, w1, t1) /\ k a w1 = (Ok b, w2, t2) /\ t = (t1 ++ t2)%list.
Proof.
  unfold bind. destruct (m w) as [[[a|e] w1] t1]; [|discriminate].
  destruct (k a w1) as [[r w'] t2] eqn:Hk. intros Heq. inversion Heq; subst.
  exists a, w1, t1, t2. auto.
Qed.

Lemma bind_assoc {A B C} (m : M W A) (k : A -> M W B) (h : B -> M W C) w :
  bind (bind m k) h w = bind m (fun a => bind (k a) h) w.
Proof.
  unfold bind. destruct (m w) as [[[a|e] w1] t1]; [|reflexivity].
  destruct (k a w1) as [[[b|e] w2] t2]; [|reflexivity].
  destruct (h b w2) as [[r w3] t3]. rewrite app_assoc. reflexivity.
Qed.

Lemma bind_ext {A B} (m : M W A) (k k' : A -> M W B) w :
  (forall a w1, k a w1 = k' a w1) -> bind m k w = bind m k' w.
Proof.
  intros Hk. unfold bind. destruct (m w) as [[[a|e] w1] t1]; [|reflexivity].
  rewrite Hk. reflexivity.
Qed.

Lemma do_call_run (c : call) (w w1 : W) (r : result pyval) :
  port_call c w = (r, w1) -> do_call c w = (r, w1, [EvCall c r]).
Proof. intros Hc. unfold do_call. rewrite Hc. reflexivity. Qed.

(** [try: m finally: c()] for a cleanup that is one call on the port. *)
Lemma try_finally_call {A} (m : M W A) (c : call) (w : W) :
  try_finally m (do_call c ;; ret tt) w =
  (match outcome (do_call c (world_after (m w))) with
   | Ok _ => outcome (m w)
   | Raise e => Raise e
   end,
   world_after (do_call c (world_after (m w))),
   (trace (m w)
    ++ [EvCall c (outcome (do_call c (world_after (m w))))])%list).
Proof.
  unfold try_finally, bind, do_call, ret, outcome, world_after, trace.
  destruct (m w) as [[r w1] t1]. cbn.
  destruct (port_call c w1) as [[v|e] w2]; reflexivity.
Qed.

Lemma try_except_trace_in {A} (m : M W A) (h : exn -> M W A) (w : W) e :
  In e (trace (try_except m h w)) ->
  In e (trace (m w)) \/ exists x, In e (trace (h x (world_after (m w)))).
Proof.
  unfold try_except, trace, world_after.
  destruct (m w) as [[[a|x] w1] t1]; cbn [fst snd]; [auto|].
  destruct (isinstance_Exception x); [|auto].
  destruct (h x w1) as [[r w2] t2] eqn:Hh. cbn [snd]. intros Hin.
  apply in_app_or in Hin. destruct Hin as [Hin|Hin]; [auto|].
  right. exists x. rewrite Hh. exact Hin.
Qed.

Lemma avoids_ret {A} p (a : A) : avoids (W := W) p (ret a).
Proof. intros w. reflexivity. Qed.

Lemma avoids_lift {A} p (r : result A) : avoids (W := W) p (lift r).
Proof. intros w. reflexivity. Qed.

Lemma avoids_now p : avoids (W := W) p datetime_now.
Proof. intros w. reflexivity. Qed.

Lemma avoids_print p line : p (EvPrint line) = false -> avoids (W := W) p (print line).
Proof.
  intros Hp w. unfold print, trace, count. cbn. rewrite Hp. reflexivity.
Qed.

Lemma avoids_do_call p c :
  (forall r, p (EvCall c r) = false) -> avoids p (do_call c).
Proof.
  intros Hp w. unfold do_call, trace, count.
  destruct (port_call c w) as [r w1]. cbn. rewrite Hp. reflexivity.
Qed.

Lemma avoids_bind {A B} p (m : M W A) (k : A -> M W B) :
  avoids p m -> (forall a, avoids p (k a)) -> avoids p (bind m k).
Proof.
  intros Hm Hk w. specialize (Hm w).
  destruct (m w) as [[[a|e] w1] t1] eqn:Hmw.
  - rewrite (bind_ok _ _ _ _ _ _ Hmw). unfold trace at 1. cbn [snd].
    rewrite count_app, (Hk a w1). unfold trace in Hm. cbn [snd] in Hm.
    rewrite Hm. reflexivity.
  - rewrite (bind_raise _ _ _ _ _ _ Hmw). exact Hm.
Qed.

Lemma avoids_try_except {A} p (m : M W A) (h : exn -> M W A) :
  avoids p m -> (forall e, avoids p (h e)) -> avoids p (try_except m h).
Proof.
  intros Hm Hh w. specialize (Hm w). unfold try_except.
  destruct (m w) as [[[a|e] w1] t1]; [exact Hm|].
  destruct (isinstance_Exception e); [|exact Hm].
  specialize (Hh e w1).
  destruct (h e w1) as [[r w2] t2]. unfold trace in *. cbn [snd] in *.
  rewrite count_app, Hm, Hh. reflexivity.
Qed.

End Laws.

End Runs.

Import Runs.

Ltac unfold_methods :=
  unfold interaction, on_exception, open_session, enter_session,
    reach_slot_configuration, configure_and_submit, _login,
    _navigate_to_reservations, _select_club, _set_booking_details,
    _submit_reservation, _take_error_screenshot, calculate_booking_date.

(** Settle that an action avoids a kind of event, by its structure. *)
Ltac avoid :=
  repeat first
    [ apply avoids_bind; [|intro]
    | apply avoids_try_except; [|intro]
    | apply avoids_ret
    | apply avoids_lift
    | apply avoids_now
    | apply avoids_print; reflexivity
    | apply avoids_do_call; intro; reflexivity
    | match goal with
      | |- avoids _ (if ?b then _ else _) => destruct b
      | |- avoids _ (let '(_, _) := ?x in _) => destruct x
      end ].

(** Open a successful [bind] into its two halves. *)
Ltac invert_bind H :=
  let a := fresh "a" in
  let wa := fresh "w" in
  let ta := fresh "t" in
  let tb := fresh "t" in
  let Ha := fresh "Hhead" in
  apply bind_ok_inv in H;
  destruct H as (a & wa & ta & tb & Ha & H & ->).

(** The action of [Hhead] does not query the marker. *)
Ltac no_query Hhead :=
  match type of Hhead with
  | ?m ?w = (_, _, ?t) =>
      let E := fresh "E" in
      assert (E : count is_marker_query t = 0%nat)
        by (assert (Hav : avoids is_marker_query m)
              by (unfold_methods; avoid);
            specialize (Hav w); rewrite Hhead in Hav; exact Hav)
  end.

(* ================================================================== *)
(** * One attempt                                                      *)
(* ================================================================== *)

Module Attempt.

Section OneAttempt.
Context {W : Type} `{AutomationPort W}.
Variable self : CourtBooker.

Lemma interaction_no_close : avoids is_close (interaction self).
Proof. unfold_methods. avoid. Qed.

Lemma interaction_no_screenshot : avoids is_screenshot (interaction self).
Proof. unfold_methods. avoid. Qed.

Lemma on_exception_no_close e : avoids is_close (on_exception self e).
Proof. unfold_methods. avoid. Qed.

Lemma open_session_no_close : avoids is_close (open_session (W := W)).
Proof. unfold_methods. avoid. Qed.

Lemma enter_session_no_close : avoids is_close (enter_session (W := W)).
Proof. unfold_methods. avoid. Qed.

Lemma guarded_attempt_run (w : W) :
  guarded_attempt self w =
  let tried := try_except (interaction self) (on_exception self) w in
  let closed := do_call BrowserClose (world_after tried) in
  (match outcome closed with Ok _ => outcome tried | Raise e => Raise e end,
   world_after closed,
   (trace tried ++ [EvCall BrowserClose (outcome closed)])%list).
Proof. unfold guarded_attempt. apply try_finally_call. Qed.

(** The [finally] closes the browser once, after everything else. *)
Lemma guarded_attempt_closes_once (w : W) :
  exists pre rc,
    trace (guarded_attempt self w) = (pre ++ [EvCall BrowserClose rc])%list /\
    close_calls pre = 0%nat.
Proof.
  rewrite guarded_attempt_run. cbv zeta. unfold trace at 1. cbn [snd].
  eexists _, _. split; [reflexivity|].
  apply (avoids_try_except is_close);
    [apply interaction_no_close | apply on_exception_no_close].
Qed.

(** A run of [book_court] once the session is open. *)
Lemma book_court_run (w w1 : W) (t1 : list event) :
  enter_session w = (Ok tt, w1, t1) ->
  book_court self w =
  let attempt := guarded_attempt self w1 in
  let stopped := do_call PlaywrightStop (world_after attempt) in
  (match outcome stopped with Ok _ => outcome attempt | Raise e => Raise e end,
   world_after stopped,
   (t1 ++ trace attempt ++ [EvCall PlaywrightStop (outcome stopped)])%list).
Proof.
  intros Henter. unfold enter_session in Henter.
  apply bind_ok_inv in Henter.
  destruct Henter as (v & w0 & t0 & t0' & Hstart & Hopen & ->).
  unfold book_court, with_sync_playwright.
  rewrite (bind_ok _ _ _ _ _ _ Hstart), try_finally_call.
  rewrite (bind_ok _ _ _ _ _ _ Hopen).
  unfold outcome, world_after, trace. cbn [fst snd].
  rewrite <- !app_assoc. reflexivity.
Qed.

(** When the session cannot be opened, [book_court] raises and never
    calls [browser.close()]. *)
Lemma book_court_without_session (w : W) (e : exn) :
  outcome (enter_session w) = Raise e ->
  close_calls (trace (book_court self w)) = 0%nat /\
  exists x, outcome (book_court self w) = Raise x.
Proof.
  unfold enter_session, book_court, with_sync_playwright. intros Henter.
  pose proof (avoids_do_call is_close PlaywrightStart
                (fun _ => eq_refl) w) as Hs.
  destruct (do_call PlaywrightStart w) as [[[v|e0] w0] t0] eqn:Hstart.
  - rewrite (bind_ok _ _ _ _ _ _ Hstart) in Henter.
    rewrite (bind_ok _ _ _ _ _ _ Hstart).
    unfold outcome at 1 in Henter. cbn [fst] in Henter.
    rewrite try_finally_call.
    destruct (open_session w0) as [[[u|e1] w1] t1] eqn:Hopen;
      [discriminate|].
    rewrite (bind_raise _ _ _ _ _ _ Hopen).
    unfold trace, world_after, outcome. cbn [fst snd].
    pose proof (open_session_no_close w0) as Hno. rewrite Hopen in Hno.
    unfold trace in Hno, Hs. cbn [snd] in Hno, Hs. split.
    + unfold close_calls. rewrite !count_app, Hs, Hno. reflexivity.
    + destruct (fst (fst (do_call PlaywrightStop w1))); eauto.
  - rewrite (bind_raise _ _ _ _ _ _ Hstart).
    split; [exact Hs | exists e0; reflexivity].
Qed.

Lemma book_court_trace_shape (w : W) :
  outcome (enter_session w) = Ok tt ->
  exists pre rc rs,
    trace (book_court self w)
    = (pre ++ [EvCall BrowserClose rc; EvCall PlaywrightStop rs])%list /\
    close_calls pre = 0%nat.
Proof.
  intros Henter.
  destruct (enter_session w) as [[r w1] t1] eqn:Hrun.
  unfold outcome in Henter. cbn [fst] in Henter. subst r.
  pose proof (enter_session_no_close w) as Ht1. rewrite Hrun in Ht1.
  unfold trace in Ht1. cbn [snd] in Ht1.
  rewrite (book_court_run w w1 t1 Hrun). cbv zeta.
  destruct (guarded_attempt_closes_once w1) as (pre & rc & Hpre & Hcount).
  unfold trace at 1. cbn [snd]. rewrite Hpre.
  exists (t1 ++ pre)%list, rc,
    (outcome (do_call PlaywrightStop (world_after (guarded_attempt self w1)))).
  split; [rewrite <- !app_assoc; reflexivity|].
  unfold close_calls in *. rewrite count_app, Ht1, Hcount. reflexivity.
Qed.

(** C3 (amended): in every run of [book_court] in which the playwright
    context was entered and the browser, its context and its page were
    created, whatever the interaction does then - it completes, a step
    raises, the screenshot raises too - [browser.close()] is called
    exactly once, and it is the last call before the context manager
    exits.  (When creating the session fails, [browser.close()] is not
    called: see [book_court_without_session].) *)
Theorem book_court_closes_browser_once (w : W) :
  outcome (enter_session w) = Ok tt ->
  close_calls (trace (book_court self w)) = 1%nat /\
  exists pre rc rs,
    trace (book_court self w)
    = (pre ++ [EvCall BrowserClose rc; EvCall PlaywrightStop rs])%list /\
    close_calls pre = 0%nat.
Proof.
  intros Henter.
  destruct (book_court_trace_shape w Henter) as (pre & rc & rs & Ht & Hpre).
  split; [|eauto]. rewrite Ht. unfold close_calls in *.
  rewrite count_app, Hpre. reflexivity.
Qed.

(** In every run whatsoever there is at most one [browser.close()]. *)
Lemma book_court_closes_at_most_once (w : W) :
  (close_calls (trace (book_court self w)) <= 1)%nat.
Proof.
  destruct (outcome (enter_session w)) as [[]|e] eqn:Henter.
  - destruct (book_court_trace_shape w Henter) as (pre & rc & rs & Ht & Hpre).
    rewrite Ht. unfold close_calls in *. rewrite count_app, Hpre. cbn. lia.
  - destruct (book_court_without_session w e Henter) as [-> _]. lia.
Qed.

Lemma on_exception_run (e : exn) (w w1 : W) (r : result pyval) :
  let path := "error_" ++ strftime_stamp (clock w) ++ ".png" in
  port_call (Screenshot path) w = (r, w1) ->
  on_exception self e w =
  match r with
  | Ok _ =>
      (Ok (false, str_exn e), w1,
       [EvPrint ("❌ ERROR: " ++ str_exn e);
        EvCall (Screenshot path) r;
        EvPrint ("📸 Screenshot saved: " ++ path)])
  | Raise x =>
      (Raise x, w1,
       [EvPrint ("❌ ERROR: " ++ str_exn e); EvCall (Screenshot path) r])
  end.
Proof.
  intros path Hshot.
  unfold on_exception, _take_error_screenshot, bind, print, datetime_now,
    do_call, ret.
  fold path. rewrite Hshot. destruct r; reflexivity.
Qed.


(** The defect behind C6 in general: when a step of the interaction
    raises and the screenshot raises too, [book_court] raises; the
    outcome [(False, str(e))] is not returned.  The browser is still
    closed. *)
Lemma screenshot_failure_escapes
    (w w1 w2 w3 : W) (t1 t2 : list event) (e x : exn) :
  enter_session w = (Ok tt, w1, t1) ->
  interaction self w1 = (Raise e, w2, t2) ->
  isinstance_Exception e = true ->
  port_call (Screenshot ("error_" ++ strftime_stamp (clock w2) ++ ".png")) w2
  = (Raise x, w3) ->
  (exists x', outcome (book_court self w) = Raise x') /\
  close_calls (trace (book_court self w)) = 1%nat.
Proof.
  intros Henter Hint Hexc Hshot. split.
  - rewrite (book_court_run w w1 t1 Henter), guarded_attempt_run.
    cbv zeta. unfold try_except. rewrite Hint, Hexc.
    rewrite (on_exception_run e w2 w3 (Raise x) Hshot).
    unfold outcome, world_after. cbn [fst snd].
    destruct (fst (fst (do_call PlaywrightStop _)));
      destruct (fst (fst (do_call BrowserClose w3))); eauto.
  - destruct (book_court_trace_shape w) as (pre & rc & rs & Ht & Hpre).
    + rewrite Henter. reflexivity.
    + rewrite Ht. unfold close_calls in *. rewrite count_app, Hpre.
      reflexivity.
Qed.

Lemma submit_reservation_inv (w w' : W) (b : bool) (t : list event) :
  _submit_reservation self w = (Ok b, w', t) ->
  exists v,
    In (EvCall (IsVisible SUCCESS_MARKER) (Ok v)) t /\
    count is_marker_query t = 1%nat /\ b = truthy v.
Proof.
  unfold _submit_reservation, bind, do_call, print, ret.
  destruct (port_call (Click "#btnSaveReservation") w) as [[v1|e1] w1];
    [|discriminate].
  destruct (port_call (WaitForTimeout 3000) w1) as [[v2|e2] w2];
    [|discriminate].
  destruct (port_call (IsVisible SUCCESS_MARKER) w2) as [[v|e] w3];
    [|discriminate].
  destruct (truthy v) eqn:Hv; intros Heq; inversion Heq; subst; exists v;
    (split; [cbn; auto | split; [reflexivity | auto]]).
Qed.

(** An interaction that returns has asked for the marker once, and its
    outcome is the answer. *)
Lemma interaction_ok_inv (w w' : W) (r : bool * string) (t : list event) :
  interaction self w = (Ok r, w', t) ->
  exists v,
    In (EvCall (IsVisible SUCCESS_MARKER) (Ok v)) t /\
    count is_marker_query t = 1%nat /\
    r = if truthy v then (true, "Booking successful")
        else (false, SLOT_TAKEN).
Proof.
  unfold interaction. intros Hrun.
  invert_bind Hrun. no_query Hhead.
  invert_bind Hrun. no_query Hhead0.
  invert_bind Hrun. no_query Hhead1.
  invert_bind Hrun. no_query Hhead2.
  invert_bind Hrun. no_query Hhead3.
  invert_bind Hrun. no_query Hhead4.
  invert_bind Hrun.
  destruct (submit_reservation_inv _ _ _ _ Hhead5) as (v & Hin & Hone & ->).
  match type of Hrun with
  | _ = (_, _, ?tl) =>
      assert (Hlast : tl = []
                      /\ r = if truthy v then (true, "Booking successful")
                             else (false, SLOT_TAKEN))
        by (destruct (truthy v); inversion Hrun; split; reflexivity)
  end.
  destruct Hlast as [-> Hr].
  exists v. split; [|split; [|exact Hr]].
  - do 6 (apply in_or_app; right). apply in_or_app. left. exact Hin.
  - rewrite !count_app, E, E0, E1, E2, E3, E4, Hone. reflexivity.
Qed.

Lemma book_court_ok_run
    (w w1 w2 w3 w4 : W) (t1 t2 : list event) (r : bool * string)
    (v3 v4 : pyval) :
  enter_session w = (Ok tt, w1, t1) ->
  interaction self w1 = (Ok r, w2, t2) ->
  port_call BrowserClose w2 = (Ok v3, w3) ->
  port_call PlaywrightStop w3 = (Ok v4, w4) ->
  book_court self w =
  (Ok r, w4,
   (t1 ++ t2
    ++ [EvCall BrowserClose (Ok v3); EvCall PlaywrightStop (Ok v4)])%list).
Proof.
  intros Henter Hint Hclose Hstop.
  rewrite (book_court_run w w1 t1 Henter), guarded_attempt_run.
  cbv zeta. unfold try_except. rewrite Hint.
  unfold outcome, world_after, trace. cbn [fst snd].
  rewrite (do_call_run _ _ _ _ Hclose). cbn [fst snd].
  rewrite (do_call_run _ _ _ _ Hstop). cbn [fst snd].
  rewrite <- !app_assoc. reflexivity.
Qed.

(** An attempt in which nothing raises: the marker has been queried once
    and the outcome is its answer; no screenshot is taken. *)
Lemma book_court_marker_outcome
    (w w1 w2 w3 w4 : W) (t1 t2 : list event) (r : bool * string)
    (v3 v4 : pyval) :
  enter_session w = (Ok tt, w1, t1) ->
  interaction self w1 = (Ok r, w2, t2) ->
  port_call BrowserClose w2 = (Ok v3, w3) ->
  port_call PlaywrightStop w3 = (Ok v4, w4) ->
  outcome (book_court self w) = Ok r /\
  screenshot_calls (trace (book_court self w)) = 0%nat /\
  exists v,
    In (EvCall (IsVisible SUCCESS_MARKER) (Ok v)) t2 /\
    count is_marker_query t2 = 1%nat /\
    r = if truthy v then (true, "Booking successful")
        else (false, "Booking failed - slot may be taken").
Proof.
  intros Henter Hint Hclose Hstop.
  rewrite (book_court_ok_run _ _ _ _ _ _ _ _ _ _ Henter Hint Hclose Hstop).
  split; [reflexivity|]. split; [|exact (interaction_ok_inv _ _ _ _ Hint)].
  unfold trace. cbn [snd]. unfold screenshot_calls. rewrite !count_app.
  assert (H1 : count is_screenshot t1 = 0%nat).
  { assert (Hav : avoids is_screenshot (enter_session (W := W)))
      by (unfold_methods; avoid).
    specialize (Hav w). rewrite Henter in Hav. exact Hav. }
  assert (H2 : count is_screenshot t2 = 0%nat).
  { pose proof (interaction_no_screenshot w1) as Hav.
    rewrite Hint in Hav. exact Hav. }
  rewrite H1, H2. reflexivity.
Qed.

Lemma interaction_split (w : W) :
  interaction self w
  = bind (reach_slot_configuration self)
         (fun _ => configure_and_submit self) w.
Proof.
  unfold interaction, reach_slot_configuration, configure_and_submit.
  symmetry.
  rewrite bind_assoc. apply bind_ext. intros t w1.
  rewrite bind_assoc. apply bind_ext. intros _ w2.
  rewrite bind_assoc. apply bind_ext. intros _ w3.
  rewrite bind_assoc. apply bind_ext. intros _ w4.
  reflexivity.
Qed.

(** The date chosen by [_set_booking_details] is the one resolved from
    the clock of the world it starts in. *)
Lemma set_booking_details_selection (w : W) (v : string) (r : result pyval) :
  In (EvCall (SelectOption "#ddlDates" v) r)
     (trace (_set_booking_details self w)) ->
  booking_date_string (clock w) (self_booking_ahead_days self) = Ok v.
Proof.
  unfold _set_booking_details, calculate_booking_date, bind, datetime_now,
    lift, do_call, print, trace.
  destruct (booking_date_string (clock w) (self_booking_ahead_days self))
    as [s|e]; [|contradiction].
  destruct (port_call (SelectOption "#ddlDates" s) w) as [[v1|e1] w1];
    [destruct (port_call (SelectOption "#ddlDuration" _) w1) as [[v2|e2] w2];
     [destruct (port_call (SelectOption "#cboSearByTimeList" _) w2)
        as [[v3|e3] w3]|]|];
    cbn [snd app In]; intros Hin;
    repeat (destruct Hin as [Hin|Hin];
            [try discriminate; inversion Hin; reflexivity|]);
    contradiction.
Qed.

Lemma date_selection_in_interaction
    (w : W) (v : string) (r : result pyval) :
  In (EvCall (SelectOption "#ddlDates" v) r) (trace (interaction self w)) ->
  outcome (reach_slot_configuration self w) = Ok tt /\
  booking_date_string
    (clock (world_after (reach_slot_configuration self w)))
    (self_booking_ahead_days self) = Ok v.
Proof.
  rewrite interaction_split. intros Hin.
  assert (Hreach : avoids is_date_selection (reach_slot_configuration self))
    by (unfold_methods; avoid).
  specialize (Hreach w).
  destruct (reach_slot_configuration self w) as [[[[]|e] w1] t1] eqn:Hrun.
  - rewrite (bind_ok _ _ _ _ _ _ Hrun) in Hin.
    unfold trace at 1 in Hin. cbn [snd] in Hin.
    apply in_app_or in Hin. destruct Hin as [Hin|Hin].
    + apply (count_zero_in _ _ _ Hreach) in Hin. discriminate.
    + split; [reflexivity|]. unfold world_after. cbn [fst snd].
      unfold configure_and_submit in Hin.
      destruct (_set_booking_details self w1) as [[[[]|e] w2] t2] eqn:Hset.
      * rewrite (bind_ok _ _ _ _ _ _ Hset) in Hin.
        unfold trace at 1 in Hin. cbn [snd] in Hin.
        apply in_app_or in Hin. destruct Hin as [Hin|Hin].
        -- apply (set_booking_details_selection w1 v r).
           rewrite Hset. exact Hin.
        -- exfalso.
           assert (Hsub : avoids is_date_selection
                            (booked <- _submit_reservation self ;;
                             if booked then ret (true, "Booking successful")
                             else ret (false,
                                       "Booking failed - slot may be taken")))
             by (unfold_methods; avoid).
           apply (count_zero_in _ _ _ (Hsub w2)) in Hin. discriminate.
      * rewrite (bind_raise _ _ _ _ _ _ Hset) in Hin.
        apply (set_booking_details_selection w1 v r).
        rewrite Hset. exact Hin.
  - rewrite (bind_raise _ _ _ _ _ _ Hrun) in Hin.
    apply (count_zero_in _ _ _ Hreach) in Hin. discriminate.
Qed.

Lemma date_selection_in_book_court
    (w w1 : W) (t1 : list event) (v : string) (r : result pyval) :
  enter_session w = (Ok tt, w1, t1) ->
  In (EvCall (SelectOption "#ddlDates" v) r) (trace (book_court self w)) ->
  In (EvCall (SelectOption "#ddlDates" v) r) (trace (interaction self w1)).
Proof.
  intros Henter Hin.
  rewrite (book_court_run w w1 t1 Henter), guarded_attempt_run in Hin.
  cbv zeta in Hin. unfold trace at 1 2 in Hin. cbn [snd] in Hin.
  apply in_app_or in Hin. destruct Hin as [Hin|Hin].
  - exfalso.
    assert (Hav : avoids is_date_selection (enter_session (W := W)))
      by (unfold_methods; avoid).
    specialize (Hav w). rewrite Henter in Hav.
    apply (count_zero_in _ _ _ Hav) in Hin. discriminate.
  - apply in_app_or in Hin. destruct Hin as [Hin|[Hin|[]]]; [|discriminate].
    apply in_app_or in Hin. destruct Hin as [Hin|[Hin|[]]]; [|discriminate].
    apply try_except_trace_in in Hin.
    destruct Hin as [Hin|[x Hin]]; [exact Hin|].
    exfalso.
    assert (Hav : avoids is_date_selection (on_exception self x))
      by (unfold_methods; avoid).
    apply (count_zero_in _ _ _ (Hav _)) in Hin. discriminate.
Qed.

(** A date chosen in the dropdown during an attempt is the date resolver
    applied to the clock as it stands when that attempt reaches the slot
    configuration. *)
Lemma date_selection_value
    (w w1 : W) (t1 : list event) (v : string) (r : result pyval) :
  enter_session w = (Ok tt, w1, t1) ->
  In (EvCall (SelectOption "#ddlDates" v) r) (trace (book_court self w)) ->
  outcome (calculate_booking_date self
             (world_after (reach_slot_configuration self w1))) = Ok v.
Proof.
  intros Henter Hin.
  apply (date_selection_in_book_court w w1 t1 v r Henter) in Hin.
  apply date_selection_in_interaction in Hin. destruct Hin as [_ Hv].
  unfold calculate_booking_date, bind, datetime_now, lift, outcome.
  cbn [fst]. exact Hv.
Qed.

(** Clocks that read different days resolve to different dates. *)
Lemma resolver_distinguishes_days (w w' : W) (s s' : string) :
  valid_datetime (clock w) -> valid_datetime (clock w') ->
  0 <= self_booking_ahead_days self ->
  toordinal (clock w) + self_booking_ahead_days self <= MAXORDINAL ->
  toordinal (clock w') + self_booking_ahead_days self <= MAXORDINAL ->
  ~ same_date (clock w) (clock w') ->
  outcome (calculate_booking_date self w) = Ok s ->
  outcome (calculate_booking_date self w') = Ok s' ->
  s <> s'.
Proof.
  intros Hv Hv' Hn Hmax Hmax' Hdiff.
  unfold calculate_booking_date, bind, datetime_now, lift, outcome.
  cbn [fst]. intros Hs Hs' Heq. subst s'. apply Hdiff.
  apply (DateResolver.booking_date_string_injective _ _
           (self_booking_ahead_days self) s);
    auto using CalendarFacts.valid_datetime_ymd.
Qed.

End OneAttempt.

(** ** The scenarios of the tests, and a few more *)

(** [page.goto] raises and the screenshot raises: the browser is still
    closed once. *)
Lemma book_court_closes_once_after_errors :
  outcome (@enter_session _ (Mock.on Mock.network_error_then_disk_full false)
             0) = Ok tt /\
  close_calls
    (trace (@book_court _ (Mock.on Mock.network_error_then_disk_full false)
              (Mock.booker_of 13) 0)) = 1%nat.
Proof.
  split; [reflexivity|].
  apply (@book_court_closes_browser_once _
           (Mock.on Mock.network_error_then_disk_full false)).
  reflexivity.
Defined.

(** The browser is launched, [browser.new_context] raises: the run ends
    without any call of [browser.close()]. *)
Lemma book_court_without_context_never_closes :
  let run := @book_court _ (Mock.on Mock.no_context false)
               (Mock.booker_of 13) 0 in
  In (EvCall (Launch true) (Ok PyNone)) (trace run) /\
  close_calls (trace run) = 0%nat /\
  close_calls (trace run) <> 1%nat.
Proof.
  cbv zeta. split; [vm_compute; auto|].
  split; [vm_compute; reflexivity | vm_compute; discriminate].
Qed.



(** C6 (the code does not do this): [page.goto] raises "Network error",
    the handler starts, [page.screenshot] raises "No space left on
    device".  [book_court] does not return [(False, "Network error")]: the
    exception of the screenshot leaves the handler, the browser is closed
    by the [finally], and the caller gets that exception. *)
Theorem screenshot_failure_masks_original :
  let run := @book_court _ (Mock.on Mock.network_error_then_disk_full false)
               (Mock.booker_of 13) 0 in
  outcome run = Raise (mk_exn Exception "No space left on device") /\
  outcome run <> Ok (false, "Network error") /\
  close_calls (trace run) = 1%nat.
Proof.
  cbv zeta. split; [vm_compute; reflexivity|].
  split; [vm_compute; discriminate | vm_compute; reflexivity].
Qed.

(** Two attempts of one run with midnight between them: the first
    chooses 2025-01-14, the second 2025-01-15. *)
Lemma midnight_between_attempts :
  flat_map selected_dates
    (trace (@run_with_retry _ Mock.late_evening
              (@book_court _ Mock.late_evening (Mock.booker_of 13))
              (Mock.booker_of 13) (Some 2) (Some 60) 0))
  = ["1/14/2025"; "1/15/2025"].
Proof. vm_compute. reflexivity. Qed.

End Attempt.

(* ================================================================== *)
(** * The configuration                                                *)
(* ================================================================== *)

Module Configuration.

Import ConfigManager.

Lemma str_not_true (s : string) : str_not s = true <-> s = "".
Proof. destruct s; cbn; split; congruence. Qed.

Lemma str_in_spec (x : string) (l : list string) :
  str_in x l = true <-> In x l.
Proof.
  unfold str_in. rewrite existsb_exists. split.
  - intros (y & Hin & Heq). apply String.eqb_eq in Heq. subst. exact Hin.
  - intros Hin. exists x. split; [exact Hin | apply String.eqb_refl].
Qed.

(** The validation passes exactly on the valid configurations. *)
Lemma validate_ok_iff (c : BookingConfig) :
  _validate c = Ok tt <-> valid_config c.
Proof.
  unfold _validate, valid_config.
  destruct (str_not (username c)) eqn:Eu.
  { apply str_not_true in Eu. cbn. split; [discriminate | tauto]. }
  destruct (str_not (password c)) eqn:Ep.
  { apply str_not_true in Ep. cbn. split; [discriminate | tauto]. }
  cbn [orb].
  destruct (str_not (login_url c)) eqn:El.
  { apply str_not_true in El. split; [discriminate | tauto]. }
  destruct (booking_ahead_days c <? 0) eqn:Ea.
  { apply Z.ltb_lt in Ea. split; [discriminate | lia]. }
  destruct (max_retries c <? 1) eqn:Er.
  { apply Z.ltb_lt in Er. split; [discriminate | lia]. }
  destruct (retry_delay c <? 0) eqn:Ed.
  { apply Z.ltb_lt in Ed. split; [discriminate | lia]. }
  destruct (str_in (duration c) valid_durations) eqn:Ein; cbn [negb].
  - apply str_in_spec in Ein. apply Z.ltb_ge in Ea, Er, Ed.
    split; [intros _|reflexivity].
    repeat split; try assumption; try lia;
      intros E; apply str_not_true in E; congruence.
  - split; [discriminate|]. intros (_ & _ & _ & Hin & _).
    apply str_in_spec in Hin. congruence.
Qed.

Lemma validate_raises_ValueError (c : BookingConfig) (e : exn) :
  _validate c = Raise e -> exn_cls e = ValueError.
Proof.
  unfold _validate.
  repeat match goal with
         | |- (if ?b then _ else _) = _ -> _ => destruct b
         end; intros Heq; inversion Heq; reflexivity.
Qed.

(** C8: a configuration with an empty username, an empty password, an
    empty login URL, a duration other than "30", "60", "90", "120", a
    negative number of days ahead, fewer than one retry or a negative
    retry delay is refused by the constructor with a [ValueError]: no
    instance comes back, and a booker that loads it is not built, so no
    attempt is made.  An instance that does come back is valid in every
    field. *)
Theorem invalid_configuration_rejected
    (username password email_to email_from email_password
     zip_code club_name login_url preferred_day preferred_time
     duration : string)
    (booking_ahead_days max_retries retry_delay : Z) :
  let built :=
    new_BookingConfig username password email_to email_from email_password
      zip_code club_name login_url preferred_day preferred_time duration
      booking_ahead_days max_retries retry_delay in
  (username = "" \/ password = "" \/ login_url = "" \/
   ~ In duration ["30"; "60"; "90"; "120"] \/
   booking_ahead_days < 0 \/ max_retries < 1 \/ retry_delay < 0 ->
   (exists msg, built = Raise (mk_exn ValueError msg)) /\
   (exists e, Booker.__init__ built None = Raise e)) /\
  (forall c, built = Ok c -> valid_config c).
Proof.
  intros built. subst built. unfold new_BookingConfig, __post_init__.
  set (self := mk_BookingConfig _ _ _ _ _ _ _ _ _ _ _ _ _ _).
  destruct (_validate self) as [[]|e] eqn:Hv.
  - apply validate_ok_iff in Hv. split.
    + intros Hbad. exfalso. destruct Hv as (Hu & Hp & Hl & Hd & Ha & Hr & Hy).
      subst self. cbn in *. intuition lia.
    + intros c Hc. inversion Hc; subst c. exact Hv.
  - split; [|discriminate]. intros _. split.
    + pose proof (validate_raises_ValueError _ _ Hv) as Hcls.
      destruct e as [cls msg]. cbn in Hcls. subst cls. eauto.
    + exists e. reflexivity.
Qed.

(** The three examples of the specification: an empty username, the
    duration "45", no retry at all. *)
Lemma invalid_configuration_examples :
  (exists msg,
     new_BookingConfig "" "pw" "" "" "" "94085" "club" "https://x" "Monday"
       "08:00 PM" "120" 13 5 5 = Raise (mk_exn ValueError msg)) /\
  (exists msg,
     new_BookingConfig "user" "pw" "" "" "" "94085" "club" "https://x"
       "Monday" "08:00 PM" "45" 13 5 5 = Raise (mk_exn ValueError msg)) /\
  (exists msg,
     new_BookingConfig "user" "pw" "" "" "" "94085" "club" "https://x"
       "Monday" "08:00 PM" "120" 13 0 5 = Raise (mk_exn ValueError msg)).
Proof.
  split; [|split].
  - apply (invalid_configuration_rejected "" "pw"). left. reflexivity.
  - apply (invalid_configuration_rejected "user" "pw" "" "" "" "94085" "club"
             "https://x" "Monday" "08:00 PM" "45").
    do 3 right. left. cbn. intuition discriminate.
  - apply (invalid_configuration_rejected "user" "pw" "" "" "" "94085" "club"
             "https://x" "Monday" "08:00 PM" "120" 13 0).
    do 5 right. left. lia.
Defined.

(** C9 (the code does not do this): with the username "bob", which the
    validation accepts, the summary prints the line "Username: bob***":
    the whole username is in the output.  [validate_env.py] masks the
    same value as "***". *)
Theorem short_username_printed_in_full :
  let c := Mock.config_of "bob" 13 in
  _validate c = Ok tt /\
  nth 3 (print_config_summary c) "" = "Username: bob***" /\
  contains (username c) (nth 3 (print_config_summary c) "") = true /\
  String.prefix ("Username: " ++ username c)
    (nth 3 (print_config_summary c) "") = true /\
  ValidateEnv.masked_value (username c) = "***".
Proof. cbv zeta. repeat split; vm_compute; reflexivity. Qed.

(** The password has no part in the summary. *)
Lemma summary_ignores_password (c : BookingConfig) (pw : string) :
  print_config_summary
    (mk_BookingConfig (username c) pw (email_to c) (email_from c)
       (email_password c) (zip_code c) (club_name c) (login_url c)
       (preferred_day c) (preferred_time c) (duration c)
       (booking_ahead_days c) (max_retries c) (retry_delay c))
  = print_config_summary c.
Proof. reflexivity. Qed.

Lemma slice_to_3 (a b c d : ascii) (rest : string) :
  slice_to (String a (String b (String c (String d rest)))) 3
  = String a (String b (String c "")).
Proof.
  unfold slice_to, clamp, len. cbn [String.length].
  replace (Z.to_nat _) with 3%nat; [reflexivity|].
  change (3 <? 0) with false. cbv iota. lia.
Qed.

(** Of a username of more than three characters the summary shows the
    first three and the mask. *)
Lemma long_username_masked (c : BookingConfig) :
  3 < len (username c) ->
  exists a b d,
    nth 3 (print_config_summary c) ""
    = "Username: " ++ String a (String b (String d "")) ++ "***" /\
    (String.length (String a (String b (String d "")))
     < String.length (username c))%nat.
Proof.
  unfold len. intros Hlen.
  destruct (username c) as [|a [|b [|d [|x rest]]]] eqn:Hu;
    cbn [String.length] in Hlen; try lia.
  exists a, b, d. unfold print_config_summary. cbn [nth].
  rewrite Hu, slice_to_3. split; [reflexivity|].
  cbn [String.length]. lia.
Qed.

End Configuration.

(* ================================================================== *)
(** * The retry controller: what a run returns, what it is made of     *)
(* ================================================================== *)

Module RetryOutcome.

Import Observed.

Section Outcome.
Context {W : Type} `{AutomationPort W}.
Variable book : M W (bool * string).



(** The events of a turn: the three lines of the banner, the attempt,
    and what follows it. *)
Lemma retry_loop_attempts_are_runs (n delay : Z) (l : list Z) :
  forall w inner r,
    In (EvBookCourt inner r) (trace (retry_loop book n delay l w)) ->
    exists w', outcome (book w') = r /\ trace (book w') = inner.
Proof.
  induction l as [|k rest IH]; intros w inner r; [intros []|].
  cbn [retry_loop]. unfold bind, print, call_book, time_sleep, outcome, trace.
  destruct (book w) as [[r1 w1] t1] eqn:Hbook. cbn [fst snd].
  assert (Hhere : exists w', fst (fst (book w')) = r1 /\ snd (book w') = t1)
    by (exists w; rewrite Hbook; split; reflexivity).
  destruct r1 as [[[|] msg]|e]; cbn [fst snd app In].
  - intros Hin.
    repeat (destruct Hin as [Hin|Hin];
            [try discriminate; inversion Hin; subst; exact Hhere|]).
    contradiction.
  - destruct (k <? n).
    + destruct (sleep_error delay); cbn [fst snd app In].
      * intros Hin.
        repeat (destruct Hin as [Hin|Hin];
                [try discriminate; inversion Hin; subst; exact Hhere|]).
        contradiction.
      * destruct (retry_loop book n delay rest (sleep delay w1))
          as [[r2 w2] t2] eqn:Hrest. cbn [fst snd app In].
        intros Hin.
        do 5 (destruct Hin as [Hin|Hin];
              [try discriminate; inversion Hin; subst; exact Hhere|]).
        destruct Hin as [Hin|Hin]; [discriminate|].
        apply (IH (sleep delay w1)). unfold trace. rewrite Hrest. exact Hin.
    + destruct (retry_loop book n delay rest w1) as [[r2 w2] t2] eqn:Hrest.
      cbn [fst snd app In]. intros Hin.
      do 5 (destruct Hin as [Hin|Hin];
            [try discriminate; inversion Hin; subst; exact Hhere|]).
      apply (IH w1). unfold trace. rewrite Hrest. exact Hin.
  - intros Hin.
    repeat (destruct Hin as [Hin|Hin];
            [try discriminate; inversion Hin; subst; exact Hhere|]).
    contradiction.
Qed.

Lemma retry_loop_no_port_call (n delay : Z) (l : list Z) :
  forall w, count is_port_call (trace (retry_loop book n delay l w)) = 0%nat.
Proof.
  induction l as [|k rest IH]; intros w; [reflexivity|].
  cbn [retry_loop]. unfold bind, print, call_book, time_sleep, trace.
  destruct (book w) as [[r1 w1] t1]. cbn [fst snd].
  destruct r1 as [[[|] msg]|e]; cbn [fst snd app]; try reflexivity.
  destruct (k <? n).
  - destruct (sleep_error delay); cbn [fst snd app]; [reflexivity|].
    specialize (IH (sleep delay w1)). unfold trace in IH.
    destruct (retry_loop book n delay rest (sleep delay w1)) as [[r2 w2] t2].
    cbn [fst snd app] in *. unfold count in *. cbn. exact IH.
  - specialize (IH w1). unfold trace in IH.
    destruct (retry_loop book n delay rest w1) as [[r2 w2] t2].
    cbn [fst snd app] in *. unfold count in *. cbn. exact IH.
Qed.



Variable self : CourtBooker.



End Outcome.



End RetryOutcome.
(* ================================================================== *)
(** * One attempt: its calls, its screenshots, its failures            *)
(* ================================================================== *)

Module Session.

Import Observed.

Section OneSession.
Context {W : Type} `{AutomationPort W}.
Variable self : CourtBooker.

Lemma avoids_try_finally {A} p (m : M W A) (c : M W unit) :
  avoids p m -> avoids p c -> avoids p (try_finally m c).
Proof.
  intros Hm Hc w. specialize (Hm w). unfold try_finally.
  destruct (m w) as [[r w1] t1]. specialize (Hc w1).
  destruct (c w1) as [[[u|e] w2] t2]; unfold trace in *; cbn [snd] in *;
    rewrite count_app, Hm, Hc; reflexivity.
Qed.

Lemma book_court_no_sleep : avoids is_sleep (book_court self).
Proof.
  unfold book_court, with_sync_playwright, guarded_attempt. unfold_methods.
  repeat first [ apply avoids_try_finally | progress avoid ].
Qed.

Lemma book_court_no_book : avoids is_book (book_court self).
Proof.
  unfold book_court, with_sync_playwright, guarded_attempt. unfold_methods.
  repeat first [ apply avoids_try_finally | progress avoid ].
Qed.

Lemma on_exception_screenshots (e : exn) (w : W) :
  screenshot_calls (trace (on_exception self e w)) = 1%nat.
Proof.
  unfold on_exception, _take_error_screenshot, bind, print, datetime_now,
    do_call, ret, trace, screenshot_calls, count.
  cbn [fst snd].
  destruct (port_call _ w) as [[v|x] w1]; reflexivity.
Qed.

Lemma guarded_attempt_screenshots (w : W) :
  screenshot_calls (trace (guarded_attempt self w)) =
  match outcome (interaction self w) with
  | Raise e => if isinstance_Exception e then 1%nat else 0%nat
  | Ok _ => 0%nat
  end.
Proof.
  rewrite Attempt.guarded_attempt_run. cbv zeta.
  unfold trace at 1. cbn [snd]. unfold screenshot_calls.
  rewrite count_app. replace (count is_screenshot [_]) with 0%nat by reflexivity.
  rewrite Nat.add_0_r.
  pose proof (Attempt.interaction_no_screenshot self w) as Hi.
  pose proof (on_exception_screenshots) as Hh.
  unfold try_except, outcome, trace, screenshot_calls in *.
  destruct (interaction self w) as [[[r|e] w1] t1]; cbn [fst snd] in *;
    [exact Hi|].
  destruct (isinstance_Exception e); [|exact Hi].
  specialize (Hh e w1).
  destruct (on_exception self e w1) as [[r2 w2] t2]. cbn [snd] in *.
  rewrite count_app, Hi, Hh. reflexivity.
Qed.

(** When the session cannot be opened, the attempt consists of the calls
    of the setup and, once the context manager is entered, of its exit. *)
Lemma book_court_setup_failure (w : W) (e : exn) :
  outcome (enter_session w) = Raise e ->
  exists stop,
    trace (book_court self w) = (trace (enter_session w) ++ stop)%list /\
    (stop = [] \/ exists r, stop = [EvCall PlaywrightStop r]).
Proof.
  unfold book_court, with_sync_playwright, enter_session, open_session,
    try_finally, bind, do_call, ret, outcome, trace.
  destruct (port_call PlaywrightStart w) as [[v0|x0] w0]; cbn [fst snd].
  2:{ intros _. exists []. split; [reflexivity|left; reflexivity]. }
  destruct (port_call (Launch true) w0) as [[v1|x1] w1]; cbn [fst snd].
  2:{ intros _. destruct (port_call PlaywrightStop w1) as [[v|x] w'];
        cbn [fst snd]; eexists; (split; [reflexivity|right; eexists; reflexivity]). }
  destruct (port_call (NewContext USER_AGENT 1920 1080) w1) as [[v2|x2] w2];
    cbn [fst snd].
  2:{ intros _. destruct (port_call PlaywrightStop w2) as [[v|x] w'];
        cbn [fst snd]; eexists; (split; [reflexivity|right; eexists; reflexivity]). }
  destruct (port_call NewPage w2) as [[v3|x3] w3]; cbn [fst snd].
  2:{ intros _. destruct (port_call PlaywrightStop w3) as [[v|x] w'];
        cbn [fst snd]; eexists; (split; [reflexivity|right; eexists; reflexivity]). }
  discriminate.
Qed.

Lemma enter_session_no_screenshot :
  avoids is_screenshot (enter_session (W := W)).
Proof. unfold_methods. avoid. Qed.

(** The screenshots of an attempt, by what happened in it. *)
Lemma book_court_screenshots (w : W) :
  screenshot_calls (trace (book_court self w)) =
  match outcome (enter_session w) with
  | Raise _ => 0%nat
  | Ok _ =>
      match outcome (interaction self (world_after (enter_session w))) with
      | Raise e => if isinstance_Exception e then 1%nat else 0%nat
      | Ok _ => 0%nat
      end
  end.
Proof.
  pose proof (enter_session_no_screenshot w) as Henter.
  destruct (outcome (enter_session w)) as [[]|e] eqn:Hout.
  - destruct (enter_session w) as [[r w1] t1] eqn:Hrun.
    unfold outcome in Hout. cbn [fst] in Hout. subst r.
    rewrite (Attempt.book_court_run self w w1 t1 Hrun). cbv zeta.
    unfold world_after at 2. cbn [fst snd]. unfold trace at 1. cbn [snd].
    unfold screenshot_calls. rewrite !count_app.
    unfold trace in Henter. cbn [snd] in Henter. rewrite Henter.
    replace (count is_screenshot [_]) with 0%nat by reflexivity.
    rewrite Nat.add_0_r. apply guarded_attempt_screenshots.
  - destruct (book_court_setup_failure w e Hout) as (stop & -> & Hstop).
    unfold screenshot_calls. rewrite count_app, Henter.
    destruct Hstop as [->|[r ->]]; reflexivity.
Qed.

(** X3: the error screenshot is taken exactly when it is due.  An attempt
    takes one screenshot when the session was opened and the interaction
    raised an exception of the class [Exception]; it takes none when the
    interaction returned, when what it raised is not an [Exception]
    (a [KeyboardInterrupt]) and when the session could not be opened.
    No attempt takes two. *)
Theorem screenshot_exactly_when_exception_caught (w : W) :
  screenshot_calls (trace (book_court self w)) =
  match outcome (enter_session w) with
  | Raise _ => 0%nat
  | Ok _ =>
      match outcome (interaction self (world_after (enter_session w))) with
      | Raise e => if isinstance_Exception e then 1%nat else 0%nat
      | Ok _ => 0%nat
      end
  end.
Proof. exact (book_court_screenshots w). Qed.

(** X4: the interaction makes its calls in the order of the source and
    skips none.  Whatever the driver does, the calls made on the page
    are the beginning of one fixed script of twenty calls, from
    [page.goto] of the login page to [page.is_visible] of the
    confirmation, the date put in the dropdown being the one computed
    when the slot configuration starts; when the interaction returns,
    the whole script was carried out. *)
Theorem interaction_calls_follow_script (w : W) :
  let before := reach_slot_configuration self w in
  let date :=
    match booking_date_string (clock (world_after before))
            (self_booking_ahead_days self) with
    | Ok d => d
    | Raise _ => ""
    end in
  prefix_of (calls_of (trace (interaction self w)))
            (interaction_script self date) /\
  (forall r, outcome (interaction self w) = Ok r ->
             calls_of (trace (interaction self w))
             = interaction_script self date).
Proof.
  cbv zeta. unfold prefix_of, interaction_script.
  unfold_methods.
  unfold bind, do_call, print, ret, lift, datetime_now, outcome, world_after,
    trace.
  repeat match goal with
         | |- context [port_call ?c ?x] =>
             is_var x;
             destruct (port_call c x) as [[?|?] ?]; cbn [fst snd app calls_of]
         | |- context [booking_date_string ?t ?n] =>
             destruct (booking_date_string t n) as [?|?];
             cbn [fst snd app calls_of]
         | |- context [truthy ?v] =>
             destruct (truthy v); cbn [fst snd app calls_of]
         end;
    (split; [eexists; reflexivity | intros r Hr; first [discriminate|reflexivity]]).
Qed.

Lemma calls_of_app (t1 t2 : list event) :
  calls_of (t1 ++ t2) = (calls_of t1 ++ calls_of t2)%list.
Proof.
  induction t1 as [|e t1 IH]; [reflexivity|].
  destruct e; cbn; rewrite IH; reflexivity.
Qed.

(** An interaction that returns made every call of the script, and none
    of them raised. *)
Lemma interaction_ok_calls (w w' : W) (r : bool * string) (t : list event) :
  interaction self w = (Ok r, w', t) ->
  count call_failed t = 0%nat /\
  exists w0 date,
    booking_date_string (clock w0) (self_booking_ahead_days self) = Ok date /\
    calls_of t = interaction_script self date.
Proof.
  unfold interaction_script.
  unfold_methods.
  unfold bind, do_call, print, ret, lift, datetime_now.
  repeat match goal with
         | |- context [port_call ?c ?x] =>
             is_var x;
             destruct (port_call c x) as [[?|?] ?]; cbn [fst snd app]
         | |- context [booking_date_string ?t ?n] =>
             destruct (booking_date_string t n) as [?|?] eqn:?;
             cbn [fst snd app]
         | |- context [truthy ?v] =>
             destruct (truthy v); cbn [fst snd app]
         end;
    try (intros Hout; discriminate Hout).
  all: intros Hout; inversion Hout; subst.
  all: split; [reflexivity|].
  all: eexists; eexists; split; [eassumption|reflexivity].
Qed.

Lemma enter_session_ok_calls (w w1 : W) (t1 : list event) :
  enter_session w = (Ok tt, w1, t1) ->
  count call_failed t1 = 0%nat /\
  calls_of t1
  = [PlaywrightStart; Launch true; NewContext USER_AGENT 1920 1080; NewPage].
Proof.
  unfold enter_session, open_session, bind, do_call, ret.
  repeat match goal with
         | |- context [port_call ?c ?x] =>
             is_var x;
             destruct (port_call c x) as [[?|?] ?]; cbn [fst snd app]
         end;
    try (intros Hout; discriminate Hout).
  intros Hout; inversion Hout; subst. split; reflexivity.
Qed.

(** What the handler returns is never a success. *)
Lemma on_exception_never_succeeds (e : exn) (w : W) (msg : string) :
  outcome (on_exception self e w) <> Ok (true, msg).
Proof.
  unfold on_exception, _take_error_screenshot, bind, print, datetime_now,
    do_call, ret, outcome.
  cbn [fst snd].
  destruct (port_call _ w) as [[v|x] w1]; cbn [fst snd]; discriminate.
Qed.

Lemma guarded_attempt_success (w : W) (msg : string) :
  outcome (guarded_attempt self w) = Ok (true, msg) ->
  exists w2 t2 vc,
    interaction self w = (Ok (true, msg), w2, t2) /\
    port_call BrowserClose w2 = (Ok vc, world_after (guarded_attempt self w)) /\
    trace (guarded_attempt self w) = (t2 ++ [EvCall BrowserClose (Ok vc)])%list.
Proof.
  rewrite Attempt.guarded_attempt_run. cbv zeta.
  unfold try_except.
  destruct (interaction self w) as [[[r|e] w2] t2] eqn:Hint.
  - unfold outcome, world_after, trace, do_call. cbn [fst snd].
    destruct (port_call BrowserClose w2) as [[vc|xc] wc] eqn:Hclose;
      cbn [fst snd]; [|discriminate].
    intros ->. exists w2, t2, vc. auto.
  - destruct (isinstance_Exception e).
    + pose proof (on_exception_never_succeeds e w2 msg) as Hnever.
      destruct (on_exception self e w2) as [[rh wh] th].
      unfold outcome, world_after, trace, do_call in *. cbn [fst snd] in *.
      destruct (port_call BrowserClose wh) as [[vc|xc] wc]; cbn [fst snd];
        [|discriminate].
      intros Hok. contradiction.
    + unfold outcome, world_after, trace, do_call. cbn [fst snd].
      destruct (port_call BrowserClose w2) as [[vc|xc] wc]; cbn [fst snd];
        discriminate.
Qed.

(** X5: an attempt reports a success only after a complete run.  When
    [book_court] returns [(True, msg)], the message is
    [Booking successful], no call on the driver raised, and the calls
    are exactly the four of the setup, the twenty of the script with a
    date the resolver computed, [browser.close()] and the exit of the
    context manager, in this order. *)
Theorem successful_attempt_made_every_call (w : W) (msg : string) :
  outcome (book_court self w) = Ok (true, msg) ->
  msg = "Booking successful" /\
  count call_failed (trace (book_court self w)) = 0%nat /\
  exists w' date,
    booking_date_string (clock w') (self_booking_ahead_days self) = Ok date /\
    calls_of (trace (book_court self w))
    = ([PlaywrightStart; Launch true; NewContext USER_AGENT 1920 1080;
        NewPage]
       ++ interaction_script self date
       ++ [BrowserClose; PlaywrightStop])%list.
Proof.
  intros Hout.
  destruct (enter_session w) as [[[[]|e] w1] t1] eqn:Henter.
  2:{ destruct (Attempt.book_court_without_session self w e) as (_ & x & Hx).
      - unfold outcome. rewrite Henter. reflexivity.
      - rewrite Hx in Hout. discriminate. }
  rewrite (Attempt.book_court_run self w w1 t1 Henter) in Hout |- *.
  cbv zeta in Hout |- *.
  unfold do_call in Hout |- *.
  destruct (port_call PlaywrightStop (world_after (guarded_attempt self w1)))
    as [[vs|xs] ws]; unfold outcome, trace in Hout |- *;
    cbn [fst snd] in Hout |- *; [|discriminate].
  destruct (guarded_attempt_success w1 msg Hout)
    as (w2 & t2 & vc & Hint & Hclose & Htrace).
  unfold trace in Htrace. rewrite Htrace.
  destruct (enter_session_ok_calls w w1 t1 Henter) as (Hf1 & Hc1).
  destruct (interaction_ok_calls w1 w2 _ t2 Hint)
    as (Hf2 & w0 & date & Hdate & Hc2).
  destruct (Attempt.interaction_ok_inv self w1 w2 _ t2 Hint)
    as (v & _ & _ & Hr).
  split.
  { destruct (truthy v); inversion Hr; reflexivity. }
  split.
  { rewrite !count_app, Hf1, Hf2. reflexivity. }
  exists w0, date. split; [exact Hdate|].
  rewrite !calls_of_app, Hc1, Hc2. reflexivity.
Qed.

Lemma reach_slot_configuration_no_selection :
  avoids is_selection (reach_slot_configuration self).
Proof. unfold_methods. avoid. Qed.

Lemma reach_slot_configuration_no_submission :
  avoids is_submission (reach_slot_configuration self).
Proof. unfold_methods. avoid. Qed.

Lemma reach_slot_configuration_no_query :
  avoids is_marker_query (reach_slot_configuration self).
Proof. unfold_methods. avoid. Qed.

(** An addition that leaves the range of [datetime] raises. *)
Lemma booking_date_string_overflow (today : datetime) (n : Z) :
  0 <= n <= 999999999 -> MAXORDINAL < toordinal today + n ->
  booking_date_string today n
  = Raise (mk_exn OverflowError "date value out of range").
Proof.
  intros Hn Hmax. unfold booking_date_string, add_days.
  rewrite CalendarFacts.timedelta_days_ok by lia.
  replace (toordinal today + n <=? MAXORDINAL) with false
    by (symmetry; apply Z.leb_gt; lia).
  rewrite andb_false_r. reflexivity.
Qed.

(** X6: a target date past 9999-12-31 ends the interaction before the
    slot is configured.  When the login, the navigation and the choice
    of the club went through and the day [booking_ahead_days] after the
    clock's day is out of the range of [datetime], the interaction
    raises [OverflowError] (date value out of range) in the world the
    choice of the club left: no dropdown is touched, the reservation is
    not submitted and the confirmation is not looked for. *)
Theorem overflowing_date_aborts_before_selection (w : W) :
  outcome (reach_slot_configuration self w) = Ok tt ->
  0 <= self_booking_ahead_days self <= 999999999 ->
  MAXORDINAL
  < toordinal (clock (world_after (reach_slot_configuration self w)))
    + self_booking_ahead_days self ->
  interaction self w
  = (Raise (mk_exn OverflowError "date value out of range"),
     world_after (reach_slot_configuration self w),
     trace (reach_slot_configuration self w)) /\
  count is_selection (trace (interaction self w)) = 0%nat /\
  count is_submission (trace (interaction self w)) = 0%nat /\
  count is_marker_query (trace (interaction self w)) = 0%nat.
Proof.
  intros Hreach Hahead Hmax.
  assert (Hrun : interaction self w
                 = (Raise (mk_exn OverflowError "date value out of range"),
                    world_after (reach_slot_configuration self w),
                    trace (reach_slot_configuration self w))).
  { rewrite Attempt.interaction_split.
    destruct (reach_slot_configuration self w) as [[r w1] t1] eqn:Hr.
    unfold outcome, world_after, trace in *. cbn [fst snd] in *. subst r.
    rewrite (bind_ok _ _ _ _ _ _ Hr).
    unfold configure_and_submit, _set_booking_details.
    rewrite !bind_assoc.
    rewrite (bind_raise _ _ w1
               (mk_exn OverflowError "date value out of range") w1 []).
    - unfold outcome, world_after, trace. cbn [fst snd].
      rewrite app_nil_r. reflexivity.
    - rewrite DateResolver.calculate_booking_date_run.
      rewrite (booking_date_string_overflow _ _ Hahead Hmax). reflexivity. }
  split; [exact Hrun|]. rewrite Hrun. unfold trace at 1 3 5. cbn [snd].
  split; [apply reach_slot_configuration_no_selection|].
  split; [apply reach_slot_configuration_no_submission|].
  apply reach_slot_configuration_no_query.
Qed.

Lemma session_body_no_stop :
  avoids is_stop (open_session (W := W) ;; guarded_attempt self).
Proof.
  unfold guarded_attempt. unfold_methods.
  repeat first [ apply avoids_try_finally | progress avoid ].
Qed.

(** X8: the context manager of Playwright is left whenever it was
    entered.  When [sync_playwright()] starts, the exit of the context
    manager is the last event of the attempt, however the attempt ends,
    and it happens once; when the start raises, the attempt raises that
    exception and consists of nothing else. *)
Theorem playwright_stopped_when_started (w : W) :
  match port_call PlaywrightStart w with
  | (Ok _, _) =>
      exists pre r,
        trace (book_court self w) = (pre ++ [EvCall PlaywrightStop r])%list /\
        count is_stop pre = 0%nat
  | (Raise e, w1) =>
      book_court self w = (Raise e, w1, [EvCall PlaywrightStart (Raise e)])
  end.
Proof.
  unfold book_court, with_sync_playwright.
  destruct (port_call PlaywrightStart w) as [[v|e] w0] eqn:Hstart.
  - rewrite (bind_ok _ _ _ _ _ _ (do_call_run _ _ _ _ Hstart)).
    rewrite try_finally_call. unfold trace. cbn [fst snd].
    eexists. eexists. split.
    + rewrite app_assoc. reflexivity.
    + rewrite count_app.
      pose proof (session_body_no_stop w0) as Hbody.
      unfold trace in Hbody. rewrite Hbody. reflexivity.
  - apply bind_raise. apply do_call_run. exact Hstart.
Qed.

(** What [book_court] is made of when it returns. *)
Lemma book_court_returns (w : W) (r : bool * string) :
  outcome (book_court self w) = Ok r ->
  exists w1 t1 vs,
    enter_session w = (Ok tt, w1, t1) /\
    outcome (guarded_attempt self w1) = Ok r /\
    trace (book_court self w)
    = (t1 ++ trace (guarded_attempt self w1)
       ++ [EvCall PlaywrightStop (Ok vs)])%list.
Proof.
  intros Hout.
  destruct (enter_session w) as [[[[]|e] w1] t1] eqn:Henter.
  2:{ destruct (Attempt.book_court_without_session self w e) as (_ & x & Hx).
      - unfold outcome. rewrite Henter. reflexivity.
      - rewrite Hx in Hout. discriminate. }
  rewrite (Attempt.book_court_run self w w1 t1 Henter) in Hout |- *.
  cbv zeta in Hout |- *.
  unfold do_call in Hout |- *.
  destruct (port_call PlaywrightStop (world_after (guarded_attempt self w1)))
    as [[vs|xs] ws]; unfold outcome at 1 2 in Hout; cbn [fst snd] in Hout;
    [|discriminate].
  exists w1, t1, vs. split; [reflexivity|]. split; [exact Hout|].
  reflexivity.
Qed.

Lemma on_exception_returns (e : exn) (w : W) (r : bool * string) :
  outcome (on_exception self e w) = Ok r -> r = (false, str_exn e).
Proof.
  unfold on_exception, _take_error_screenshot, bind, print, datetime_now,
    do_call, ret, outcome.
  cbn [fst snd].
  destruct (port_call _ w) as [[v|x] w1]; cbn [fst snd]; intros Heq;
    [inversion Heq; reflexivity | discriminate].
Qed.

(** The two ways in which the guarded part returns. *)
Lemma guarded_attempt_returns (w : W) (r : bool * string) :
  outcome (guarded_attempt self w) = Ok r ->
  (exists w2 t2 vc,
      interaction self w = (Ok r, w2, t2) /\
      trace (guarded_attempt self w)
      = (t2 ++ [EvCall BrowserClose (Ok vc)])%list) \/
  (exists e,
      outcome (interaction self w) = Raise e /\
      isinstance_Exception e = true /\ r = (false, str_exn e)).
Proof.
  rewrite Attempt.guarded_attempt_run. cbv zeta.
  unfold try_except.
  destruct (interaction self w) as [[[r0|e] w2] t2] eqn:Hint.
  - unfold outcome, world_after, trace, do_call. cbn [fst snd].
    destruct (port_call BrowserClose w2) as [[vc|xc] wc]; cbn [fst snd];
      [|discriminate].
    intros Heq. inversion Heq; subst r0. left. exists w2, t2, vc. auto.
  - destruct (isinstance_Exception e) eqn:Hcls.
    + pose proof (on_exception_returns e w2 r) as Hh.
      destruct (on_exception self e w2) as [[rh wh] th].
      unfold outcome, world_after, trace, do_call in *. cbn [fst snd] in *.
      destruct (port_call BrowserClose wh) as [[vc|xc] wc]; cbn [fst snd];
        [|discriminate].
      intros Hok. right. exists e. auto.
    + unfold outcome, world_after, trace, do_call. cbn [fst snd].
      destruct (port_call BrowserClose w2) as [[vc|xc] wc]; cbn [fst snd];
        discriminate.
Qed.

(** C5: when an attempt runs without any exception - the session opens,
    the interaction goes through the submission, [browser.close()] and the
    exit of the context manager return - the marker has been queried
    exactly once and the outcome is its answer: [(True, "Booking
    successful")] when it shows, [(False, "Booking failed - slot may be
    taken")] when it does not; no screenshot is taken.  The reason
    string alone does not tell this outcome from an infrastructure
    failure: an attempt that returns it either went through the
    submission and found the marker absent, without a screenshot, or
    caught an [Exception] of the interaction whose own message is this
    very text, and then took one screenshot. *)
Theorem book_court_outcome_without_exception :
  (forall (w w1 w2 w3 w4 : W) (t1 t2 : list event) (r : bool * string)
          (v3 v4 : pyval),
      enter_session w = (Ok tt, w1, t1) ->
      interaction self w1 = (Ok r, w2, t2) ->
      port_call BrowserClose w2 = (Ok v3, w3) ->
      port_call PlaywrightStop w3 = (Ok v4, w4) ->
      outcome (book_court self w) = Ok r /\
      screenshot_calls (trace (book_court self w)) = 0%nat /\
      exists v,
        In (EvCall (IsVisible SUCCESS_MARKER) (Ok v)) t2 /\
        count is_marker_query t2 = 1%nat /\
        r = if truthy v then (true, "Booking successful")
            else (false, "Booking failed - slot may be taken")) /\
  (forall w : W,
      outcome (book_court self w)
      = Ok (false, "Booking failed - slot may be taken") ->
      outcome (enter_session w) = Ok tt /\
      ((outcome (interaction self (world_after (enter_session w)))
        = Ok (false, "Booking failed - slot may be taken") /\
        screenshot_calls (trace (book_court self w)) = 0%nat /\
        exists v, In (EvCall (IsVisible SUCCESS_MARKER) (Ok v))
                     (trace (book_court self w)) /\ truthy v = false) \/
       (exists e,
           outcome (interaction self (world_after (enter_session w)))
           = Raise e /\
           isinstance_Exception e = true /\
           str_exn e = "Booking failed - slot may be taken" /\
           screenshot_calls (trace (book_court self w)) = 1%nat))).
Proof.
  split; [exact (Attempt.book_court_marker_outcome self)|].
  intros w Hout.
  destruct (book_court_returns w _ Hout) as (w1 & t1 & vs & Henter & Hg & Ht).
  pose proof (book_court_screenshots w) as Hshots.
  assert (Ho : outcome (enter_session w) = Ok tt)
    by (unfold outcome; rewrite Henter; reflexivity).
  assert (Hw : world_after (enter_session w) = w1)
    by (unfold world_after; rewrite Henter; reflexivity).
  rewrite Ho in Hshots. rewrite Hw in Hshots |- *.
  split; [exact Ho|].
  destruct (guarded_attempt_returns w1 _ Hg)
    as [(w2 & t2 & vc & Hint & Hgt)|(e & He & Hcls & Hr)].
  - left.
    assert (Hio : outcome (interaction self w1)
                  = Ok (false, "Booking failed - slot may be taken"))
      by (unfold outcome; rewrite Hint; reflexivity).
    rewrite Hio in Hshots. split; [exact Hio|]. split; [exact Hshots|].
    destruct (Attempt.interaction_ok_inv self _ _ _ _ Hint)
      as (v & Hin & _ & Hv).
    exists v. split.
    + rewrite Ht, Hgt. apply in_or_app. right. apply in_or_app. left.
      apply in_or_app. left. exact Hin.
    + destruct (truthy v); [discriminate | reflexivity].
  - right. exists e. rewrite He in Hshots. rewrite Hcls in Hshots.
    split; [exact He|]. split; [exact Hcls|].
    split; [inversion Hr; reflexivity | exact Hshots].
Qed.

Lemma try_except_count {A} p (m : M W A) (h : exn -> M W A) (w : W) :
  (forall e, avoids p (h e)) ->
  count p (trace (try_except m h w)) = count p (trace (m w)).
Proof.
  intros Hh. unfold try_except, trace.
  destruct (m w) as [[[a|e] w1] t1]; cbn [snd]; [reflexivity|].
  destruct (isinstance_Exception e); [|reflexivity].
  specialize (Hh e w1). unfold trace in Hh.
  destruct (h e w1) as [[r w2] t2]. cbn [snd] in *.
  rewrite count_app, Hh. lia.
Qed.

Lemma try_except_keeps {A} (x : event) (m : M W A) (h : exn -> M W A)
    (w : W) :
  In x (trace (m w)) -> In x (trace (try_except m h w)).
Proof.
  unfold try_except, trace.
  destruct (m w) as [[[a|e] w1] t1]; cbn [snd]; [auto|].
  destruct (isinstance_Exception e); [|auto].
  destruct (h e w1) as [[r w2] t2]. cbn [snd]. intros Hin.
  apply in_or_app. left. exact Hin.
Qed.

(** The slot configuration selects the resolved date, once, whatever
    the driver answers. *)
Lemma configure_and_submit_selects (w : W) (v : string) :
  booking_date_string (clock w) (self_booking_ahead_days self) = Ok v ->
  (exists r, In (EvCall (SelectOption "#ddlDates" v) r)
               (trace (configure_and_submit self w))) /\
  count is_date_selection (trace (configure_and_submit self w)) = 1%nat.
Proof.
  intros Hv. unfold_methods.
  unfold bind, do_call, print, ret, lift, datetime_now, trace.
  rewrite Hv. cbn [fst snd].
  repeat match goal with
         | |- context [port_call ?c ?x] =>
             is_var x;
             destruct (port_call c x) as [[?|?] ?]; cbn [fst snd app]
         | |- context [truthy ?b] =>
             destruct (truthy b); cbn [fst snd app]
         end;
    (split; [eexists; left; reflexivity | reflexivity]).
Qed.

Lemma enter_session_no_date : avoids is_date_selection (enter_session (W := W)).
Proof. unfold_methods. avoid. Qed.

Lemma reach_slot_configuration_no_date :
  avoids is_date_selection (reach_slot_configuration self).
Proof. unfold_methods. avoid. Qed.

Lemma on_exception_no_date (e : exn) :
  avoids is_date_selection (on_exception self e).
Proof. unfold_methods. avoid. Qed.

(** An attempt that reaches the slot configuration selects the date
    resolved from the clock of that moment, and selects once. *)
Lemma book_court_selects_date (w : W) (v : string) :
  outcome (enter_session w) = Ok tt ->
  outcome (reach_slot_configuration self (world_after (enter_session w)))
  = Ok tt ->
  outcome (calculate_booking_date self
             (world_after
                (reach_slot_configuration self
                   (world_after (enter_session w))))) = Ok v ->
  (exists r, In (EvCall (SelectOption "#ddlDates" v) r)
               (trace (book_court self w))) /\
  count is_date_selection (trace (book_court self w)) = 1%nat.
Proof.
  intros Henter Hreach Hdate.
  rewrite DateResolver.calculate_booking_date_run in Hdate.
  unfold outcome at 1 in Hdate. cbn [fst] in Hdate.
  destruct (enter_session w) as [[r1 w1] t1] eqn:Hrun.
  unfold outcome, world_after in Henter, Hreach, Hdate.
  cbn [fst snd] in Henter, Hreach, Hdate. subst r1.
  pose proof (enter_session_no_date w) as Ht1.
  rewrite Hrun in Ht1. unfold trace in Ht1. cbn [snd] in Ht1.
  destruct (reach_slot_configuration self w1) as [[r2 w2] t2] eqn:Hr.
  cbn [fst snd] in Hreach, Hdate. subst r2.
  pose proof (reach_slot_configuration_no_date w1) as Ht2.
  rewrite Hr in Ht2. unfold trace in Ht2. cbn [snd] in Ht2.
  destruct (configure_and_submit_selects w2 v Hdate) as ([r Hin] & Hone).
  assert (Hint : trace (interaction self w1)
                 = (t2 ++ trace (configure_and_submit self w2))%list).
  { rewrite Attempt.interaction_split.
    rewrite (bind_ok _ _ _ _ _ _ Hr). reflexivity. }
  rewrite (Attempt.book_court_run self w w1 t1 Hrun). cbv zeta.
  unfold trace at 1 3. cbn [snd].
  rewrite Attempt.guarded_attempt_run. cbv zeta.
  unfold trace at 1 4. cbn [snd].
  split.
  - exists r. apply in_or_app. right. apply in_or_app. left.
    apply in_or_app. left. apply try_except_keeps. rewrite Hint.
    apply in_or_app. right. exact Hin.
  - rewrite !count_app, Ht1.
    rewrite (try_except_count _ _ _ _ on_exception_no_date).
    rewrite Hint, count_app, Ht2, Hone. reflexivity.
Qed.

(** C7: the date chosen in the dropdown is computed anew in every
    attempt, from the clock of that attempt.  Every attempt of a run of
    the controller is a run of [book_court] in the world the run has
    reached; an attempt that reaches the slot configuration selects in
    the date dropdown, once, the date the resolver gives for the clock as
    it stands at that moment, and no attempt selects any other date;
    hence two attempts that reach the slot configuration on different
    days select different dates. *)
Theorem booking_date_recomputed_each_attempt :
  (forall (max_retries retry_delay : option Z) (w : W) inner r,
      In (EvBookCourt inner r)
         (trace (run_with_retry (book_court self) self max_retries
                   retry_delay w)) ->
      exists w', inner = trace (book_court self w') /\
                 r = outcome (book_court self w')) /\
  (forall (w : W) (v : string),
      outcome (enter_session w) = Ok tt ->
      outcome (reach_slot_configuration self (world_after (enter_session w)))
      = Ok tt ->
      outcome (calculate_booking_date self
                 (world_after
                    (reach_slot_configuration self
                       (world_after (enter_session w))))) = Ok v ->
      (exists r, In (EvCall (SelectOption "#ddlDates" v) r)
                   (trace (book_court self w))) /\
      count is_date_selection (trace (book_court self w)) = 1%nat) /\
  (forall (w : W) (v : string) (r : result pyval),
      outcome (enter_session w) = Ok tt ->
      In (EvCall (SelectOption "#ddlDates" v) r) (trace (book_court self w)) ->
      outcome (calculate_booking_date self
                 (world_after
                    (reach_slot_configuration self
                       (world_after (enter_session w))))) = Ok v) /\
  (forall (wa wb : W),
      let ca := world_after (reach_slot_configuration self
                               (world_after (enter_session wa))) in
      let cb := world_after (reach_slot_configuration self
                               (world_after (enter_session wb))) in
      outcome (enter_session wa) = Ok tt ->
      outcome (enter_session wb) = Ok tt ->
      outcome (reach_slot_configuration self (world_after (enter_session wa)))
      = Ok tt ->
      outcome (reach_slot_configuration self (world_after (enter_session wb)))
      = Ok tt ->
      valid_datetime (clock ca) -> valid_datetime (clock cb) ->
      0 <= self_booking_ahead_days self ->
      toordinal (clock ca) + self_booking_ahead_days self <= MAXORDINAL ->
      toordinal (clock cb) + self_booking_ahead_days self <= MAXORDINAL ->
      ~ same_date (clock ca) (clock cb) ->
      exists sa sb ra rb,
        In (EvCall (SelectOption "#ddlDates" sa) ra)
           (trace (book_court self wa)) /\
        In (EvCall (SelectOption "#ddlDates" sb) rb)
           (trace (book_court self wb)) /\
        sa <> sb).
Proof.
  split; [|split; [|split]].
  - intros max_retries retry_delay w inner r Hin. unfold run_with_retry in Hin.
    destruct (RetryOutcome.retry_loop_attempts_are_runs _ _ _ _ _ _ _ Hin)
      as (w' & Hr & Ht).
    exists w'. split; symmetry; assumption.
  - exact book_court_selects_date.
  - intros w v r Henter Hin.
    destruct (enter_session w) as [[r1 w1] t1] eqn:Hrun.
    unfold outcome in Henter. cbn [fst] in Henter. subst r1.
    unfold world_after at 2. cbn [fst snd].
    exact (Attempt.date_selection_value self w w1 t1 v r Hrun Hin).
  - intros wa wb ca cb Ha Hb Hra Hrb Hva Hvb Hn Hmaxa Hmaxb Hdiff.
    pose proof (DateResolver.booking_date_string_ok (clock ca)
                  (self_booking_ahead_days self)
                  (CalendarFacts.valid_datetime_ymd _ Hva) Hn Hmaxa) as Hsa.
    pose proof (DateResolver.booking_date_string_ok (clock cb)
                  (self_booking_ahead_days self)
                  (CalendarFacts.valid_datetime_ymd _ Hvb) Hn Hmaxb) as Hsb.
    assert (Hda : outcome (calculate_booking_date self ca)
                  = Ok (date_token (plus_days
                          (Z.to_nat (self_booking_ahead_days self))
                          (clock ca))))
      by (rewrite DateResolver.calculate_booking_date_run; exact Hsa).
    assert (Hdb : outcome (calculate_booking_date self cb)
                  = Ok (date_token (plus_days
                          (Z.to_nat (self_booking_ahead_days self))
                          (clock cb))))
      by (rewrite DateResolver.calculate_booking_date_run; exact Hsb).
    destruct (book_court_selects_date wa _ Ha Hra Hda) as ([ra Hina] & _).
    destruct (book_court_selects_date wb _ Hb Hrb Hdb) as ([rb Hinb] & _).
    eexists. eexists. exists ra, rb.
    split; [exact Hina|]. split; [exact Hinb|].
    exact (Attempt.resolver_distinguishes_days self ca cb _ _
             Hva Hvb Hn Hmaxa Hmaxb Hdiff Hda Hdb).
Qed.

End OneSession.

(** The script on a driver that never fails, thirteen days ahead of
    2025-01-01. *)
Lemma interaction_script_on_new_year :
  let port := Mock.on Mock.never false in
  let self := Mock.booker_of 13 in
  outcome (@interaction _ port self 0) = Ok (false, SLOT_TAKEN) /\
  calls_of (trace (@interaction _ port self 0))
  = interaction_script self "1/14/2025".
Proof.
  cbv zeta.
  assert (Hout : outcome (@interaction _ (Mock.on Mock.never false)
                            (Mock.booker_of 13) 0) = Ok (false, SLOT_TAKEN))
    by (vm_compute; reflexivity).
  split; [exact Hout|].
  rewrite (proj2 (@interaction_calls_follow_script _
                    (Mock.on Mock.never false) (Mock.booker_of 13) 0)
             _ Hout).
  vm_compute. reflexivity.
Defined.

(** The scenario of [test_book_court_success]. *)
Lemma successful_attempt_on_mock :
  let port := Mock.on Mock.never true in
  let self := Mock.booker_of 13 in
  outcome (@book_court _ port self 0) = Ok (true, "Booking successful") /\
  count call_failed (trace (@book_court _ port self 0)) = 0%nat.
Proof.
  cbv zeta.
  assert (Hout : outcome (@book_court _ (Mock.on Mock.never true)
                            (Mock.booker_of 13) 0)
                 = Ok (true, "Booking successful"))
    by (vm_compute; reflexivity).
  split; [exact Hout|].
  exact (proj1 (proj2 (@successful_attempt_made_every_call _
                         (Mock.on Mock.never true) (Mock.booker_of 13) 0
                         "Booking successful" Hout))).
Defined.

(** A configuration that passes the validation and asks for a day
    three million days ahead. *)
Lemma overflowing_date_on_mock :
  let port := Mock.on Mock.never false in
  let self := Mock.booker_of 3000000 in
  ConfigManager._validate (config self) = Ok tt /\
  outcome (@interaction _ port self 0)
  = Raise (mk_exn OverflowError "date value out of range") /\
  count is_selection (trace (@interaction _ port self 0)) = 0%nat.
Proof.
  cbv zeta. split; [reflexivity|].
  destruct (@overflowing_date_aborts_before_selection _
              (Mock.on Mock.never false) (Mock.booker_of 3000000) 0)
    as (Hrun & Hsel & _).
  - vm_compute. reflexivity.
  - cbn. lia.
  - vm_compute. reflexivity.
  - split; [rewrite Hrun; reflexivity | exact Hsel].
Defined.

(** [test_book_court_failure] and [test_book_court_success] *)
Lemma slot_taken_when_marker_absent :
  outcome (@book_court _ (Mock.on Mock.never false) (Mock.booker_of 13) 0)
  = Ok (false, "Booking failed - slot may be taken") /\
  outcome (@book_court _ (Mock.on Mock.never true) (Mock.booker_of 13) 0)
  = Ok (true, "Booking successful") /\
  screenshot_calls
    (trace (@book_court _ (Mock.on Mock.never false) (Mock.booker_of 13) 0))
  = 0%nat.
Proof.
  assert (Habsent :
    outcome (@book_court _ (Mock.on Mock.never false) (Mock.booker_of 13) 0)
    = Ok (false, "Booking failed - slot may be taken")).
  { destruct (@book_court_outcome_without_exception _
                (Mock.on Mock.never false) (Mock.booker_of 13)) as [Hrun _].
    edestruct (Hrun 0) as (Hout & _); [vm_compute; reflexivity ..|].
    rewrite Hout. reflexivity. }
  split; [exact Habsent|]. split.
  - destruct (@book_court_outcome_without_exception _
                (Mock.on Mock.never true) (Mock.booker_of 13)) as [Hrun _].
    edestruct (Hrun 0) as (Hout & _); [vm_compute; reflexivity ..|].
    rewrite Hout. reflexivity.
  - destruct (@book_court_outcome_without_exception _
                (Mock.on Mock.never false) (Mock.booker_of 13)) as [_ Hwhy].
    destruct (Hwhy 0 Habsent) as (_ & [(_ & Hshots & _)|(e & He & _)]).
    + exact Hshots.
    + vm_compute in He. discriminate.
Defined.

(** [page.goto] fails and the driver's message is the text of the
    verdict: the attempt returns the very outcome of an absent marker,
    though nothing was submitted and the marker was never looked for. *)
Lemma slot_taken_reason_from_driver :
  let port := Mock.on Mock.misleading_error false in
  let run := @book_court _ port (Mock.booker_of 13) 0 in
  outcome (@interaction _ port (Mock.booker_of 13)
             (world_after (@enter_session _ port 0)))
  = Raise (mk_exn Exception "Booking failed - slot may be taken") /\
  outcome run = Ok (false, "Booking failed - slot may be taken") /\
  outcome run
  = outcome (@book_court _ (Mock.on Mock.never false) (Mock.booker_of 13) 0) /\
  count is_submission (trace run) = 0%nat /\
  count is_marker_query (trace run) = 0%nat.
Proof.
  cbv zeta. repeat split; vm_compute; reflexivity.
Qed.

(** Two attempts of one run with midnight between them, one minute
    before midnight of 2025-01-01 and thirteen days ahead: both are
    attempts of the run, and they select different dates. *)
Lemma dates_selected_across_midnight :
  let self := Mock.booker_of 13 in
  let run := @run_with_retry _ Mock.late_evening
               (@book_court _ Mock.late_evening self) self
               (Some 2) (Some 60) 0 in
  let first := @book_court _ Mock.late_evening self 0 in
  let second := @book_court _ Mock.late_evening self
                  (@sleep _ Mock.late_evening 60 (world_after first)) in
  In (EvBookCourt (trace first) (outcome first)) (trace run) /\
  In (EvBookCourt (trace second) (outcome second)) (trace run) /\
  (exists r, In (EvCall (SelectOption "#ddlDates" "1/14/2025") r)
               (trace first)) /\
  exists sa sb ra rb,
    In (EvCall (SelectOption "#ddlDates" sa) ra) (trace first) /\
    In (EvCall (SelectOption "#ddlDates" sb) rb) (trace second) /\
    sa <> sb.
Proof.
  cbv zeta.
  destruct (@booking_date_recomputed_each_attempt _ Mock.late_evening
              (Mock.booker_of 13)) as (_ & Hsel & _ & Hdiff).
  split; [vm_compute; do 3 right; left; reflexivity|].
  split; [vm_compute; do 9 right; left; reflexivity|].
  split.
  - apply (Hsel 0 "1/14/2025"); vm_compute; reflexivity.
  - apply (Hdiff 0 (@sleep _ Mock.late_evening 60
                      (world_after
                         (@book_court _ Mock.late_evening
                            (Mock.booker_of 13) 0)))).
    + vm_compute. reflexivity.
    + vm_compute. reflexivity.
    + vm_compute. reflexivity.
    + vm_compute. reflexivity.
    + vm_compute. intuition discriminate.
    + vm_compute. intuition discriminate.
    + vm_compute. discriminate.
    + vm_compute. discriminate.
    + vm_compute. discriminate.
    + vm_compute. intros (_ & _ & Hday). discriminate.
Defined.

End Session.
(* ================================================================== *)
(** * Whole runs: from the configuration to the attempts               *)
(* ================================================================== *)

Module WholeRun.

Import Observed.

Section Run.
Context {W : Type} `{AutomationPort W}.

(** X9: the controller never touches the browser itself, and what it
    records as an attempt is an attempt.  In a run of [run_with_retry]
    over [book_court], with any limits, no call on the driver is made
    outside the attempts; every attempt of the run is a complete run of
    [book_court] from some world, with the outcome recorded for it; it
    closes the browser at most once, takes at most one screenshot,
    never calls [time.sleep] and never starts an attempt of its own. *)
Theorem attempts_of_a_run_are_complete
    (self : CourtBooker) (max_retries retry_delay : option Z) (w : W) :
  let t := trace (run_with_retry (book_court self) self max_retries
                    retry_delay w) in
  count is_port_call t = 0%nat /\
  forall inner r,
    In (EvBookCourt inner r) t ->
    (exists w', outcome (book_court self w') = r /\
                trace (book_court self w') = inner) /\
    (close_calls inner <= 1)%nat /\
    (screenshot_calls inner <= 1)%nat /\
    sleep_calls inner = 0%nat /\
    book_calls inner = 0%nat.
Proof.
  cbv zeta. unfold run_with_retry. split.
  - apply RetryOutcome.retry_loop_no_port_call.
  - intros inner r Hin.
    destruct (RetryOutcome.retry_loop_attempts_are_runs _ _ _ _ _ _ _ Hin)
      as (w' & Hr & Ht).
    split; [exists w'; split; assumption|]. subst inner.
    split; [apply Attempt.book_court_closes_at_most_once|].
    split.
    + rewrite Session.book_court_screenshots.
      destruct (outcome (enter_session w')); [|lia].
      destruct (outcome (interaction self _)); [lia|].
      destruct (isinstance_Exception _); lia.
    + split; [apply Session.book_court_no_sleep
             | apply Session.book_court_no_book].
Qed.



End Run.

(** The first attempt of a run on a driver that never fails. *)
Lemma first_attempt_of_a_run :
  let port := Mock.on Mock.never true in
  let self := Mock.booker_of 13 in
  let inner := trace (@book_court _ port self 0) in
  In (EvBookCourt inner (Ok (true, "Booking successful")))
     (trace (@run_with_retry _ port (@book_court _ port self) self
               None None 0)) /\
  (close_calls inner <= 1)%nat /\ sleep_calls inner = 0%nat.
Proof.
  cbv zeta.
  assert (Hin :
    In (EvBookCourt
          (trace (@book_court _ (Mock.on Mock.never true)
                    (Mock.booker_of 13) 0))
          (Ok (true, "Booking successful")))
       (trace (@run_with_retry _ (Mock.on Mock.never true)
                 (@book_court _ (Mock.on Mock.never true)
                    (Mock.booker_of 13))
                 (Mock.booker_of 13) None None 0)))
    by (vm_compute; do 3 right; left; reflexivity).
  split; [exact Hin|].
  destruct (proj2 (@attempts_of_a_run_are_complete _
                     (Mock.on Mock.never true) (Mock.booker_of 13)
                     None None 0) _ _ Hin)
    as (_ & Hclose & _ & Hsleep & _).
  split; assumption.
Defined.


End WholeRun.
(* ================================================================== *)
(** * The environment: validate_env.py against config_manager.py       *)
(* ================================================================== *)

Module Environment.

Import ConfigManager Environ ValidateEnvironment.

Lemma check_required_missing (env : environ) (entry : string * string) :
  snd (check_required env entry)
  = if is_set (getenv1 env (fst entry)) then [] else [fst entry].
Proof.
  destruct entry as [var description]. unfold check_required, is_set.
  cbn [fst]. destruct (getenv1 env var) as [[|c rest]|]; reflexivity.
Qed.

Lemma missing_in (env : environ) (vars : list (string * string)) (var : string) :
  In var (flat_map (fun entry => snd (check_required env entry)) vars) <->
  In var (map fst vars) /\ is_set (getenv1 env var) = false.
Proof.
  rewrite in_flat_map. split.
  - intros (entry & Hin & Hvar). rewrite check_required_missing in Hvar.
    destruct (is_set (getenv1 env (fst entry))) eqn:Hset; [contradiction|].
    destruct Hvar as [<-|[]]. split; [apply in_map; exact Hin | exact Hset].
  - intros (Hin & Hset). apply in_map_iff in Hin.
    destruct Hin as (entry & <- & Hin). exists entry. split; [exact Hin|].
    rewrite check_required_missing, Hset. left. reflexivity.
Qed.

Lemma validate_passes_iff_none_missing (env : environ) :
  fst (validate_environment env) = true <-> missing_vars env = [].
Proof.
  unfold validate_environment.
  destruct (missing_vars env) as [|var rest]; cbn [fst]; split;
    intros Heq; try reflexivity; discriminate.
Qed.

Lemma none_missing_iff (env : environ) :
  missing_vars env = [] <->
  forall var, In var (map fst required_vars) ->
              is_set (getenv1 env var) = true.
Proof.
  unfold missing_vars. split.
  - intros Hnone var Hin.
    destruct (is_set (getenv1 env var)) eqn:Hset; [reflexivity|].
    assert (Hmiss : In var
              (flat_map (fun entry => snd (check_required env entry))
                 required_vars))
      by (apply missing_in; split; assumption).
    rewrite Hnone in Hmiss. contradiction.
  - intros Hall.
    destruct (flat_map _ required_vars) as [|var rest] eqn:Hm; [reflexivity|].
    assert (Hmiss : In var
              (flat_map (fun entry => snd (check_required env entry))
                 required_vars))
      by (rewrite Hm; left; reflexivity).
    apply missing_in in Hmiss. destruct Hmiss as (Hin & Hset).
    rewrite (Hall var Hin) in Hset. discriminate.
Qed.

(** X11: [validate_environment] passes exactly when each of the five
    required variables is set to a string that is not empty; the exit
    code of the script is 0 exactly then; and when it fails, every
    required variable that is unset or empty is listed among the lines
    printed. *)
Theorem validate_environment_passes_iff (env : environ) :
  (fst (validate_environment env) = true <->
   forall var, In var (map fst required_vars) ->
               is_set (getenv1 env var) = true) /\
  (exit_code env = 0 <-> fst (validate_environment env) = true) /\
  (forall var, In var (map fst required_vars) ->
               is_set (getenv1 env var) = false ->
               fst (validate_environment env) = false /\
               In ("  - " ++ var) (snd (validate_environment env))).
Proof.
  split; [|split].
  - rewrite validate_passes_iff_none_missing. apply none_missing_iff.
  - unfold exit_code. destruct (fst (validate_environment env)); split;
      intros Heq; try reflexivity; discriminate.
  - intros var Hin Hset.
    assert (Hmiss : In var (missing_vars env))
      by (apply missing_in; split; assumption).
    unfold validate_environment.
    destruct (missing_vars env) as [|v rest] eqn:Hm; [contradiction|].
    cbn [fst snd]. split; [reflexivity|].
    apply in_or_app. right. apply in_or_app. right.
    apply in_or_app. left.
    apply (in_map (fun var => "  - " ++ var)) in Hmiss. exact Hmiss.
Qed.

Section Loading.
Variable env : environ.
Variable int : string -> result Z.

Lemma str_not_is_set (key : string) :
  str_not (getenv env key "") = negb (is_set (getenv1 env key)).
Proof.
  unfold getenv, getenv1, is_set, str_not.
  destruct (env key) as [[|c rest]|]; reflexivity.
Qed.

(** X12: what [validate_env.py] checks is what [get_config] needs of the
    credentials.  When the three numbers of the environment parse,
    [get_config] raises [ValueError] (Username and password are
    required) exactly when [CITYSPORTS_USERNAME] or
    [CITYSPORTS_PASSWORD] is unset or empty; so it does not raise it in
    an environment that [validate_environment] lets pass. *)
Theorem credentials_error_iff_unset (ahead retries delay : Z) :
  int (getenv env "BOOKING_AHEAD_DAYS" "13") = Ok ahead ->
  int (getenv env "MAX_RETRIES" "5") = Ok retries ->
  int (getenv env "RETRY_DELAY" "5") = Ok delay ->
  (get_config (getenv env) int
   = Raise (mk_exn ValueError "Username and password are required") <->
   is_set (getenv1 env "CITYSPORTS_USERNAME") = false \/
   is_set (getenv1 env "CITYSPORTS_PASSWORD") = false) /\
  (fst (validate_environment env) = true ->
   get_config (getenv env) int
   <> Raise (mk_exn ValueError "Username and password are required")).
Proof.
  intros Hahead Hretries Hdelay.
  assert (Hiff :
    get_config (getenv env) int
    = Raise (mk_exn ValueError "Username and password are required") <->
    is_set (getenv1 env "CITYSPORTS_USERNAME") = false \/
    is_set (getenv1 env "CITYSPORTS_PASSWORD") = false).
  { unfold get_config. rewrite Hahead, Hretries, Hdelay.
    unfold new_BookingConfig, __post_init__, _validate.
    cbn [username password login_url booking_ahead_days max_retries
         retry_delay duration].
    rewrite !str_not_is_set.
    destruct (is_set (getenv1 env "CITYSPORTS_USERNAME"));
      destruct (is_set (getenv1 env "CITYSPORTS_PASSWORD"));
      cbn [negb orb].
    2-4: split; [intros _; auto | reflexivity].
    split; [|intros [Hf|Hf]; discriminate].
    repeat match goal with
           | |- context [if ?b then _ else _] => destruct b
           end; discriminate. }
  split; [exact Hiff|].
  intros Hpass Hraise. apply Hiff in Hraise.
  apply validate_passes_iff_none_missing in Hpass.
  pose proof (proj1 (none_missing_iff env) Hpass) as Hall.
  destruct Hraise as [Hf|Hf];
    rewrite Hall in Hf; try discriminate; cbn; auto.
Qed.

(** X13: the defaults of [config_manager.py] are the settings of
    [config.py].  With the two credentials set, none of the nine
    optional variables set and the default numbers parsed as written,
    [get_config] returns a configuration with the credentials of the
    environment whose other settings are the constants of [config.py];
    it is valid. *)
Theorem get_config_defaults (user pw : string) :
  int "13" = Ok 13 -> int "5" = Ok 5 ->
  getenv1 env "CITYSPORTS_USERNAME" = Some user -> user <> "" ->
  getenv1 env "CITYSPORTS_PASSWORD" = Some pw -> pw <> "" ->
  (forall key,
      In key ["ZIP_CODE"; "CLUB_NAME"; "LOGIN_URL"; "PREFERRED_DAY";
              "PREFERRED_TIME"; "DURATION"; "BOOKING_AHEAD_DAYS";
              "MAX_RETRIES"; "RETRY_DELAY"] ->
      getenv1 env key = None) ->
  exists c,
    get_config (getenv env) int = Ok c /\ valid_config c /\
    username c = user /\ password c = pw /\
    zip_code c = Config.ZIP_CODE /\ club_name c = Config.CLUB_NAME /\
    login_url c = Config.LOGIN_URL /\
    preferred_day c = Config.PREFERRED_DAY /\
    preferred_time c = Config.PREFERRED_TIME /\
    duration c = Config.DURATION /\
    booking_ahead_days c = Config.BOOKING_AHEAD_DAYS /\
    max_retries c = Config.MAX_RETRIES /\
    retry_delay c = Config.RETRY_DELAY.
Proof.
  intros H13 H5 Huser Hu Hpw Hp Hunset.
  assert (Hdefault : forall key d,
            In key ["ZIP_CODE"; "CLUB_NAME"; "LOGIN_URL"; "PREFERRED_DAY";
                    "PREFERRED_TIME"; "DURATION"; "BOOKING_AHEAD_DAYS";
                    "MAX_RETRIES"; "RETRY_DELAY"] ->
            getenv env key d = d).
  { intros key d Hin. unfold getenv. specialize (Hunset key Hin).
    unfold getenv1 in Hunset. rewrite Hunset. reflexivity. }
  assert (Hgu : getenv env "CITYSPORTS_USERNAME" "" = user)
    by (unfold getenv; unfold getenv1 in Huser; rewrite Huser; reflexivity).
  assert (Hgp : getenv env "CITYSPORTS_PASSWORD" "" = pw)
    by (unfold getenv; unfold getenv1 in Hpw; rewrite Hpw; reflexivity).
  unfold get_config. rewrite Hgu, Hgp.
  repeat match goal with
         | |- context [getenv env ?key ?d] =>
             rewrite (Hdefault key d) by (cbn; tauto)
         end.
  rewrite H13, H5.
  unfold new_BookingConfig, __post_init__.
  match goal with
  | |- context [_validate ?c] =>
      assert (Hvalid : valid_config c)
  end.
  { unfold valid_config. cbn.
    repeat split; try assumption; try lia; try discriminate.
    do 3 right. left. reflexivity. }
  pose proof (proj2 (Configuration.validate_ok_iff _) Hvalid) as Hv.
  rewrite Hv. eexists. split; [reflexivity|]. split; [exact Hvalid|].
  cbn. repeat split; reflexivity.
Qed.

End Loading.

(** An environment that sets the five required variables. *)
Lemma validate_environment_complete :
  let env :=
    Fixtures.environ_of
      [ ("CITYSPORTS_USERNAME", "alice@example.org");
        ("CITYSPORTS_PASSWORD", "s3cret");
        ("EMAIL_TO", "to@example.org");
        ("EMAIL_FROM", "from@example.org");
        ("EMAIL_PASSWORD", "mailpw") ] in
  fst (validate_environment env) = true /\ exit_code env = 0.
Proof.
  cbv zeta.
  match goal with
  | |- fst (validate_environment ?env) = true /\ _ =>
      assert (Hpass : fst (validate_environment env) = true)
  end.
  { apply (proj2 (proj1 (validate_environment_passes_iff _))).
    intros var Hin. cbn in Hin.
    repeat (destruct Hin as [<-|Hin]; [reflexivity|]). contradiction. }
  split; [exact Hpass|].
  apply (proj2 (proj1 (proj2 (validate_environment_passes_iff _)))).
  exact Hpass.
Defined.

(** The password is missing: the loading fails on the credentials. *)
Lemma credentials_error_without_password :
  get_config
    (getenv (Fixtures.environ_of [("CITYSPORTS_USERNAME", "alice")]))
    Fixtures.int_of_str
  = Raise (mk_exn ValueError "Username and password are required").
Proof.
  apply (proj2 (proj1 (credentials_error_iff_unset
                         (Fixtures.environ_of
                            [("CITYSPORTS_USERNAME", "alice")])
                         Fixtures.int_of_str 13 5 5
                         eq_refl eq_refl eq_refl))).
  right. reflexivity.
Defined.

(** The two credentials and nothing else. *)
Lemma defaults_with_credentials_only :
  exists c,
    get_config
      (getenv (Fixtures.environ_of
                 [ ("CITYSPORTS_USERNAME", "alice");
                   ("CITYSPORTS_PASSWORD", "s3cret") ]))
      Fixtures.int_of_str = Ok c /\
    booking_ahead_days c = 13 /\ duration c = "120".
Proof.
  destruct (get_config_defaults
              (Fixtures.environ_of
                 [ ("CITYSPORTS_USERNAME", "alice");
                   ("CITYSPORTS_PASSWORD", "s3cret") ])
              Fixtures.int_of_str "alice" "s3cret")
    as (c & Hc & _ & _ & _ & _ & _ & _ & _ & _ & Hd & Ha & _).
  - reflexivity.
  - reflexivity.
  - reflexivity.
  - discriminate.
  - reflexivity.
  - discriminate.
  - intros key Hin. cbn in Hin.
    repeat (destruct Hin as [<-|Hin]; [reflexivity|]). contradiction.
  - exists c. split; [exact Hc|]. split; [exact Ha | exact Hd].
Defined.

End Environment.
(* ================================================================== *)
(** * The date token against the assertions of the tests               *)
(* ================================================================== *)

Module TokenChecks.

Import TestBookingBot CalendarFacts.

Lemma count_char_app (c : ascii) (a b : string) :
  count_char c (a ++ b) = (count_char c a + count_char c b)%nat.
Proof.
  induction a as [|x a IH]; [reflexivity|].
  cbn. rewrite IH. lia.
Qed.

Lemma digits_no_slash (s : string) :
  all_digits s = true -> count_char "/" s = 0%nat.
Proof.
  induction s as [|x s IH]; [reflexivity|].
  cbn [all_digits count_char]. intros Hd.
  apply andb_prop in Hd. destruct Hd as [Hx Hs].
  apply andb_prop in Hx. destruct Hx as [Hlo Hhi].
  rewrite (IH Hs).
  destruct (Ascii.eqb x "/") eqn:Hx; [|reflexivity].
  apply Ascii.eqb_eq in Hx. subst x. discriminate.
Qed.

Lemma split_whole (c : ascii) (s : string) :
  count_char c s = 0%nat -> split c s = [s].
Proof.
  induction s as [|x s IH]; [reflexivity|].
  cbn [count_char split].
  destruct (Ascii.eqb x c); [discriminate|].
  intros Hs. rewrite (IH Hs). reflexivity.
Qed.

Lemma split_first (c : ascii) (a r : string) :
  count_char c a = 0%nat -> split c (a ++ String c r) = a :: split c r.
Proof.
  induction a as [|x a IH].
  - intros _. cbn. rewrite Ascii.eqb_refl. reflexivity.
  - cbn [count_char]. cbn [append split].
    destruct (Ascii.eqb x c); [discriminate|].
    intros Ha. rewrite (IH Ha). reflexivity.
Qed.

(** The month and the day read back. *)
Lemma int_of_str_int (n : Z) :
  1 <= n <= 31 -> int_of_digits (str_int n) = Some n.
Proof.
  intros Hn. assert (Hin : In n (range 1 32)) by (apply in_range; lia).
  enum Hin; subst n; reflexivity.
Qed.

(** The year read back, with its width and its characters. *)
Lemma int_of_pad4 (y : Z) :
  0 <= y <= 9999 ->
  int_of_digits (pad4 y) = Some y /\ all_digits (pad4 y) = true.
Proof.
  intros Hy.
  assert (Hall :
    forallb (fun y => match int_of_digits (pad4 y) with
                      | Some z => (z =? y) && all_digits (pad4 y)
                      | None => false
                      end) (range 0 10000) = true)
    by (vm_compute; reflexivity).
  rewrite forallb_forall in Hall.
  specialize (Hall y (in_range 0 10000 y ltac:(lia))).
  destruct (int_of_digits (pad4 y)) as [z|]; [|discriminate].
  apply andb_prop in Hall. destruct Hall as [Hz Hd].
  apply Z.eqb_eq in Hz. subst z. split; [reflexivity | exact Hd].
Qed.

Lemma date_token_checks (t : datetime) :
  valid_ymd t -> year t <= 9999 ->
  format_assertions (date_token t) = true /\
  parse_date (date_token t) = Some (year t, month t, day t).
Proof.
  intros (Hy & Hm & Hd) Hmax.
  pose proof (days_in_month_bounds (year t) (month t) Hm) as Hdim.
  assert (Hday : 1 <= day t <= 31) by lia.
  assert (Hmonth : 1 <= month t <= 31) by lia.
  pose proof (DateResolver.str_int_digits (month t) Hmonth) as Hdm.
  pose proof (DateResolver.str_int_digits (day t) Hday) as Hdd.
  destruct (int_of_pad4 (year t)) as (Hpy & Hdy); [lia|].
  assert (Hsplit : split "/" (date_token t)
                   = [str_int (month t); str_int (day t); pad4 (year t)]).
  { unfold date_token.
    change (str_int (month t) ++ "/" ++ str_int (day t) ++ "/"
            ++ pad4 (year t))
      with (str_int (month t)
            ++ String "/" (str_int (day t) ++ String "/" (pad4 (year t)))).
    rewrite split_first by (apply digits_no_slash; exact Hdm).
    rewrite split_first by (apply digits_no_slash; exact Hdd).
    rewrite split_whole by (apply digits_no_slash; exact Hdy).
    reflexivity. }
  assert (Hcount : count_char "/" (date_token t) = 2%nat).
  { unfold date_token.
    change (str_int (month t) ++ "/" ++ str_int (day t) ++ "/"
            ++ pad4 (year t))
      with (str_int (month t)
            ++ String "/" (str_int (day t) ++ String "/" (pad4 (year t)))).
    rewrite count_char_app. cbn [count_char]. rewrite count_char_app.
    cbn [count_char].
    rewrite !digits_no_slash by assumption. reflexivity. }
  split.
  - unfold format_assertions. rewrite Hsplit, Hcount.
    rewrite !int_of_str_int by lia.
    pose proof (DateResolver.str_int_no_leading_zero (month t) Hmonth)
      as Hlead.
    destruct (DateResolver.pad4_chars (year t)) as (a & b & c & e & Hpad).
    unfold date_token.
    destruct (str_int (month t)) as [|c0 rest] eqn:Hs; [contradiction|].
    cbn [append no_leading_zero] in *.
    rewrite Hpad. cbn [String.length Nat.eqb andb].
    unfold between.
    replace (Ascii.eqb c0 "0") with false
      by (symmetry; apply Ascii.eqb_neq; exact Hlead).
    replace (1 <=? month t) with true by (symmetry; apply Z.leb_le; lia).
    replace (month t <=? 12) with true by (symmetry; apply Z.leb_le; lia).
    replace (1 <=? day t) with true by (symmetry; apply Z.leb_le; lia).
    replace (day t <=? 31) with true by (symmetry; apply Z.leb_le; lia).
    reflexivity.
  - unfold parse_date. rewrite Hsplit, Hpy.
    rewrite !int_of_str_int by lia. reflexivity.
Qed.

(** X14: what the resolver returns passes the tests of its format and
    reads back as the target day.  For a calendar day [today] and a
    number of days [n >= 0] that stays within the range of [datetime],
    the string has no leading zero, two slashes, a month in 1..12, a
    day in 1..31 and a year of four characters (the assertions of
    [test_calculate_booking_date_format]), and its three parts parsed
    as integers are the year, the month and the day of the calendar day
    [n] days after [today], a date that exists (what
    [test_calculate_booking_date_advance_days] rebuilds and compares). *)
Theorem booking_date_passes_the_tests (today : datetime) (n : Z) :
  valid_ymd today -> 0 <= n -> toordinal today + n <= MAXORDINAL ->
  let target := plus_days (Z.to_nat n) today in
  exists s,
    Booker.booking_date_string today n = Ok s /\
    format_assertions s = true /\
    parse_date s = Some (year target, month target, day target) /\
    valid_ymd target.
Proof.
  intros Hvalid Hn Hmax target.
  destruct (plus_days_spec (Z.to_nat n) today Hvalid) as (Htarget & Hord).
  fold target in Htarget, Hord.
  assert (Hyear : year target <= 9999)
    by (apply year_within_range; [exact Htarget | lia]).
  destruct (date_token_checks target Htarget Hyear) as (Hformat & Hparse).
  exists (date_token target).
  split; [apply DateResolver.booking_date_string_ok; assumption|].
  split; [exact Hformat|]. split; [exact Hparse | exact Htarget].
Qed.

(** Thirteen days after 2025-01-01. *)
Lemma token_of_new_year_passes_the_tests :
  exists s,
    Booker.booking_date_string Mock.new_year_2025 13 = Ok s /\
    format_assertions s = true /\
    parse_date s = Some (2025, 1, 14).
Proof.
  destruct (booking_date_passes_the_tests Mock.new_year_2025 13)
    as (s & Hs & Hf & Hp & _).
  - unfold valid_ymd. vm_compute. intuition discriminate.
  - lia.
  - vm_compute. discriminate.
  - exists s. split; [exact Hs|]. split; [exact Hf|]. exact Hp.
Defined.

End TokenChecks.
(* ================================================================== *)
(** * The masking of the secrets in validate_env.py                    *)
(* ================================================================== *)

Module Masking.

Import Environ ValidateEnvironment.

Lemma repeat_char_length (c : ascii) (n : nat) :
  String.length (repeat_char c n) = n.
Proof. induction n as [|n IH]; [reflexivity|]. cbn. rewrite IH. reflexivity. Qed.

Lemma repeat_char_get (c : ascii) (n i : nat) :
  (i < n)%nat -> String.get i (repeat_char c n) = Some c.
Proof.
  revert i. induction n as [|n IH]; intros i Hi; [lia|].
  destruct i as [|i]; [reflexivity|]. cbn. apply IH. lia.
Qed.

(** The mask of a value of more than three characters. *)
Lemma masked_value_long (a b c d : ascii) (rest : string) :
  ValidateEnv.masked_value (String a (String b (String c (String d rest))))
  = String a (String b (String c
      (repeat_char "*" (S (String.length rest))))).
Proof.
  unfold ValidateEnv.masked_value.
  replace (3 <? len (String a (String b (String c (String d rest)))))
    with true by (symmetry; apply Z.ltb_lt; unfold len; cbn [String.length]; lia).
  rewrite Configuration.slice_to_3.
  replace (Z.to_nat (len (String a (String b (String c (String d rest)))) - 3))
    with (S (String.length rest)) by (unfold len; cbn [String.length]; lia).
  reflexivity.
Qed.

Lemma masked_value_short (value : string) :
  len value <= 3 -> ValidateEnv.masked_value value = "***".
Proof.
  intros Hlen. unfold ValidateEnv.masked_value.
  replace (3 <? len value) with false by (symmetry; apply Z.ltb_ge; lia).
  reflexivity.
Qed.

(** X15: the mask of a secret shows its first three characters and its
    length and nothing else, and only when it is longer than three
    characters.  The mask is as long as the value, or three characters
    long when the value is shorter than that; from the fourth character
    on it consists of stars; a value of up to three characters is
    printed as three stars whatever it is; and two values of the same
    length that start with the same three characters have the same
    mask. *)
Theorem masked_value_hides_tail (value : string) :
  len (ValidateEnv.masked_value value) = Z.max 3 (len value) /\
  (forall i, 3 <= i < len (ValidateEnv.masked_value value) ->
             getitem (ValidateEnv.masked_value value) i = Ok "*"%char) /\
  (len value <= 3 -> ValidateEnv.masked_value value = "***") /\
  (forall other,
      len other = len value -> slice_to other 3 = slice_to value 3 ->
      ValidateEnv.masked_value other = ValidateEnv.masked_value value).
Proof.
  split; [|split; [|split]].
  - destruct value as [|a [|b [|c [|d rest]]]]; try reflexivity.
    rewrite masked_value_long. unfold len. cbn [String.length].
    rewrite repeat_char_length. lia.
  - intros i Hi.
    destruct value as [|a [|b [|c [|d rest]]]];
      try (rewrite masked_value_short in Hi by (unfold len; cbn [String.length]; lia);
           unfold len in Hi; cbn in Hi; lia).
    rewrite masked_value_long in Hi |- *.
    unfold len in Hi. cbn [String.length] in Hi.
    rewrite repeat_char_length in Hi.
    unfold getitem, len. cbn [String.length]. rewrite repeat_char_length.
    replace (i <? 0) with false by (symmetry; apply Z.ltb_ge; lia).
    replace (0 <=? i) with true by (symmetry; apply Z.leb_le; lia).
    replace (i <? _) with true by (symmetry; apply Z.ltb_lt; lia).
    cbn [andb].
    replace (Z.to_nat i) with (S (S (S (Z.to_nat (i - 3))))) by lia.
    cbn [String.get]. rewrite repeat_char_get by lia. reflexivity.
  - apply masked_value_short.
  - intros other Hlen Hslice. unfold ValidateEnv.masked_value.
    rewrite Hlen, Hslice. reflexivity.
Qed.

Lemma check_required_same_mask (env env' : environ) (var description : string) :
  same_mask env env' var ->
  check_required env (var, description) = check_required env' (var, description).
Proof.
  unfold same_mask, check_required.
  destruct (getenv1 env var) as [[|c rest]|];
    destruct (getenv1 env' var) as [[|c' rest']|];
    try contradiction; try reflexivity.
  intros ->. reflexivity.
Qed.

(** X16: what [validate_environment] prints and returns depends on the
    five secrets through their masks only.  Two environments that agree
    on the two optional variables and in which every required variable
    has the same mask (or is missing in both) give the same lines and
    the same verdict: past the third character nothing of a secret but
    its length reaches the output. *)
Theorem validate_environment_shows_masks_only (env env' : environ) :
  (forall var, In var (map fst required_vars) -> same_mask env env' var) ->
  (forall var, In var (map fst optional_vars) ->
               getenv1 env var = getenv1 env' var) ->
  validate_environment env = validate_environment env'.
Proof.
  intros Hreq Hopt.
  assert (Hr : forall entry, In entry required_vars ->
                 check_required env entry = check_required env' entry).
  { intros [var description] Hin. apply check_required_same_mask.
    apply Hreq. apply (in_map fst) in Hin. exact Hin. }
  assert (Ho : forall entry, In entry optional_vars ->
                 check_optional env entry = check_optional env' entry).
  { intros [var description] Hin. unfold check_optional.
    rewrite (Hopt var); [reflexivity|].
    apply (in_map fst) in Hin. exact Hin. }
  unfold validate_environment, missing_vars.
  rewrite (map_ext_in _ _ _ (fun entry Hin => f_equal fst (Hr entry Hin))).
  rewrite (map_ext_in _ _ _ Ho).
  rewrite !flat_map_concat_map.
  rewrite (map_ext_in _ _ _ (fun entry Hin => f_equal snd (Hr entry Hin))).
  reflexivity.
Qed.

(** A secret of three characters, and one of six. *)
Lemma masked_value_examples :
  ValidateEnv.masked_value "bob" = "***" /\
  len (ValidateEnv.masked_value "s3cret") = 6.
Proof.
  split.
  - apply (proj1 (proj2 (proj2 (masked_value_hides_tail "bob")))).
    vm_compute. discriminate.
  - exact (proj1 (masked_value_hides_tail "s3cret")).
Defined.

(** Two passwords of six characters that begin alike. *)
Lemma validate_environment_same_output :
  validate_environment
    (Fixtures.environ_of [("CITYSPORTS_PASSWORD", "s3cret")])
  = validate_environment
      (Fixtures.environ_of [("CITYSPORTS_PASSWORD", "s3cure")]).
Proof.
  apply validate_environment_shows_masks_only.
  - intros var Hin. cbn in Hin.
    repeat (destruct Hin as [<-|Hin]; [vm_compute; auto|]). contradiction.
  - intros var Hin. cbn in Hin.
    repeat (destruct Hin as [<-|Hin]; [reflexivity|]). contradiction.
Defined.

End Masking.
